(** * RSI signal pipeline of [CurrencyDataAnalyzer] (src/project.py)

    A shallow embedding of the analysis core of [project.py]: the series
    normaliser [preprocess_data], the RSI engine [calculate_rsi], the
    orchestration in [analyze_currency_strength] and the signal generator
    [generate_trade_signals], followed by the properties established for
    them.

    Conventions of the embedding.
    - A float64 is a value of [fl]: [NaN], the two infinities, or a finite
      number carried as an exact rational.  Rounding is not modelled, and
      the two IEEE zeros are identified.  The sums and quotients of the
      embedding are therefore exact where the program rounds, and the
      statements below are chosen not to depend on it: they are about the
      entries that are undefined, about the cases of the division, about
      the thresholds relative to the values that are stored, and about
      the structure and the ownership of the tables.
    - A pandas [Series] is a [list fl]; positions play the role of the
      (shared) index.  A [DataFrame] is an index together with an ordered
      list of labelled columns.
    - Python exceptions are values of [exn]; a method of the analyser is a
      function from the analyser state to an outcome and a new state, so
      that what an exception leaves behind is visible.
    - Objects that are stored in attributes ([self.analysis],
      [self.signals]) live in a heap and the attributes hold references. *)

From Stdlib Require Import ZArith QArith Qabs List String Ascii Bool Lia Lqa.
From Stdlib Require Import Sorting.Sorted Sorting.Permutation.
From stdpp Require Import base option gmap.
Import ListNotations.

Local Open Scope string_scope.
Local Open Scope Z_scope.
Local Open Scope list_scope.

(** ** Exceptions and fallible computations *)

Inductive exn : Type :=
| KeyError (key : string)
| ValueError (msg : string)
| TypeError (msg : string)
| AttributeError (msg : string).

Inductive result (A : Type) : Type :=
| Ok (a : A)
| Raise (e : exn).
Arguments Ok {A} a.
Arguments Raise {A} e.

Definition rbind {A B} (r : result A) (k : A -> result B) : result B :=
  match r with
  | Ok a => k a
  | Raise e => Raise e
  end.

Fixpoint rmap {A B} (f : A -> result B) (l : list A) : result (list B) :=
  match l with
  | [] => Ok []
  | x :: t =>
      rbind (f x) (fun y => rbind (rmap f t) (fun ys => Ok (y :: ys)))
  end.

(** ** Floating-point values *)

Inductive fl : Type :=
| NaN
| PInf
| NInf
| Fin (q : Q).

Definition Qsgn (q : Q) : Z := Z.sgn (Qnum q).

Definition is_nan (x : fl) : bool :=
  match x with NaN => true | _ => false end.

Definition is_inf (x : fl) : bool :=
  match x with PInf | NInf => true | _ => false end.

(** A value is defined when it is an ordinary (finite) number. *)
Definition is_defined (x : fl) : bool :=
  match x with Fin _ => true | _ => false end.

Definition fl_neg (x : fl) : fl :=
  match x with
  | NaN => NaN
  | PInf => NInf
  | NInf => PInf
  | Fin q => Fin (- q)
  end.

Definition fl_add (x y : fl) : fl :=
  match x, y with
  | NaN, _ | _, NaN => NaN
  | PInf, NInf | NInf, PInf => NaN
  | PInf, _ | _, PInf => PInf
  | NInf, _ | _, NInf => NInf
  | Fin a, Fin b => Fin (a + b)
  end.

Definition fl_sub (x y : fl) : fl := fl_add x (fl_neg y).

(** Division follows IEEE 754: a non-zero number over zero is an infinity,
    zero over zero is [NaN].  With the two zeros identified, a positive
    number over zero is [PInf]; over a negative zero it would be [NInf],
    which [calculate_rsi] maps to the same RSI (see
    [rsi_same_for_both_infinities]). *)
Definition fl_div (x y : fl) : fl :=
  match x, y with
  | NaN, _ | _, NaN => NaN
  | (PInf | NInf), (PInf | NInf) => NaN
  | PInf, Fin b => if (Qsgn b <? 0)%Z then NInf else PInf
  | NInf, Fin b => if (Qsgn b <? 0)%Z then PInf else NInf
  | Fin _, (PInf | NInf) => Fin 0
  | Fin a, Fin b =>
      if (Qsgn b =? 0)%Z then
        (if (0 <? Qsgn a)%Z then PInf
         else if (Qsgn a <? 0)%Z then NInf
         else NaN)
      else Fin (a / b)
  end.

(** Comparisons; every comparison with [NaN] is false. *)
Definition fl_ltb (x y : fl) : bool :=
  match x, y with
  | NaN, _ | _, NaN => false
  | _, NInf => false
  | NInf, _ => true
  | PInf, _ => false
  | Fin _, PInf => true
  | Fin a, Fin b => negb (Qle_bool b a)
  end.

Definition fl_gtb (x y : fl) : bool := fl_ltb y x.

(** ** Series *)

Abbreviation Series := (list fl).

(** [s.shift()]: every value moves one position down, the first becomes
    [NaN], the last is dropped. *)
Definition shift (s : Series) : Series :=
  match s with
  | [] => []
  | _ :: _ => NaN :: removelast s
  end.

(** [s.diff()] is [s - s.shift()]. *)
Definition diff (s : Series) : Series := zip_with fl_sub s (shift s).

(** [s > c] and [s < c] for a scalar [c]. *)
Definition gt_scalar (s : Series) (c : fl) : list bool :=
  map (fun x => fl_gtb x c) s.
Definition lt_scalar (s : Series) (c : fl) : list bool :=
  map (fun x => fl_ltb x c) s.

(** [s.where(cond, other)]: keep the value where [cond] holds. *)
Definition where_ (s : Series) (cond : list bool) (other : fl) : Series :=
  zip_with (fun x (c : bool) => if c then x else other) s cond.

Definition neg (s : Series) : Series := map fl_neg s.

(** [s.fillna(v)]. *)
Definition fillna (s : Series) (v : fl) : Series :=
  map (fun x => if is_nan x then v else x) s.

(** *** Rolling mean

    [s.rolling(window=w).mean()] with the default [min_periods = w].
    A negative window is rejected when the rolling object is validated;
    a window beyond [max_window] is outside the embedding.
    Infinite entries are turned into [NaN] before aggregation; the value at
    position [i] aggregates the observations (non-[NaN] entries) at
    positions [i-w+1 .. i] that exist, and is [NaN] unless there are at
    least [w] of them and at least one.  The library carries one running
    sum in floating point from window to window; the embedding takes the
    exact mean of each window.  Both are undefined at the same positions
    below [w - 1]; elsewhere the library's mean can differ from the exact
    one by the rounding of the running sum, and an overflow of that sum
    shows in later windows as well. *)

Definition inf_to_nan (x : fl) : fl := if is_inf x then NaN else x.

Fixpoint observations (l : list fl) : list Q :=
  match l with
  | [] => []
  | Fin q :: t => q :: observations t
  | _ :: t => observations t
  end.

Fixpoint Qsum (l : list Q) : Q :=
  match l with
  | [] => 0
  | q :: t => q + Qsum t
  end.

Definition window_at (w : nat) (s : Series) (i : nat) : list fl :=
  let start := (i + 1 - w)%nat in
  firstn (i + 1 - start) (skipn start s).

Definition window_mean (w : nat) (s : Series) (i : nat) : fl :=
  let obs := observations (window_at w s i) in
  let nobs := length obs in
  if (w <=? nobs)%nat && (0 <? nobs)%nat
  then Fin (Qsum obs / inject_Z (Z.of_nat nobs))
  else NaN.

Definition rolling_mean (window : Z) (s : Series) : result Series :=
  if (window <? 0)%Z
  then Raise (ValueError "window must be an integer 0 or greater")
  else
    let vals := map inf_to_nan s in
    Ok (map (window_mean (Z.to_nat window) vals) (seq 0 (length s))).

(** *** [calculate_rsi] *)

Definition calculate_rsi (data : Series) (window : Z) : result Series :=
  let delta := diff data in
  rbind (rolling_mean window (where_ delta (gt_scalar delta (Fin 0)) (Fin 0)))
    (fun gain =>
  rbind (rolling_mean window (neg (where_ delta (lt_scalar delta (Fin 0)) (Fin 0))))
    (fun loss =>
  let rs := zip_with fl_div gain loss in
  let rsi := map (fun x => fl_sub (Fin 100) (fl_div (Fin 100) (fl_add (Fin 1) x))) rs in
  Ok rsi)).

Definition default_window : Z := 14.

(** The window is handed to the library as a machine integer; the largest
    one is [max_window]. *)
Definition max_window : Z := 2 ^ 63 - 1.

(** The intermediate series of [calculate_rsi], named as in the source. *)
Definition avg_gain (data : Series) (window : Z) : result Series :=
  let delta := diff data in
  rolling_mean window (where_ delta (gt_scalar delta (Fin 0)) (Fin 0)).

Definition avg_loss (data : Series) (window : Z) : result Series :=
  let delta := diff data in
  rolling_mean window (neg (where_ delta (lt_scalar delta (Fin 0)) (Fin 0))).

(** The last two lines of [calculate_rsi] at one position. *)
Definition rsi_of (gain loss : fl) : fl :=
  fl_sub (Fin 100) (fl_div (Fin 100) (fl_add (Fin 1) (fl_div gain loss))).

(** A flat start followed by rises and one fall. *)
Definition flat_then_up : list Q := [1; 1; 2; 2; 3; 2]%Q.

(** The fifteen closing prices of the concrete scenario. *)
Definition close15 : list Q :=
  [110#100; 112#100; 109#100; 115#100; 120#100; 118#100; 125#100; 130#100;
   128#100; 133#100; 135#100; 140#100; 138#100; 142#100; 145#100]%Q.


(** ** Raw input

    The body of the HTTP response after [response.json()]: a JSON object
    whose entry ["Time Series FX (Daily)"] maps date strings to records,
    each record mapping a field label to a JSON value.  Python dictionaries
    keep insertion order, so a dictionary is an association list (with
    pairwise distinct keys).  A value is a string, [null], or a number
    that the decoder hands over as a float or as an integer within the range
    of the doubles; other JSON values are outside the embedding. *)

Inductive raw : Type :=
| RStr (s : string)
| RNum (q : Q)
| RNull.

Definition RawRecord : Type := list (string * raw).
Definition RawSeries : Type := list (string * RawRecord).
Definition Response : Type := list (string * RawSeries).

Fixpoint assoc {A} (k : string) (l : list (string * A)) : option A :=
  match l with
  | [] => None
  | (k', v) :: t => if String.eqb k k' then Some v else assoc k t
  end.

(** *** Text to number: the builtin [float] on a string

    Strings are texts of ASCII characters; on other characters the
    embedding is silent, and no statement below concludes anything from the
    rejection of a text that has one.

    The conversion follows the interpreter.  Digit-group underscores are
    checked and removed first: each must stand between two digits.  Blanks
    around the text are dropped.  What is left is an optional sign followed
    by [nan], [inf] or [infinity] in any letter case, or by decimal digits
    with an optional fraction and an optional exponent; at least one digit
    is required, and at most [max_digits] significant ones are read.  The
    value is rounded to a double only as far as its class goes: beyond the
    largest double it is an infinity, below half the smallest one it is
    zero, and otherwise it is kept as the exact decimal. *)

Definition is_digit (c : ascii) : bool :=
  let n := N_of_ascii c in (48 <=? n)%N && (n <=? 57)%N.

Definition digit_val (c : ascii) : Z := Z.of_N (N_of_ascii c) - 48.

Definition is_space (c : ascii) : bool :=
  let n := N_of_ascii c in
  (n =? 32)%N || ((9 <=? n)%N && (n <=? 13)%N).

Definition is_ascii_text (s : string) : bool :=
  forallb (fun c => (N_of_ascii c <? 128)%N) (list_ascii_of_string s).

Definition to_lower (c : ascii) : ascii :=
  let n := N_of_ascii c in
  if (65 <=? n)%N && (n <=? 90)%N then ascii_of_N (n + 32) else c.

Fixpoint take_digits (l : list ascii) : list ascii * list ascii :=
  match l with
  | c :: t =>
      if is_digit c
      then let '(ds, rest) := take_digits t in (c :: ds, rest)
      else ([], l)
  | [] => ([], [])
  end.

Definition digits_val (ds : list ascii) : Z :=
  fold_left (fun acc c => 10 * acc + digit_val c) ds 0.

(** The text without its underscores, [prev] being the character before
    [l]; [None] when an underscore does not follow a digit or is not
    followed by one. *)
Fixpoint drop_underscores (prev : ascii) (l : list ascii) : option (list ascii) :=
  match l with
  | [] => if Ascii.eqb prev "_" then None else Some []
  | c :: t =>
      if Ascii.eqb c "_" then
        (if is_digit prev then drop_underscores c t else None)
      else if Ascii.eqb prev "_" && negb (is_digit c) then None
      else option_map (cons c) (drop_underscores c t)
  end.

Fixpoint lstrip (l : list ascii) : list ascii :=
  match l with
  | c :: t => if is_space c then lstrip t else l
  | [] => []
  end.

Definition strip (l : list ascii) : list ascii :=
  rev (lstrip (rev (lstrip l))).

Definition parse_sign (l : list ascii) : bool * list ascii :=
  match l with
  | "-"%char :: t => (true, t)
  | "+"%char :: t => (false, t)
  | _ => (false, l)
  end.

Definition parse_exponent (l : list ascii) : option Z :=
  match l with
  | [] => Some 0
  | c :: t =>
      if Ascii.eqb (to_lower c) "e"%char then
        let '(neg_e, t1) := parse_sign t in
        let '(ds, t2) := take_digits t1 in
        match ds, t2 with
        | _ :: _, [] => Some (if neg_e then - digits_val ds else digits_val ds)
        | _, _ => None
        end
      else None
  end.

Fixpoint drop_zeros (ds : list ascii) : list ascii :=
  match ds with
  | "0"%char :: t => drop_zeros t
  | _ => ds
  end.

Definition max_digits : Z := 1000000000.

(** The digits counted against [max_digits]: those of the integer part
    and of the fraction, without the leading zeros. *)
Definition significant_digits (ip fp : list ascii) : nat :=
  match drop_zeros ip with
  | [] => length (drop_zeros fp)
  | ds => (length ds + length fp)%nat
  end.

Definition parse_decimal (l : list ascii) : option Q :=
  let '(ip, r1) := take_digits l in
  let '(fp, r2) :=
    match r1 with
    | "."%char :: r => take_digits r
    | _ => ([], r1)
    end in
  match ip ++ fp with
  | [] => None
  | ds =>
      if (Z.of_nat (significant_digits ip fp) <=? max_digits)
         && (Z.of_nat (length fp) <=? max_digits)
      then
        match parse_exponent r2 with
        | None => None
        | Some e =>
            let e' := e - Z.of_nat (length fp) in
            Some (if (0 <=? e') then inject_Z (digits_val ds * 10 ^ e')
                  else Qmake (digits_val ds) (Z.to_pos (10 ^ (- e'))))
        end
      else None
  end.

(** Every number of magnitude [huge] = 2^1024 - 2^970 or more rounds to an
    infinity, every number of magnitude [tiny] = 2^-1075 or less to zero. *)
Definition huge : Q := inject_Z (2 ^ 1024 - 2 ^ 970).
Definition tiny : Q := Qmake 1 (Z.to_pos (2 ^ 1075)).

Definition to_double (q : Q) : fl :=
  if Qle_bool huge q then PInf
  else if Qle_bool q (- huge) then NInf
  else if Qle_bool (Qabs q) tiny then Fin 0
  else Fin q.

Definition float_of_string (s : string) : option fl :=
  match drop_underscores "000"%char (list_ascii_of_string s) with
  | None => None
  | Some l =>
      let '(negative, body) := parse_sign (strip l) in
      let word := string_of_list_ascii (map to_lower body) in
      if String.eqb word "nan" then Some NaN
      else if String.eqb word "inf" || String.eqb word "infinity"
      then Some (if negative then NInf else PInf)
      else
        match parse_decimal body with
        | Some q => Some (to_double (if negative then (- q)%Q else q))
        | None => None
        end
  end.

Definition cast_error : exn := ValueError "could not convert string to float".

(** The cast applied by [dtype=float] to one cell. *)
Definition cast_float (v : raw) : result fl :=
  match v with
  | RNum q => Ok (to_double q)
  | RNull => Ok NaN
  | RStr s =>
      match float_of_string s with
      | Some x => Ok x
      | None => Raise cast_error
      end
  end.

(** *** Text to date: [pd.to_datetime] on a date string

    The embedding reads the ISO layout only: a four-digit year, a month
    and a day of one or two digits, separated by dashes, denoting an
    existing calendar day that a nanosecond timestamp can hold (from
    [min_date] to [max_date]).  The library reads many more layouts and
    times of day; a key that the embedding does not read is therefore not
    known to be refused by the library, and the statements below are made
    for keys that the embedding reads. *)

Record Timestamp : Type := { year : Z; month : Z; day : Z }.

Definition date_ltb (a b : Timestamp) : bool :=
  (year a <? year b)
  || ((year a =? year b)
      && ((month a <? month b)
          || ((month a =? month b) && (day a <? day b)))).

Definition date_leb (a b : Timestamp) : bool := negb (date_ltb b a).

Definition date_lt (a b : Timestamp) : Prop := date_ltb a b = true.
Definition date_le (a b : Timestamp) : Prop := date_leb a b = true.

Definition is_leap (y : Z) : bool :=
  ((y mod 4 =? 0) && negb (y mod 100 =? 0)) || (y mod 400 =? 0).

Definition days_in_month (y m : Z) : Z :=
  if m =? 2 then (if is_leap y then 29 else 28)
  else if (m =? 4) || (m =? 6) || (m =? 9) || (m =? 11) then 30
  else 31.

Definition short_number (ds : list ascii) : bool :=
  match ds with
  | [_] | [_; _] => true
  | _ => false
  end.

(** The first and the last midnight within the range of the nanosecond
    timestamps. *)
Definition min_date : Timestamp := {| year := 1677; month := 9; day := 22 |}.
Definition max_date : Timestamp := {| year := 2262; month := 4; day := 11 |}.

Definition in_bounds (t : Timestamp) : bool :=
  date_leb min_date t && date_leb t max_date.

Definition parse_date (s : string) : option Timestamp :=
  let '(ys, r1) := take_digits (list_ascii_of_string s) in
  match r1 with
  | "-"%char :: r2 =>
      let '(ms, r3) := take_digits r2 in
      match r3 with
      | "-"%char :: r4 =>
          let '(ds, r5) := take_digits r4 in
          let y := digits_val ys in
          let m := digits_val ms in
          let d := digits_val ds in
          match r5 with
          | [] =>
              if (length ys =? 4)%nat && short_number ms && short_number ds
                 && (1 <=? m) && (m <=? 12) && (1 <=? d)
                 && (d <=? days_in_month y m)
                 && in_bounds {| year := y; month := m; day := d |}
              then Some {| year := y; month := m; day := d |}
              else None
          | _ => None
          end
      | _ => None
      end
  | _ => None
  end.

(** [pd.to_datetime(index)], for the keys that the embedding reads; any
    other key is reported as the library reports a text that is no date. *)
Definition to_datetime (keys : list string) : result (list Timestamp) :=
  rmap (fun k => match parse_date k with
                 | Some t => Ok t
                 | None => Raise (ValueError "time data does not match format")
                 end) keys.

(** ** Data frames *)

Record DataFrame (I : Type) : Type :=
  { index : list I; columns : list (string * Series) }.
Arguments index {I} d.
Arguments columns {I} d.

Definition col_names {I} (df : DataFrame I) : list string :=
  map fst (columns df).

Definition has_col {I} (df : DataFrame I) (name : string) : bool :=
  existsb (String.eqb name) (col_names df).

(** [df[name]].  A label carried by two columns selects a sub-frame; the
    only use of such a selection in the source assigns its two-column
    image to a single label, which pandas refuses with a [ValueError]:
    the model reports that error at the selection. *)
Definition getitem {I} (df : DataFrame I) (name : string) : result Series :=
  match List.filter (fun c => String.eqb name (fst c)) (columns df) with
  | [] => Raise (KeyError name)
  | [(_, s)] => Ok s
  | _ => Raise (ValueError "cannot set a frame with multiple columns to a single column")
  end.

Fixpoint replace_col (name : string) (s : Series) (cols : list (string * Series))
  : list (string * Series) :=
  match cols with
  | [] => []
  | (n, c) :: t =>
      (n, if String.eqb name n then s else c) :: replace_col name s t
  end.

(** [df[name] = s]: overwrite the column, or append it as the last one. *)
Definition setitem {I} (df : DataFrame I) (name : string) (s : Series) : DataFrame I :=
  {| index := index df;
     columns := if has_col df name
                then replace_col name s (columns df)
                else columns df ++ [(name, s)] |}.

Fixpoint mask_set (col : Series) (mask : list bool) (v : fl) : Series :=
  match col, mask with
  | x :: c, m :: ms => (if m then v else x) :: mask_set c ms v
  | _, _ => col
  end.

Fixpoint mask_cols (name : string) (mask : list bool) (v : fl)
  (cols : list (string * Series)) : list (string * Series) :=
  match cols with
  | [] => []
  | (n, c) :: t =>
      (n, if String.eqb name n then mask_set c mask v else c)
        :: mask_cols name mask v t
  end.

(** [df.loc[mask, name] = v] for a scalar [v].  A missing column is first
    created full of [NaN]; on a frame without rows that is refused. *)
Definition loc_setitem {I} (df : DataFrame I) (mask : list bool) (name : string) (v : fl)
  : result (DataFrame I) :=
  if has_col df name then
    Ok {| index := index df; columns := mask_cols name mask v (columns df) |}
  else
    match index df with
    | [] => Raise (ValueError "cannot set a frame with no defined index and a scalar")
    | _ :: _ =>
        Ok {| index := index df;
              columns := columns df
                         ++ [(name, mask_set (repeat NaN (length (index df))) mask v)] |}
    end.

(** [df.rename(columns=mapping)]. *)
Definition rename {I} (mapping : list (string * string)) (df : DataFrame I) : DataFrame I :=
  {| index := index df;
     columns := map (fun c => (match assoc (fst c) mapping with
                               | Some n => n
                               | None => fst c
                               end, snd c)) (columns df) |}.

(** *** [DataFrame.from_dict(data, orient='index', dtype=float)]

    The nested dictionary is turned inside out: one column per field
    label, in order of first appearance; one row per key that carries at
    least one field; [NaN] where a record lacks the field.  The rows are
    listed here in the order of the keys, which is the library's order
    when all records carry the same fields; otherwise the library lists
    the keys by first appearance column after column.  [preprocess_data]
    sorts the rows afterwards, and no statement below depends on their
    order before that.  Every cell is cast to float, and a cell that
    cannot be cast aborts the construction with a [ValueError] (pandas 2;
    earlier versions kept such a column as text). *)

Fixpoint add_labels (seen : list string) (ls : list string) : list string :=
  match ls with
  | [] => seen
  | l :: t =>
      add_labels (if existsb (String.eqb l) seen then seen else seen ++ [l]) t
  end.

Definition labels (data : RawSeries) : list string :=
  fold_left (fun seen kr => add_labels seen (map fst (snd kr))) data [].

Definition rows (data : RawSeries) : RawSeries :=
  List.filter (fun kr => match snd kr with [] => false | _ => true end) data.

Definition cell (label : string) (r : RawRecord) : result fl :=
  match assoc label r with
  | Some v => cast_float v
  | None => Ok NaN
  end.

Definition from_dict (data : RawSeries) : result (DataFrame string) :=
  rbind (rmap (fun l => rbind (rmap (fun kr => cell l (snd kr)) (rows data))
                              (fun c => Ok (l, c)))
              (labels data))
        (fun cols => Ok {| index := map fst (rows data); columns := cols |}).

(** *** [df.sort_index()]

    The index is sorted together with the positions of its entries, and
    every column is rearranged by the resulting permutation.  Rows with
    equal dates keep their order here; the library's default sort promises
    no order among them, and no statement below depends on one. *)

Fixpoint insert_sorted (x : Timestamp * nat) (l : list (Timestamp * nat))
  : list (Timestamp * nat) :=
  match l with
  | [] => [x]
  | y :: t =>
      if date_leb (fst x) (fst y) then x :: l else y :: insert_sorted x t
  end.

Fixpoint sort_pairs (l : list (Timestamp * nat)) : list (Timestamp * nat) :=
  match l with
  | [] => []
  | x :: t => insert_sorted x (sort_pairs t)
  end.

Definition take_rows (order : list nat) (s : Series) : Series :=
  map (fun p => nth p s NaN) order.

Definition sort_index (df : DataFrame Timestamp) : DataFrame Timestamp :=
  let sorted := sort_pairs (combine (index df) (seq 0 (length (index df)))) in
  {| index := map fst sorted;
     columns := map (fun c => (fst c, take_rows (map snd sorted) (snd c)))
                    (columns df) |}.

(** The order in which [sort_index] compares two entries. *)
Definition pair_le (x y : Timestamp * nat) : Prop := date_le (fst x) (fst y).

(** *** [preprocess_data] *)

Definition column_names : list (string * string) :=
  [("1. open", "Open"); ("2. high", "High"); ("3. low", "Low"); ("4. close", "Close")].

Definition preprocess_data (data : RawSeries) : result (DataFrame Timestamp) :=
  rbind (from_dict data) (fun df =>
  let df := rename column_names df in
  rbind (to_datetime (index df)) (fun dates =>
  let df := {| index := dates; columns := columns df |} in
  Ok (sort_index df))).

(** ** The analyser object *)

Abbreviation loc := positive.

Record analyzer : Type :=
  { heap : gmap positive (DataFrame Timestamp);
    data : option Response;
    analysis : option loc;
    signals : option loc }.

Definition M (A : Type) : Type := analyzer -> result A * analyzer.

Definition ret {A} (a : A) : M A := fun st => (Ok a, st).

Definition raise {A} (e : exn) : M A := fun st => (Raise e, st).

Definition bind {A B} (m : M A) (k : A -> M B) : M B :=
  fun st =>
    match m st with
    | (Ok a, st') => k a st'
    | (Raise e, st') => (Raise e, st')
    end.

Notation "'let*' x ':=' m 'in' k" := (bind m (fun x => k))
  (at level 10, x name, m at level 100, k at level 200).

Definition lift {A} (r : result A) : M A := fun st => (r, st).

(** Creating an object: it is placed at a location not yet in use. *)
Definition alloc (df : DataFrame Timestamp) : M loc :=
  fun st =>
    let l := fresh (dom (heap st)) in
    (Ok l, {| heap := <[l := df]> (heap st); data := data st;
              analysis := analysis st; signals := signals st |}).

(** Reading the object behind a reference.  References held by an analyser
    point into its heap; for a state breaking this the model answers as
    for an attribute that was never set. *)
Definition load (l : loc) : M (DataFrame Timestamp) :=
  fun st =>
    match heap st !! l with
    | Some df => (Ok df, st)
    | None => (Raise (AttributeError "'NoneType' object has no attribute"), st)
    end.

(** In-place update of the object behind a reference. *)
Definition store (l : loc) (df : DataFrame Timestamp) : M unit :=
  fun st =>
    (Ok tt, {| heap := <[l := df]> (heap st); data := data st;
               analysis := analysis st; signals := signals st |}).

Definition getitem_at (l : loc) (name : string) : M Series :=
  let* df := load l in lift (getitem df name).

Definition setitem_at (l : loc) (name : string) (s : Series) : M unit :=
  let* df := load l in store l (setitem df name s).

Definition loc_setitem_at (l : loc) (mask : list bool) (name : string) (v : fl) : M unit :=
  let* df := load l in
  let* df' := lift (loc_setitem df mask name v) in
  store l df'.

(** [obj.copy()]: a new object with the same contents. *)
Definition copy_at (l : loc) : M loc :=
  let* df := load l in alloc df.

Definition get_data : M Response :=
  fun st =>
    match data st with
    | Some d => (Ok d, st)
    | None => (Raise (TypeError "'NoneType' object is not subscriptable"), st)
    end.

Definition get_analysis : M loc :=
  fun st =>
    match analysis st with
    | Some l => (Ok l, st)
    | None => (Raise (AttributeError "'NoneType' object has no attribute 'copy'"), st)
    end.

Definition set_analysis (l : loc) : M unit :=
  fun st =>
    (Ok tt, {| heap := heap st; data := data st;
               analysis := Some l; signals := signals st |}).

Definition set_signals (l : loc) : M unit :=
  fun st =>
    (Ok tt, {| heap := heap st; data := data st;
               analysis := analysis st; signals := Some l |}).

Definition subscript {A} (d : list (string * A)) (k : string) : result A :=
  match assoc k d with
  | Some v => Ok v
  | None => Raise (KeyError k)
  end.

(** *** [analyze_currency_strength] *)

Definition time_series_key : string := "Time Series FX (Daily)".

Definition analyze_currency_strength : M unit :=
  let* d := get_data in
  let* series := lift (subscript d time_series_key) in
  let* df := lift (preprocess_data series) in
  let* l := alloc df in
  let* close := getitem_at l "Close" in
  let* rsi := lift (calculate_rsi close default_window) in
  let* _ := setitem_at l "RSI" rsi in
  set_analysis l.

(** *** [generate_trade_signals] *)

Definition generate_trade_signals : M unit :=
  let* la := get_analysis in
  let* l := copy_at la in
  let* rsi := getitem_at l "RSI" in
  let* _ := loc_setitem_at l (gt_scalar rsi (Fin 70)) "Signal" (Fin (-1)) in
  let* rsi := getitem_at l "RSI" in
  let* _ := loc_setitem_at l (lt_scalar rsi (Fin 30)) "Signal" (Fin 1) in
  let* sig := getitem_at l "Signal" in
  let* _ := setitem_at l "Signal" (fillna sig (Fin 0)) in
  let* sig := getitem_at l "Signal" in
  let* _ := setitem_at l "Position" (shift sig) in
  set_signals l.

(** *** The run of [main], between the download and the rendering *)

(** The analyser after [__init__] and a [fetch_currency_data] that
    received [response]. *)
Definition fetched (response : Response) : analyzer :=
  {| heap := ∅; data := Some response; analysis := None; signals := None |}.

Definition pipeline : M unit :=
  let* _ := analyze_currency_strength in
  generate_trade_signals.

(** The three signal values. *)
Definition Sell : fl := Fin (-1).
Definition Buy : fl := Fin 1.
Definition Neutral : fl := Fin 0.

(** ** Vocabulary of the statements *)

(** [NaN] or a finite non-negative number. *)
Definition nonneg_or_nan (x : fl) : Prop :=
  match x with
  | NaN => True
  | Fin q => (0 <= q)%Q
  | _ => False
  end.

(** [NaN] or a finite number between 0 and 100. *)
Definition in_rsi_range (x : fl) : Prop :=
  match x with
  | NaN => True
  | Fin q => (0 <= q <= 100)%Q
  | _ => False
  end.

(** [delta.where(delta > 0, 0)] and [delta.where(delta < 0, 0)] at one
    position. *)
Definition pos_part (x : fl) : fl := if fl_gtb x (Fin 0) then x else Fin 0.
Definition neg_part (x : fl) : fl := if fl_ltb x (Fin 0) then x else Fin 0.

(** The two series that [calculate_rsi] hands to the rolling mean, after
    the removal of infinities. *)
Definition gains (data : Series) : Series :=
  inf_to_nan <$> (pos_part <$> diff data).
Definition losses (data : Series) : Series :=
  inf_to_nan <$> (fl_neg <$> (neg_part <$> diff data)).

(** The signal column that [generate_trade_signals] builds on a frame with
    [n] rows and no earlier ["Signal"] column. *)
Definition signal_column (rsi : Series) (n : nat) : Series :=
  fillna (mask_set (mask_set (repeat NaN n) (gt_scalar rsi (Fin 70)) (Fin (-1)))
                   (lt_scalar rsi (Fin 30)) (Fin 1))
         (Fin 0).

(** The columns of a frame apart from ["Signal"] and ["Position"]. *)
Definition not_signal_or_position (n : string) : bool :=
  negb (String.eqb n "Signal" || String.eqb n "Position").

Definition other_columns {I} (df : DataFrame I) : list (string * Series) :=
  List.filter (fun c => not_signal_or_position (fst c)) (columns df).

(** [df] is the analysis table of [st], as [analyze_currency_strength]
    leaves it for input of the shape served by the data provider (lemma
    [analyze_currency_strength_analysis_table]): it has rows, an ["RSI"]
    column [rsi] aligned with them, and no ["Signal"] or ["Position"]
    column yet. *)
Definition analysis_table (st : analyzer) (df : DataFrame Timestamp) (rsi : Series) : Prop :=
  (exists la, analysis st = Some la /\ heap st !! la = Some df)
  /\ getitem df "RSI" = Ok rsi
  /\ has_col df "Signal" = false
  /\ has_col df "Position" = false
  /\ index df <> []
  /\ length rsi = length (index df).

(** A small analyser state for illustration: one analysis table of five
    days whose RSI column visits both thresholds. *)
Definition demo_dates : list Timestamp :=
  [ {| year := 2024; month := 1; day := 1 |};
    {| year := 2024; month := 1; day := 2 |};
    {| year := 2024; month := 1; day := 3 |};
    {| year := 2024; month := 1; day := 4 |};
    {| year := 2024; month := 1; day := 5 |} ].

Definition demo_rsi : Series := [NaN; Fin 75; Fin 70; Fin 30; Fin 25].

Definition demo_table : DataFrame Timestamp :=
  {| index := demo_dates;
     columns := [("Close", [Fin 1; Fin 2; Fin 2; Fin 1; Fin 1]); ("RSI", demo_rsi)] |}.

Definition demo_state : analyzer :=
  {| heap := <[1%positive := demo_table]> ∅;
     data := None;
     analysis := Some 1%positive;
     signals := None |}.

(** Sample responses. *)

Definition empty_response : Response := [(time_series_key, [])].

(** One day, without a closing price. *)
Definition no_close_response : Response :=
  [(time_series_key,
    [("2024-01-02",
      [("1. open", RStr "1.0950"); ("2. high", RStr "1.1010"); ("3. low", RStr "1.0900")])])].

(** Two days, the second with an unreadable closing price. *)
Definition malformed_response : Response :=
  [(time_series_key,
    [("2024-01-02",
      [("1. open", RStr "1.0950"); ("2. high", RStr "1.1010");
       ("3. low", RStr "1.0900"); ("4. close", RStr "1.0990")]);
     ("2024-01-03",
      [("1. open", RStr "1.0990"); ("2. high", RStr "1.1050");
       ("3. low", RStr "1.0940"); ("4. close", RStr "N/A")])])].

(** Two keys written differently for the same day. *)
Definition same_day_twice : RawSeries :=
  [("2024-01-05",
    [("1. open", RStr "1.0950"); ("2. high", RStr "1.1010");
     ("3. low", RStr "1.0900"); ("4. close", RStr "1.0990")]);
   ("2024-1-5",
    [("1. open", RStr "1.2000"); ("2. high", RStr "1.2100");
     ("3. low", RStr "1.1900"); ("4. close", RStr "1.2050")])].

(** The shape of the mappings served by the data provider: every field
    of every record carries one of the four price labels. *)
Definition api_labels : list string :=
  ["1. open"; "2. high"; "3. low"; "4. close"].

Definition provider_shaped (series : RawSeries) : Prop :=
  forall key record label v,
    In (key, record) series -> In (label, v) record -> In label api_labels.

(** The renaming of one label in [preprocess_data]. *)
Definition renamed (label : string) : string :=
  match assoc label column_names with
  | Some n => n
  | None => label
  end.

(** ** Vocabulary of the further statements *)





(** Every column of the frame is as long as its index. *)
Definition well_formed {I} (df : DataFrame I) : Prop :=
  Forall (fun c => length (snd c) = length (index df)) (columns df).

(** A raw series that can be analysed: it has the provider's shape, every
    cell is a finite number, every key is a date (in the ISO layout, within
    the range of the timestamps), and some record carries a closing
    price. *)
Definition analysable (series : RawSeries) : Prop :=
  provider_shaped series
  /\ (forall key record label v,
        In (key, record) series -> In (label, v) record ->
        exists q, cast_float v = Ok (Fin q))
  /\ (forall key record,
        In (key, record) series -> record <> [] ->
        exists t, parse_date key = Some t)
  /\ (exists key record v,
        In (key, record) series /\ In ("4. close", v) record).

(** Three days as the provider serves them. *)
Definition three_days : RawSeries :=
  [("2024-01-03",
    [("1. open", RStr "1.0990"); ("2. high", RStr "1.1050");
     ("3. low", RStr "1.0940"); ("4. close", RStr "1.1020")]);
   ("2024-01-02",
    [("1. open", RStr "1.0950"); ("2. high", RStr "1.1010");
     ("3. low", RStr "1.0900"); ("4. close", RStr "1.0990")]);
   ("2024-01-04",
    [("1. open", RStr "1.1020"); ("2. high", RStr "1.1100");
     ("3. low", RStr "1.1000"); ("4. close", RStr "1.1080")])].

Definition three_days_response : Response := [(time_series_key, three_days)].

(** ** The remaining methods

    *** [plot_data]

    The method reads the two tables and hands four curves to the plotting
    library: the closing prices and the RSI as lines over the dates, and
    the Buy and Sell markers as points.  The embedding returns the content
    of the figure that [savefig] writes; the rendering itself and the file
    are outside it. *)

Definition fl_eqb (x y : fl) : bool :=
  match x, y with
  | Fin a, Fin b => Qeq_bool a b
  | PInf, PInf | NInf, NInf => true
  | _, _ => false
  end.

(** [s == c] for a scalar [c]. *)
Definition eq_scalar (s : Series) (c : fl) : list bool :=
  map (fun x => fl_eqb x c) s.

(** The entries at which the mask holds. *)
Fixpoint keep {A} (mask : list bool) (l : list A) : list A :=
  match mask, l with
  | m :: ms, x :: t => if m then x :: keep ms t else keep ms t
  | _, _ => []
  end.

(** [df[mask]]: the rows at which the mask holds. *)
Definition select_rows {I} (df : DataFrame I) (mask : list bool) : DataFrame I :=
  {| index := keep mask (index df);
     columns := map (fun c => (fst c, keep mask (snd c))) (columns df) |}.

Definition date_eqb (a b : Timestamp) : bool :=
  (year a =? year b) && (month a =? month b) && (day a =? day b).

(** The entries of [l] on the rows whose label is [t]. *)
Fixpoint rows_labelled {A} (t : Timestamp) (idx : list Timestamp) (l : list A) : list A :=
  match idx, l with
  | d :: ds, x :: xs =>
      if date_eqb d t then x :: rows_labelled t ds xs else rows_labelled t ds xs
  | _, _ => []
  end.

(** [df.loc[labels]] for a list of labels: for each label in turn, every
    row carrying it; a label carried by no row is a [KeyError]. *)
Definition loc_labels (df : DataFrame Timestamp) (labels : list Timestamp)
  : result (DataFrame Timestamp) :=
  if forallb (fun t => existsb (date_eqb t) (index df)) labels then
    Ok {| index := concat (map (fun t => rows_labelled t (index df) (index df)) labels);
          columns :=
            map (fun c => (fst c,
                           concat (map (fun t => rows_labelled t (index df) (snd c)) labels)))
                (columns df) |}
  else Raise (KeyError "not in index").

Record Curve : Type := { xs : list Timestamp; ys : Series }.

Record Figure : Type :=
  { close_curve : Curve; rsi_curve : Curve; buy_points : Curve; sell_points : Curve }.

(** [plt.scatter(x, y)] refuses coordinates of different sizes. *)
Definition scatter (x : list Timestamp) (y : Series) : result Curve :=
  if (length x =? length y)%nat then Ok {| xs := x; ys := y |}
  else Raise (ValueError "x and y must be the same size").

(** Reading [self.analysis] and [self.signals] for subscripting. *)
Definition analysis_frame : M (DataFrame Timestamp) :=
  fun st =>
    match analysis st with
    | Some l => load l st
    | None => (Raise (TypeError "'NoneType' object is not subscriptable"), st)
    end.

Definition signals_frame : M (DataFrame Timestamp) :=
  fun st =>
    match signals st with
    | Some l => load l st
    | None => (Raise (TypeError "'NoneType' object is not subscriptable"), st)
    end.

Definition plot_data : M Figure :=
  let* a1 := analysis_frame in
  let* close := lift (getitem a1 "Close") in
  let* a2 := analysis_frame in
  let* rsi := lift (getitem a2 "RSI") in
  let* s1 := signals_frame in
  let* sg1 := lift (getitem s1 "Signal") in
  let buy_signals := select_rows s1 (eq_scalar sg1 (Fin 1)) in
  let* s2 := signals_frame in
  let* sg2 := lift (getitem s2 "Signal") in
  let sell_signals := select_rows s2 (eq_scalar sg2 (Fin (-1))) in
  let* a3 := analysis_frame in
  let* buy_rows := lift (loc_labels a3 (index buy_signals)) in
  let* buy_close := lift (getitem buy_rows "Close") in
  let* buy := lift (scatter (index buy_signals) buy_close) in
  let* a4 := analysis_frame in
  let* sell_rows := lift (loc_labels a4 (index sell_signals)) in
  let* sell_close := lift (getitem sell_rows "Close") in
  let* sell := lift (scatter (index sell_signals) sell_close) in
  ret {| close_curve := {| xs := index a1; ys := close |};
         rsi_curve := {| xs := index a2; ys := rsi |};
         buy_points := buy;
         sell_points := sell |}.

(** A method that never changes the analyser. *)
Definition reads_only {A} (m : M A) : Prop := forall st, snd (m st) = st.

(** *** [__init__], [fetch_currency_data] and [main]

    The network is a function from the requested address to the answer of
    the server, of which the status and the decoded body are kept. *)

Record config : Type :=
  { api_key : string; from_currency : string; to_currency : string }.

Record http_response : Type := { status_code : Z; json : Response }.

Definition query_url (c : config) : string :=
  ("https://www.alphavantage.co/query?function=FX_DAILY&from_symbol="
   ++ from_currency c ++ "&to_symbol=" ++ to_currency c
   ++ "&apikey=" ++ api_key c)%string.

(** The exceptions of the whole program: those of the analysis, and the
    [ConnectionError] of the download. *)
Inductive io_exn : Type :=
| ConnectionError (msg : string)
| Analysis (e : exn).

(** The analyser after [__init__]. *)
Definition created : analyzer :=
  {| heap := ∅; data := None; analysis := None; signals := None |}.

Definition fetch_currency_data (c : config) (get : string -> http_response)
  (st : analyzer) : (unit + io_exn) * analyzer :=
  let response := get (query_url c) in
  if negb (status_code response =? 200)
  then (inr (ConnectionError "Failed to fetch data from Alpha Vantage."), st)
  else (inl tt,
        {| heap := heap st; data := Some (json response);
           analysis := analysis st; signals := signals st |}).

(** The body of [main] up to the figure, for any configuration ([main]
    uses the one written in the source); the PDF report, which only embeds
    the saved picture, is outside the embedding. *)
Definition run (c : config) (get : string -> http_response)
  : (Figure + io_exn) * analyzer :=
  match fetch_currency_data c get created with
  | (inr e, st) => (inr e, st)
  | (inl _, st) =>
      match analyze_currency_strength st with
      | (Raise e, st) => (inr (Analysis e), st)
      | (Ok _, st) =>
          match generate_trade_signals st with
          | (Raise e, st) => (inr (Analysis e), st)
          | (Ok _, st) =>
              match plot_data st with
              | (Raise e, st) => (inr (Analysis e), st)
              | (Ok fig, st) => (inl fig, st)
              end
          end
      end
  end.

(** The fifteen closing prices of the concrete scenario as a raw series,
    newest day first. *)
Definition fifteen_days : RawSeries :=
  [("2024-01-15", [("4. close", RNum (145 # 100))]);
   ("2024-01-14", [("4. close", RNum (142 # 100))]);
   ("2024-01-13", [("4. close", RNum (138 # 100))]);
   ("2024-01-12", [("4. close", RNum (140 # 100))]);
   ("2024-01-11", [("4. close", RNum (135 # 100))]);
   ("2024-01-10", [("4. close", RNum (133 # 100))]);
   ("2024-01-09", [("4. close", RNum (128 # 100))]);
   ("2024-01-08", [("4. close", RNum (130 # 100))]);
   ("2024-01-07", [("4. close", RNum (125 # 100))]);
   ("2024-01-06", [("4. close", RNum (118 # 100))]);
   ("2024-01-05", [("4. close", RNum (120 # 100))]);
   ("2024-01-04", [("4. close", RNum (115 # 100))]);
   ("2024-01-03", [("4. close", RNum (109 # 100))]);
   ("2024-01-02", [("4. close", RNum (112 # 100))]);
   ("2024-01-01", [("4. close", RNum (110 # 100))])]%Q.

(** A server that always answers with the given status and body. *)
Definition answering (status : Z) (body : Response) : string -> http_response :=
  fun _ => {| status_code := status; json := body |}.

Definition euro_dollar : config :=
  {| api_key := "demo"; from_currency := "EUR"; to_currency := "USD" |}.


(** A pair of tables in which the third day occurs twice and is marked
    Buy. *)
Definition repeated_dates : list Timestamp :=
  [ {| year := 2024; month := 1; day := 1 |};
    {| year := 2024; month := 1; day := 2 |};
    {| year := 2024; month := 1; day := 3 |};
    {| year := 2024; month := 1; day := 3 |} ].

Definition repeated_analysis : DataFrame Timestamp :=
  {| index := repeated_dates;
     columns := [("Close", [Fin 4; Fin 3; Fin 2; Fin 1]);
                 ("RSI", [NaN; Fin 40; Fin 25; Fin 20])] |}.

Definition repeated_signals : DataFrame Timestamp :=
  {| index := repeated_dates;
     columns := [("Close", [Fin 4; Fin 3; Fin 2; Fin 1]);
                 ("RSI", [NaN; Fin 40; Fin 25; Fin 20]);
                 ("Signal", [Fin 0; Fin 0; Fin 1; Fin 1]);
                 ("Position", [NaN; Fin 0; Fin 0; Fin 1])] |}.

Definition repeated_state : analyzer :=
  {| heap := <[2%positive := repeated_signals]> (<[1%positive := repeated_analysis]> ∅);
     data := None;
     analysis := Some 1%positive;
     signals := Some 2%positive |}.

(** * Properties of the RSI engine *)

Section RsiFacts.

Local Open Scope Q_scope.

Lemma Qsgn_zero (q : Q) : (Qsgn q =? 0)%Z = true <-> q == 0.
Proof.
  unfold Qsgn, Qeq. destruct q as [[|n|n] d]; simpl;
    split; intros H; try reflexivity; try discriminate; lia.
Qed.

Lemma Qsgn_pos (q : Q) : (0 <? Qsgn q)%Z = true <-> 0 < q.
Proof.
  unfold Qsgn, Qlt. destruct q as [[|n|n] d]; simpl;
    split; intros H; try reflexivity; try discriminate; lia.
Qed.

Lemma Qsgn_neg (q : Q) : (Qsgn q <? 0)%Z = true <-> q < 0.
Proof.
  unfold Qsgn, Qlt. destruct q as [[|n|n] d]; simpl;
    split; intros H; try reflexivity; try discriminate; lia.
Qed.

Lemma Qsgn_nonzero (q : Q) : (Qsgn q =? 0)%Z = false <-> ~ q == 0.
Proof.
  rewrite <- Qsgn_zero. destruct (Qsgn q =? 0)%Z; split; congruence.
Qed.

Lemma rsi_of_pos_loss (g l : Q) :
  0 <= g -> 0 < l ->
  exists r, rsi_of (Fin g) (Fin l) = Fin r /\ 0 <= r <= 100.
Proof.
  intros Hg Hl. unfold rsi_of.
  assert (Hl0 : (Qsgn l =? 0)%Z = false).
  { apply Qsgn_nonzero. intros E. rewrite E in Hl. revert Hl. apply Qlt_irrefl. }
  assert (Hq : 0 <= g / l).
  { apply Qle_shift_div_l; [exact Hl|]. rewrite Qmult_0_l. exact Hg. }
  assert (Hd : 0 < 1 + g / l) by lra.
  assert (Hd0 : (Qsgn (1 + g / l) =? 0)%Z = false).
  { apply Qsgn_nonzero. intros E. rewrite E in Hd. revert Hd. apply Qlt_irrefl. }
  simpl. rewrite Hl0. simpl. rewrite Hd0. simpl.
  eexists; split; [reflexivity|].
  assert (H1 : 0 <= 100 / (1 + g / l)).
  { apply Qle_shift_div_l; [exact Hd|]. lra. }
  assert (H2 : 100 / (1 + g / l) <= 100).
  { apply Qle_shift_div_r; [exact Hd|]. lra. }
  lra.
Qed.

Lemma rsi_of_zero_loss_pos_gain (g l : Q) :
  0 < g -> l == 0 -> rsi_of (Fin g) (Fin l) = Fin 100.
Proof.
  intros Hg Hl. unfold rsi_of. simpl.
  apply Qsgn_zero in Hl. apply Qsgn_pos in Hg. rewrite Hl, Hg. reflexivity.
Qed.

Lemma rsi_of_zero_zero (g l : Q) :
  g == 0 -> l == 0 -> rsi_of (Fin g) (Fin l) = NaN.
Proof.
  intros Hg Hl. unfold rsi_of. simpl.
  apply Qsgn_zero in Hl. rewrite Hl.
  assert (H1 : (0 <? Qsgn g)%Z = false).
  { destruct (0 <? Qsgn g)%Z eqn:E; [|reflexivity].
    apply Qsgn_pos in E. rewrite Hg in E. exfalso. revert E. apply Qlt_irrefl. }
  assert (H2 : (Qsgn g <? 0)%Z = false).
  { destruct (Qsgn g <? 0)%Z eqn:E; [|reflexivity].
    apply Qsgn_neg in E. rewrite Hg in E. exfalso. revert E. apply Qlt_irrefl. }
  rewrite H1, H2. reflexivity.
Qed.

(** The sign of an infinite relative strength does not show in the RSI. *)
Lemma rsi_same_for_both_infinities :
  fl_sub (Fin 100) (fl_div (Fin 100) (fl_add (Fin 1) PInf)) = Fin 100
  /\ fl_sub (Fin 100) (fl_div (Fin 100) (fl_add (Fin 1) NInf)) = Fin 100.
Proof. split; reflexivity. Qed.

Lemma rsi_of_range (g l : fl) :
  nonneg_or_nan g -> nonneg_or_nan l -> in_rsi_range (rsi_of g l).
Proof.
  destruct g as [| | |g], l as [| | |l]; simpl; try (intros; exact I); try tauto.
  intros Hg Hl.
  destruct (Qlt_le_dec 0 l) as [Hpos|Hle].
  - destruct (rsi_of_pos_loss g l Hg Hpos) as (r & -> & Hr). exact Hr.
  - assert (Hl0 : l == 0) by lra.
    destruct (Qlt_le_dec 0 g) as [Hgp|Hgle].
    + rewrite (rsi_of_zero_loss_pos_gain g l Hgp Hl0). simpl. lra.
    + assert (Hg0 : g == 0) by lra.
      rewrite (rsi_of_zero_zero g l Hg0 Hl0). exact I.
Qed.

End RsiFacts.

Lemma map_fmap {A B} (f : A -> B) (l : list A) : map f l = f <$> l.
Proof. induction l as [|x l IH]; simpl; [reflexivity|]. now rewrite IH. Qed.

Lemma length_shift (s : Series) : length (shift s) = length s.
Proof.
  destruct s as [|x s]; [reflexivity|].
  unfold shift. cbn [length]. rewrite removelast_firstn_len, length_take.
  cbn [length]. lia.
Qed.

Lemma shift_lookup_0 (s : Series) : s <> [] -> shift s !! 0%nat = Some NaN.
Proof. destruct s; [congruence|reflexivity]. Qed.

Lemma shift_lookup_S (s : Series) (i : nat) :
  (S i < length s)%nat -> shift s !! S i = s !! i.
Proof.
  intros Hi. destruct s as [|x s]; [simpl in Hi; lia|].
  unfold shift. cbn [lookup list_lookup].
  rewrite removelast_firstn_len. apply lookup_take_lt.
  cbn [length] in *. lia.
Qed.

Lemma length_diff (s : Series) : length (diff s) = length s.
Proof. unfold diff. rewrite length_zip_with, length_shift. lia. Qed.

Lemma where_gt_pos_part (delta : Series) :
  where_ delta (gt_scalar delta (Fin 0)) (Fin 0) = pos_part <$> delta.
Proof.
  unfold where_, gt_scalar. rewrite map_fmap, zip_with_fmap_r, zip_with_diag.
  reflexivity.
Qed.

Lemma where_lt_neg_part (delta : Series) :
  neg (where_ delta (lt_scalar delta (Fin 0)) (Fin 0))
  = fl_neg <$> (neg_part <$> delta).
Proof.
  unfold neg, where_, lt_scalar.
  rewrite !map_fmap, zip_with_fmap_r, zip_with_diag. reflexivity.
Qed.

Lemma rolling_mean_ok (w : Z) (s : Series) :
  0 <= w ->
  rolling_mean w s
  = Ok (window_mean (Z.to_nat w) (inf_to_nan <$> s) <$> seq 0 (length s)).
Proof.
  intros Hw. unfold rolling_mean.
  destruct (w <? 0) eqn:E; [apply Z.ltb_lt in E; lia|].
  now rewrite !map_fmap.
Qed.

Lemma avg_gain_ok (data : Series) (w : Z) :
  0 <= w ->
  avg_gain data w
  = Ok (window_mean (Z.to_nat w) (gains data) <$> seq 0 (length data)).
Proof.
  intros Hw. unfold avg_gain. rewrite where_gt_pos_part, rolling_mean_ok by exact Hw.
  now rewrite length_fmap, length_diff.
Qed.

Lemma avg_loss_ok (data : Series) (w : Z) :
  0 <= w ->
  avg_loss data w
  = Ok (window_mean (Z.to_nat w) (losses data) <$> seq 0 (length data)).
Proof.
  intros Hw. unfold avg_loss. rewrite where_lt_neg_part, rolling_mean_ok by exact Hw.
  now rewrite !length_fmap, length_diff.
Qed.

Lemma calculate_rsi_ok (data : Series) (w : Z) :
  0 <= w ->
  calculate_rsi data w
  = Ok ((fun i => rsi_of (window_mean (Z.to_nat w) (gains data) i)
                         (window_mean (Z.to_nat w) (losses data) i))
          <$> seq 0 (length data)).
Proof.
  intros Hw. unfold calculate_rsi.
  rewrite where_gt_pos_part, where_lt_neg_part, !rolling_mean_ok by exact Hw.
  cbn [rbind]. rewrite !length_fmap, length_diff.
  rewrite map_fmap, zip_with_fmap_l, zip_with_fmap_r, zip_with_diag.
  rewrite <- list_fmap_compose. reflexivity.
Qed.

Lemma calculate_rsi_negative (data : Series) (w : Z) :
  w < 0 ->
  calculate_rsi data w = Raise (ValueError "window must be an integer 0 or greater").
Proof.
  intros Hw. unfold calculate_rsi, rolling_mean.
  apply Z.ltb_lt in Hw. now rewrite Hw.
Qed.

Lemma length_observations_le (l : list fl) :
  (length (observations l) <= length l)%nat.
Proof.
  induction l as [|[| | |q] l IH]; simpl; lia.
Qed.



Lemma length_window_at_le (w : nat) (s : Series) (i : nat) :
  (i + 1 < w)%nat -> (length (window_at w s i) < w)%nat.
Proof.
  intros Hi. unfold window_at. rewrite length_take. lia.
Qed.


Lemma window_mean_short (w : nat) (s : Series) (i : nat) :
  (i + 1 < w)%nat -> window_mean w s i = NaN.
Proof.
  intros Hi. unfold window_mean.
  pose proof (length_observations_le (window_at w s i)).
  pose proof (length_window_at_le w s i Hi).
  destruct (w <=? length (observations (window_at w s i)))%nat eqn:E;
    [apply Nat.leb_le in E; lia|reflexivity].
Qed.

Lemma window_mean_zero (s : Series) (i : nat) : window_mean 0 s i = NaN.
Proof.
  unfold window_mean, window_at.
  replace (i + 1 - (i + 1 - 0))%nat with 0%nat by lia. reflexivity.
Qed.




Lemma fmap_seq_const {A} (f : nat -> A) (c : A) (n a : nat) :
  (forall i, (a <= i < a + n)%nat -> f i = c) -> f <$> seq a n = repeat c n.
Proof.
  revert a. induction n as [|n IH]; intros a H; [reflexivity|].
  cbn [seq fmap list_fmap repeat]. f_equal.
  - apply H. lia.
  - apply IH. intros i Hi. apply H. lia.
Qed.

Lemma fmap_seq_lookup {A} (f : nat -> A) (n i : nat) :
  (i < n)%nat -> (f <$> seq 0 n) !! i = Some (f i).
Proof.
  intros Hi. rewrite list_lookup_fmap, lookup_seq_lt by exact Hi. reflexivity.
Qed.

Lemma fmap_seq_lookup_inv {A} (f : nat -> A) (n i : nat) (x : A) :
  (f <$> seq 0 n) !! i = Some x -> (i < n)%nat /\ x = f i.
Proof.
  intros H. apply list_lookup_fmap_Some in H as (j & -> & Hj).
  apply lookup_seq in Hj as [-> Hi]. split; [exact Hi|reflexivity].
Qed.

Lemma rsi_of_defined_iff (g l : Q) :
  (0 <= g)%Q -> (0 <= l)%Q ->
  (is_defined (rsi_of (Fin g) (Fin l)) = true <-> ~ (g == 0 /\ l == 0)%Q).
Proof.
  intros Hg Hl.
  destruct (Qlt_le_dec 0 l) as [Hpos|Hle].
  - destruct (rsi_of_pos_loss g l Hg Hpos) as (r & -> & _). simpl.
    split; [|reflexivity]. intros _ [_ E]. rewrite E in Hpos.
    revert Hpos. apply Qlt_irrefl.
  - assert (Hl0 : (l == 0)%Q) by lra.
    destruct (Qlt_le_dec 0 g) as [Hgp|Hgle].
    + rewrite (rsi_of_zero_loss_pos_gain g l Hgp Hl0). simpl.
      split; [|reflexivity]. intros _ [E _]. rewrite E in Hgp.
      revert Hgp. apply Qlt_irrefl.
    + assert (Hg0 : (g == 0)%Q) by lra.
      rewrite (rsi_of_zero_zero g l Hg0 Hl0). simpl.
      split; [discriminate|]. intros H. exfalso. apply H. split; assumption.
Qed.

(** * The RSI engine: settled statements *)


(** Wherever the two rolling averages are numbers that are not negative,
    the RSI is a number unless both are zero. *)
Lemma rsi_at_nonneg_averages
  (data : Series) (w : Z) (gain loss rsi : Series) (i : nat) (g l : Q) :
  avg_gain data w = Ok gain ->
  avg_loss data w = Ok loss ->
  calculate_rsi data w = Ok rsi ->
  gain !! i = Some (Fin g) ->
  loss !! i = Some (Fin l) ->
  (0 <= g)%Q -> (0 <= l)%Q ->
  exists x, rsi !! i = Some x
            /\ (is_defined x = true <-> ~ (g == 0 /\ l == 0)%Q).
Proof.
  intros Hgain Hloss Hrsi Hg Hl Hg0 Hl0.
  destruct (Z.lt_ge_cases w 0) as [Hneg|Hw].
  { rewrite calculate_rsi_negative in Hrsi by exact Hneg. discriminate. }
  rewrite avg_gain_ok in Hgain by exact Hw.
  rewrite avg_loss_ok in Hloss by exact Hw.
  rewrite calculate_rsi_ok in Hrsi by exact Hw.
  injection Hgain as <-. injection Hloss as <-. injection Hrsi as <-.
  apply fmap_seq_lookup_inv in Hg as [Hi Hg].
  apply fmap_seq_lookup_inv in Hl as [_ Hl].
  rewrite fmap_seq_lookup by exact Hi. rewrite <- Hg, <- Hl.
  eexists. split; [reflexivity|]. now apply rsi_of_defined_iff.
Qed.



(** C2: wherever the rolling average loss is zero, the RSI is exactly 100
    when the rolling average gain is positive, and undefined when the
    rolling average gain is zero as well. *)
Theorem rsi_at_zero_average_loss
  (data : Series) (w : Z) (gain loss rsi : Series) (i : nat) (g l : Q) :
  avg_gain data w = Ok gain ->
  avg_loss data w = Ok loss ->
  calculate_rsi data w = Ok rsi ->
  gain !! i = Some (Fin g) ->
  loss !! i = Some (Fin l) ->
  (l == 0)%Q ->
  ((0 < g)%Q -> rsi !! i = Some (Fin 100))
  /\ ((g == 0)%Q -> rsi !! i = Some NaN).
Proof.
  intros Hgain Hloss Hrsi Hg Hl Hl0.
  destruct (Z.lt_ge_cases w 0) as [Hneg|Hw].
  { rewrite calculate_rsi_negative in Hrsi by exact Hneg. discriminate. }
  rewrite avg_gain_ok in Hgain by exact Hw.
  rewrite avg_loss_ok in Hloss by exact Hw.
  rewrite calculate_rsi_ok in Hrsi by exact Hw.
  injection Hgain as <-. injection Hloss as <-. injection Hrsi as <-.
  apply fmap_seq_lookup_inv in Hg as [Hi Hg].
  apply fmap_seq_lookup_inv in Hl as [_ Hl].
  rewrite fmap_seq_lookup by exact Hi. rewrite <- Hg, <- Hl. split.
  - intros Hpos. now rewrite rsi_of_zero_loss_pos_gain.
  - intros Hz. now rewrite rsi_of_zero_zero.
Qed.

Lemma rsi_at_zero_average_loss_witness :
  exists rsi,
    calculate_rsi (Fin <$> flat_then_up) 2 = Ok rsi
    /\ rsi !! 2%nat = Some (Fin 100)
    /\ rsi !! 1%nat = Some NaN.
Proof.
  eexists. split; [vm_compute; reflexivity|]. split.
  - edestruct (rsi_at_zero_average_loss (Fin <$> flat_then_up) 2) with (i := 2%nat)
      as [Hpos _]; [vm_compute; reflexivity ..|].
    apply Hpos. vm_compute. reflexivity.
  - edestruct (rsi_at_zero_average_loss (Fin <$> flat_then_up) 2) with (i := 1%nat)
      as [_ Hzero]; [vm_compute; reflexivity ..|].
    apply Hzero. vm_compute. reflexivity.
Defined.

(** C8, as stated, fails: among the windows the specification calls
    invalid, a negative one makes the engine fail while zero and an
    oversized one make it return an all-undefined series, and a window
    equal to the length of the series yields a number at the last
    position. *)
Lemma invalid_windows_are_not_treated_alike :
  calculate_rsi (Fin <$> close15) (-1)
  = Raise (ValueError "window must be an integer 0 or greater")
  /\ calculate_rsi (Fin <$> close15) 0 = Ok (repeat NaN 15)
  /\ calculate_rsi (Fin <$> close15) 16 = Ok (repeat NaN 15)
  /\ exists rsi r,
       calculate_rsi (Fin <$> close15) 15 = Ok rsi
       /\ rsi !! 14%nat = Some (Fin r).
Proof.
  split; [reflexivity|]. split; [vm_compute; reflexivity|].
  split; [vm_compute; reflexivity|].
  eexists. eexists. split; vm_compute; reflexivity.
Qed.

(** C8, amended: the engine validates nothing itself.  A negative window
    fails with the [ValueError] of the rolling-window construction; window
    zero and every window (a machine integer) larger than the series return
    an all-undefined series of the length of the input; a positive window
    equal to the
    length of the series is served like any other window: the result is as
    long as the input, undefined before the last position, and at the last
    position a number unless both rolling averages there are zero, provided
    these averages are numbers that are not negative. *)
Theorem calculate_rsi_invalid_window (data : Series) (w : Z) :
  (w < 0 ->
   calculate_rsi data w = Raise (ValueError "window must be an integer 0 or greater"))
  /\ (w = 0 \/ Z.of_nat (length data) < w <= max_window ->
      calculate_rsi data w = Ok (repeat NaN (length data)))
  /\ (0 < w -> w = Z.of_nat (length data) ->
      exists gain loss rsi,
        avg_gain data w = Ok gain
        /\ avg_loss data w = Ok loss
        /\ calculate_rsi data w = Ok rsi
        /\ length rsi = length data
        /\ (forall i : nat, (i < length data - 1)%nat -> rsi !! i = Some NaN)
        /\ (forall g l : Q,
              gain !! (length data - 1)%nat = Some (Fin g) ->
              loss !! (length data - 1)%nat = Some (Fin l) ->
              (0 <= g)%Q -> (0 <= l)%Q ->
              exists x, rsi !! (length data - 1)%nat = Some x
                        /\ (is_defined x = true <-> ~ (g == 0 /\ l == 0)%Q))).
Proof.
  split; [apply calculate_rsi_negative|]. split.
  - intros Hw. rewrite calculate_rsi_ok by lia. f_equal.
    apply fmap_seq_const. intros i Hi.
    destruct Hw as [->|Hw].
    + now rewrite !window_mean_zero.
    + rewrite (window_mean_short (Z.to_nat w) (gains data) i) by lia.
      reflexivity.
  - intros Hw Hn.
    do 3 eexists.
    split; [apply avg_gain_ok; lia|].
    split; [apply avg_loss_ok; lia|].
    split; [apply calculate_rsi_ok; lia|].
    split; [now rewrite length_fmap, length_seq|]. split.
    + intros i Hi. rewrite fmap_seq_lookup by lia.
      rewrite (window_mean_short (Z.to_nat w) (gains _) i) by lia. reflexivity.
    + intros g l Hg Hl Hg0 Hl0.
      eapply (rsi_at_nonneg_averages data w);
        [apply avg_gain_ok; lia|apply avg_loss_ok; lia|apply calculate_rsi_ok; lia
        |exact Hg|exact Hl|exact Hg0|exact Hl0].
Qed.

Lemma calculate_rsi_invalid_window_witness :
  (-1 < 0
   /\ calculate_rsi (Fin <$> close15) (-1)
      = Raise (ValueError "window must be an integer 0 or greater"))
  /\ (Z.of_nat (length (Fin <$> close15)) < 16 <= max_window
      /\ calculate_rsi (Fin <$> close15) 16
         = Ok (repeat NaN (length (Fin <$> close15))))
  /\ (15 = Z.of_nat (length (Fin <$> close15))
      /\ exists rsi x,
           calculate_rsi (Fin <$> close15) 15 = Ok rsi
           /\ rsi !! 13%nat = Some NaN
           /\ rsi !! 14%nat = Some x
           /\ is_defined x = true).
Proof.
  split; [|split].
  - split; [lia|].
    apply (proj1 (calculate_rsi_invalid_window (Fin <$> close15) (-1))). lia.
  - assert (Hw : Z.of_nat (length (Fin <$> close15)) < 16 <= max_window)
      by (unfold max_window; simpl; lia).
    split; [exact Hw|].
    apply (proj1 (proj2 (calculate_rsi_invalid_window (Fin <$> close15) 16))).
    right. exact Hw.
  - split; [reflexivity|].
    destruct (proj2 (proj2 (calculate_rsi_invalid_window (Fin <$> close15) 15)))
      as (gain & loss & rsi & Hgain & Hloss & Hrsi & _ & Hlow & Hlast);
      [lia|reflexivity|].
    vm_compute in Hgain. injection Hgain as <-.
    vm_compute in Hloss. injection Hloss as <-.
    edestruct Hlast as (x & Hx & Hdef);
      [reflexivity|reflexivity|unfold Qle; simpl; lia|unfold Qle; simpl; lia|].
    exists rsi, x. split; [exact Hrsi|].
    split; [apply Hlow; vm_compute; lia|].
    split; [exact Hx|].
    apply Hdef. intros [E _]. vm_compute in E. discriminate E.
Defined.

(** * Facts about frames *)

Section FrameFacts.

Context {I : Type}.
Implicit Types (df : DataFrame I) (cols : list (string * Series)).

Lemma existsb_eqb_false_filter (name : string) cols :
  existsb (String.eqb name) (map fst cols) = false ->
  List.filter (fun c => String.eqb name (fst c)) cols = [].
Proof.
  induction cols as [|[n c] cols IH]; simpl; [reflexivity|].
  intros H. apply orb_false_iff in H as [H1 H2]. rewrite H1. now apply IH.
Qed.

Lemma getitem_appended df (name : string) (s : Series) :
  has_col df name = false ->
  getitem {| index := index df; columns := columns df ++ [(name, s)] |} name = Ok s.
Proof.
  intros H. unfold getitem. cbn [columns].
  rewrite List.filter_app, (existsb_eqb_false_filter name _ H).
  simpl. now rewrite String.eqb_refl.
Qed.

Lemma getitem_append_other (idx : list I) cols (name n : string) (s : Series) :
  name <> n ->
  getitem {| index := idx; columns := cols ++ [(n, s)] |} name
  = getitem {| index := idx; columns := cols |} name.
Proof.
  intros H. unfold getitem. cbn [columns]. rewrite List.filter_app. simpl.
  apply String.eqb_neq in H. rewrite H. now rewrite app_nil_r.
Qed.

Lemma has_col_append (idx : list I) cols (name n : string) (s : Series) :
  has_col {| index := idx; columns := cols ++ [(n, s)] |} name
  = has_col {| index := idx; columns := cols |} name || String.eqb name n.
Proof.
  unfold has_col, col_names. cbn [columns].
  rewrite map_app, existsb_app. simpl. now rewrite orb_false_r.
Qed.

Lemma mask_cols_absent (name : string) (mask : list bool) (v : fl) cols :
  existsb (String.eqb name) (map fst cols) = false ->
  mask_cols name mask v cols = cols.
Proof.
  induction cols as [|[n c] cols IH]; simpl; [reflexivity|].
  intros H. apply orb_false_iff in H as [H1 H2]. rewrite H1. now rewrite IH.
Qed.

Lemma mask_cols_app (name : string) (mask : list bool) (v : fl) cols cols' :
  mask_cols name mask v (cols ++ cols')
  = mask_cols name mask v cols ++ mask_cols name mask v cols'.
Proof.
  induction cols as [|[n c] cols IH]; simpl; [reflexivity|]. now rewrite IH.
Qed.

Lemma replace_col_absent (name : string) (s : Series) cols :
  existsb (String.eqb name) (map fst cols) = false ->
  replace_col name s cols = cols.
Proof.
  induction cols as [|[n c] cols IH]; simpl; [reflexivity|].
  intros H. apply orb_false_iff in H as [H1 H2]. rewrite H1. now rewrite IH.
Qed.

Lemma replace_col_app (name : string) (s : Series) cols cols' :
  replace_col name s (cols ++ cols')
  = replace_col name s cols ++ replace_col name s cols'.
Proof.
  induction cols as [|[n c] cols IH]; simpl; [reflexivity|]. now rewrite IH.
Qed.

Lemma map_fst_mask_cols (name : string) (mask : list bool) (v : fl) cols :
  map fst (mask_cols name mask v cols) = map fst cols.
Proof.
  induction cols as [|[n c] cols IH]; simpl; [reflexivity|]. now rewrite IH.
Qed.

Lemma map_fst_replace_col (name : string) (s : Series) cols :
  map fst (replace_col name s cols) = map fst cols.
Proof.
  induction cols as [|[n c] cols IH]; simpl; [reflexivity|]. now rewrite IH.
Qed.

(** What an update of column [name] leaves alone. *)
Lemma filter_mask_cols (P : string -> bool) (name : string) (mask : list bool) (v : fl) cols :
  P name = false ->
  List.filter (fun c => P (fst c)) (mask_cols name mask v cols)
  = List.filter (fun c => P (fst c)) cols.
Proof.
  intros HP. induction cols as [|[n c] cols IH]; simpl; [reflexivity|].
  rewrite IH. destruct (String.eqb name n) eqn:E; [|reflexivity].
  apply String.eqb_eq in E. subst n. now rewrite HP.
Qed.

Lemma filter_replace_col (P : string -> bool) (name : string) (s : Series) cols :
  P name = false ->
  List.filter (fun c => P (fst c)) (replace_col name s cols)
  = List.filter (fun c => P (fst c)) cols.
Proof.
  intros HP. induction cols as [|[n c] cols IH]; simpl; [reflexivity|].
  rewrite IH. destruct (String.eqb name n) eqn:E; [|reflexivity].
  apply String.eqb_eq in E. subst n. now rewrite HP.
Qed.

Lemma filter_append_col (P : string -> bool) (name : string) (s : Series) cols :
  P name = false ->
  List.filter (fun c => P (fst c)) (cols ++ [(name, s)])
  = List.filter (fun c => P (fst c)) cols.
Proof.
  intros HP. rewrite List.filter_app. simpl. rewrite HP. apply app_nil_r.
Qed.

Lemma other_columns_setitem df (name : string) (s : Series) :
  not_signal_or_position name = false ->
  other_columns (setitem df name s) = other_columns df
  /\ index (setitem df name s) = index df.
Proof.
  intros HP. split; [|reflexivity].
  unfold other_columns, setitem. cbn [columns].
  destruct (has_col df name).
  - apply (filter_replace_col not_signal_or_position), HP.
  - apply (filter_append_col not_signal_or_position), HP.
Qed.

Lemma other_columns_loc_setitem df df' (mask : list bool) (name : string) (v : fl) :
  not_signal_or_position name = false ->
  loc_setitem df mask name v = Ok df' ->
  other_columns df' = other_columns df /\ index df' = index df.
Proof.
  intros HP. unfold loc_setitem.
  destruct (has_col df name).
  - intros [= <-]. split; [|reflexivity].
    apply (filter_mask_cols not_signal_or_position), HP.
  - destruct (index df) eqn:E; [discriminate|].
    intros [= <-]. split; [|reflexivity].
    apply (filter_append_col not_signal_or_position), HP.
Qed.

Lemma has_col_setitem df (name : string) (s : Series) :
  has_col (setitem df name s) name = true.
Proof.
  unfold setitem. destruct (has_col df name) eqn:E.
  - unfold has_col, col_names in *. cbn [columns].
    now rewrite map_fst_replace_col.
  - rewrite (has_col_append (index df) (columns df)).
    rewrite String.eqb_refl. apply orb_true_r.
Qed.

Lemma has_col_setitem_mono df (name n : string) (s : Series) :
  has_col df n = true -> has_col (setitem df name s) n = true.
Proof.
  intros H. unfold setitem. destruct (has_col df name) eqn:E.
  - unfold has_col, col_names in *. cbn [columns].
    now rewrite map_fst_replace_col.
  - rewrite (has_col_append (index df) (columns df)).
    unfold has_col, col_names in *. cbn [columns]. rewrite H. reflexivity.
Qed.

Lemma getitem_has_col df (name : string) (s : Series) :
  getitem df name = Ok s -> has_col df name = true.
Proof.
  unfold getitem. destruct (has_col df name) eqn:E; [reflexivity|].
  rewrite (existsb_eqb_false_filter name _ E). discriminate.
Qed.

End FrameFacts.

(** * Running the methods of the analyser *)

Section AnalyzerRuns.

Implicit Types (h : gmap positive (DataFrame Timestamp)) (d : DataFrame Timestamp).
Implicit Types (dt : option Response) (a s : option loc) (l : loc).

Lemma bind_ok {A B} (m : M A) (k : A -> M B) (st st' : analyzer) (x : A) :
  m st = (Ok x, st') -> bind m k st = k x st'.
Proof. intros H. unfold bind. now rewrite H. Qed.

Lemma bind_raise {A B} (m : M A) (k : A -> M B) (st st' : analyzer) (e : exn) :
  m st = (Raise e, st') -> bind m k st = (Raise e, st').
Proof. intros H. unfold bind. now rewrite H. Qed.

Lemma load_run h dt a s l d :
  load l {| heap := <[l := d]> h; data := dt; analysis := a; signals := s |}
  = (Ok d, {| heap := <[l := d]> h; data := dt; analysis := a; signals := s |}).
Proof. unfold load. cbn [heap]. now rewrite lookup_insert_eq. Qed.

Lemma getitem_at_run h dt a s l d (name : string) :
  getitem_at l name {| heap := <[l := d]> h; data := dt; analysis := a; signals := s |}
  = (getitem d name,
     {| heap := <[l := d]> h; data := dt; analysis := a; signals := s |}).
Proof. unfold getitem_at. now rewrite (bind_ok _ _ _ _ _ (load_run h dt a s l d)). Qed.

Lemma setitem_at_run h dt a s l d (name : string) (x : Series) :
  setitem_at l name x {| heap := <[l := d]> h; data := dt; analysis := a; signals := s |}
  = (Ok tt,
     {| heap := <[l := setitem d name x]> h; data := dt; analysis := a; signals := s |}).
Proof.
  unfold setitem_at. rewrite (bind_ok _ _ _ _ _ (load_run h dt a s l d)).
  unfold store. cbn [heap data analysis signals]. now rewrite insert_insert_eq.
Qed.

Lemma loc_setitem_at_run h dt a s l d (mask : list bool) (name : string) (v : fl) :
  loc_setitem_at l mask name v
    {| heap := <[l := d]> h; data := dt; analysis := a; signals := s |}
  = match loc_setitem d mask name v with
    | Ok d' =>
        (Ok tt, {| heap := <[l := d']> h; data := dt; analysis := a; signals := s |})
    | Raise e =>
        (Raise e, {| heap := <[l := d]> h; data := dt; analysis := a; signals := s |})
    end.
Proof.
  unfold loc_setitem_at. rewrite (bind_ok _ _ _ _ _ (load_run h dt a s l d)).
  unfold bind, lift, store. destruct (loc_setitem d mask name v); [|reflexivity].
  cbn [heap data analysis signals]. now rewrite insert_insert_eq.
Qed.

Lemma copy_at_run (st : analyzer) l d :
  heap st !! l = Some d ->
  copy_at l st
  = (Ok (fresh (dom (heap st))),
     {| heap := <[fresh (dom (heap st)) := d]> (heap st); data := data st;
        analysis := analysis st; signals := signals st |}).
Proof.
  intros H. unfold copy_at, bind, load. rewrite H. reflexivity.
Qed.

Lemma fresh_not_allocated (st : analyzer) l d :
  heap st !! l = Some d -> fresh (dom (heap st)) <> l.
Proof.
  intros H E. pose proof (is_fresh (dom (heap st))) as Hf.
  rewrite E in Hf. apply Hf. apply elem_of_dom. rewrite H. eauto.
Qed.

(** The run of [generate_trade_signals] on an analysis table: the copy
    receives the two new columns, and the reference to it is stored in
    [self.signals]. *)
Lemma generate_trade_signals_run (st : analyzer) (la : loc) d (rsi : Series) :
  analysis st = Some la ->
  heap st !! la = Some d ->
  getitem d "RSI" = Ok rsi ->
  has_col d "Signal" = false ->
  has_col d "Position" = false ->
  index d <> [] ->
  generate_trade_signals st
  = (Ok tt,
     {| heap :=
          <[fresh (dom (heap st)) :=
              {| index := index d;
                 columns :=
                   columns d
                   ++ [("Signal", signal_column rsi (length (index d)));
                       ("Position", shift (signal_column rsi (length (index d))))] |}]>
            (heap st);
        data := data st;
        analysis := analysis st;
        signals := Some (fresh (dom (heap st))) |}).
Proof.
  intros Ha Hh Hrsi Hsig Hpos Hidx.
  unfold generate_trade_signals.
  rewrite (bind_ok get_analysis _ st st la)
    by (unfold get_analysis; now rewrite Ha).
  rewrite (bind_ok _ _ _ _ _ (copy_at_run st la d Hh)).
  set (l := fresh (dom (heap st))).
  (* df.loc[df['RSI'] > 70, 'Signal'] = -1 *)
  erewrite bind_ok by (rewrite getitem_at_run, Hrsi; reflexivity).
  set (n := length (index d)).
  set (c1 := mask_set (repeat NaN n) (gt_scalar rsi (Fin 70)) (Fin (-1))).
  assert (H1 : loc_setitem d (gt_scalar rsi (Fin 70)) "Signal" (Fin (-1))
               = Ok {| index := index d; columns := columns d ++ [("Signal", c1)] |}).
  { unfold loc_setitem. rewrite Hsig. destruct (index d) eqn:E; [congruence|].
    reflexivity. }
  erewrite bind_ok by (rewrite loc_setitem_at_run, H1; reflexivity).
  (* df.loc[df['RSI'] < 30, 'Signal'] = 1 *)
  assert (Hrsi1 : getitem {| index := index d; columns := columns d ++ [("Signal", c1)] |} "RSI"
                  = Ok rsi).
  { rewrite getitem_append_other by discriminate. destruct d. exact Hrsi. }
  erewrite bind_ok by (rewrite getitem_at_run, Hrsi1; reflexivity).
  set (c2 := mask_set c1 (lt_scalar rsi (Fin 30)) (Fin 1)).
  assert (H2 : loc_setitem {| index := index d; columns := columns d ++ [("Signal", c1)] |}
                 (lt_scalar rsi (Fin 30)) "Signal" (Fin 1)
               = Ok {| index := index d; columns := columns d ++ [("Signal", c2)] |}).
  { unfold loc_setitem. rewrite has_col_append. rewrite String.eqb_refl, orb_true_r.
    cbn [index columns]. rewrite mask_cols_app, mask_cols_absent by exact Hsig.
    reflexivity. }
  erewrite bind_ok by (rewrite loc_setitem_at_run, H2; reflexivity).
  (* df['Signal'] = df['Signal'].fillna(0) *)
  erewrite bind_ok
    by (rewrite getitem_at_run, (getitem_appended d "Signal" c2 Hsig); reflexivity).
  erewrite bind_ok by (rewrite setitem_at_run; reflexivity).
  assert (H3 : setitem {| index := index d; columns := columns d ++ [("Signal", c2)] |}
                 "Signal" (fillna c2 (Fin 0))
               = {| index := index d;
                    columns := columns d ++ [("Signal", signal_column rsi n)] |}).
  { unfold setitem. rewrite has_col_append, String.eqb_refl, orb_true_r.
    cbn [index columns]. rewrite replace_col_app, replace_col_absent by exact Hsig.
    reflexivity. }
  rewrite H3.
  (* df['Position'] = df['Signal'].shift() *)
  erewrite bind_ok
    by (rewrite getitem_at_run, (getitem_appended d "Signal" _ Hsig); reflexivity).
  erewrite bind_ok by (rewrite setitem_at_run; reflexivity).
  unfold set_signals. cbn [heap data analysis signals].
  f_equal. f_equal. f_equal.
  unfold setitem. rewrite has_col_append.
  change (String.eqb "Position" "Signal") with false. rewrite orb_false_r.
  replace (has_col {| index := index d; columns := columns d |} "Position")
    with false by (symmetry; exact Hpos).
  cbn [index columns]. now rewrite <- app_assoc.
Qed.

End AnalyzerRuns.

(** * The signal generator: settled statements *)

Section SignalFacts.

Lemma length_mask_set (col : Series) (mask : list bool) (v : fl) :
  length (mask_set col mask v) = length col.
Proof.
  revert mask. induction col as [|x col IH]; intros [|m mask]; simpl;
    try reflexivity. now rewrite IH.
Qed.

Lemma lookup_mask_set (col : Series) (mask : list bool) (v : fl) (i : nat) (x : fl) (m : bool) :
  col !! i = Some x -> mask !! i = Some m ->
  mask_set col mask v !! i = Some (if m then v else x).
Proof.
  revert mask i. induction col as [|y col IH]; intros [|b mask] [|i]; simpl;
    try discriminate.
  - now intros [= ->] [= ->].
  - apply IH.
Qed.

Lemma length_signal_column (rsi : Series) (n : nat) :
  length (signal_column rsi n) = n.
Proof.
  unfold signal_column, fillna.
  now rewrite length_map, !length_mask_set, repeat_length.
Qed.

Lemma lookup_repeat_lt {A} (x : A) (n i : nat) :
  (i < n)%nat -> repeat x n !! i = Some x.
Proof.
  revert i. induction n as [|n IH]; intros [|i] Hi; simpl; try lia;
    [reflexivity|]. apply IH. lia.
Qed.

(** The value of the signal column at a position, from the RSI there. *)
Lemma lookup_signal_column (rsi : Series) (n i : nat) (x : fl) :
  (i < n)%nat -> rsi !! i = Some x ->
  signal_column rsi n !! i
  = Some (if fl_ltb x (Fin 30) then Fin 1
          else if fl_gtb x (Fin 70) then Fin (-1)
          else Fin 0).
Proof.
  intros Hi Hx. unfold signal_column, fillna, gt_scalar, lt_scalar.
  rewrite !map_fmap, list_lookup_fmap.
  erewrite lookup_mask_set; cycle 1.
  - eapply lookup_mask_set.
    + apply lookup_repeat_lt, Hi.
    + rewrite list_lookup_fmap, Hx. reflexivity.
  - rewrite list_lookup_fmap, Hx. reflexivity.
  - cbn [fmap option_fmap option_map].
    destruct (fl_ltb x (Fin 30)); [reflexivity|].
    destruct (fl_gtb x (Fin 70)); reflexivity.
Qed.

Lemma getitem_signal (idx : list Timestamp) (cols : list (string * Series)) (sg ps : Series) :
  existsb (String.eqb "Signal") (map fst cols) = false ->
  getitem {| index := idx; columns := cols ++ [("Signal", sg); ("Position", ps)] |} "Signal"
  = Ok sg.
Proof.
  intros H. change [("Signal", sg); ("Position", ps)]
    with ([("Signal", sg)] ++ [("Position", ps)]).
  rewrite app_assoc, getitem_append_other by discriminate.
  apply (getitem_appended {| index := idx; columns := cols |}). exact H.
Qed.

Lemma getitem_position (idx : list Timestamp) (cols : list (string * Series)) (sg ps : Series) :
  existsb (String.eqb "Position") (map fst cols) = false ->
  getitem {| index := idx; columns := cols ++ [("Signal", sg); ("Position", ps)] |} "Position"
  = Ok ps.
Proof.
  intros H. change [("Signal", sg); ("Position", ps)]
    with ([("Signal", sg)] ++ [("Position", ps)]).
  rewrite app_assoc.
  apply (getitem_appended {| index := idx; columns := cols ++ [("Signal", sg)] |}).
  rewrite has_col_append. unfold has_col, col_names. cbn [columns].
  rewrite H. reflexivity.
Qed.

End SignalFacts.

(** C4: on an analysis table, the signal at every position is Sell when
    the RSI there exceeds 70, Buy when it is below 30, and Neutral
    otherwise, which includes an undefined RSI and an RSI of exactly 70 or
    exactly 30. *)
Theorem signals_follow_rsi_thresholds
  (st : analyzer) (df : DataFrame Timestamp) (rsi : Series) :
  analysis_table st df rsi ->
  exists st' ls df' sig,
    generate_trade_signals st = (Ok tt, st')
    /\ signals st' = Some ls
    /\ heap st' !! ls = Some df'
    /\ getitem df' "Signal" = Ok sig
    /\ length sig = length rsi
    /\ forall (i : nat) (x : fl), rsi !! i = Some x ->
         match x with
         | Fin r =>
             ((70 < r)%Q -> sig !! i = Some Sell)
             /\ ((r < 30)%Q -> sig !! i = Some Buy)
             /\ ((30 <= r <= 70)%Q -> sig !! i = Some Neutral)
         | NaN => sig !! i = Some Neutral
         | PInf => sig !! i = Some Sell
         | NInf => sig !! i = Some Buy
         end.
Proof.
  intros ((la & Ha & Hh) & Hrsi & Hsig & Hpos & Hidx & Hlen).
  do 4 eexists.
  split; [apply (generate_trade_signals_run st la df rsi); assumption|].
  cbn [signals heap]. split; [reflexivity|].
  split; [apply lookup_insert_eq|].
  split; [apply getitem_signal, Hsig|].
  split; [rewrite length_signal_column; congruence|].
  intros i x Hx.
  assert (Hi : (i < length (index df))%nat).
  { rewrite <- Hlen. eapply lookup_lt_Some, Hx. }
  rewrite (lookup_signal_column rsi _ i x Hi Hx).
  destruct x as [| | |r]; try reflexivity.
  unfold fl_gtb, fl_ltb.
  destruct (Qle_bool 30 r) eqn:E30; destruct (Qle_bool r 70) eqn:E70; simpl.
  - apply Qle_bool_iff in E30, E70. repeat split; intros; try reflexivity; lra.
  - apply Qle_bool_iff in E30.
    assert (~ (r <= 70)%Q) by (rewrite <- Qle_bool_iff; congruence).
    repeat split; intros; try reflexivity; lra.
  - apply Qle_bool_iff in E70.
    assert (~ (30 <= r)%Q) by (rewrite <- Qle_bool_iff; congruence).
    repeat split; intros; try reflexivity; lra.
  - assert (~ (r <= 70)%Q) by (rewrite <- Qle_bool_iff; congruence).
    assert (~ (30 <= r)%Q) by (rewrite <- Qle_bool_iff; congruence).
    repeat split; intros; try reflexivity; lra.
Qed.

Lemma demo_state_analysis_table : analysis_table demo_state demo_table demo_rsi.
Proof.
  repeat split; try reflexivity; try discriminate.
  exists 1%positive. split; reflexivity.
Defined.

Lemma signals_follow_rsi_thresholds_witness :
  analysis_table demo_state demo_table demo_rsi
  /\ exists st' ls df' sig,
       generate_trade_signals demo_state = (Ok tt, st')
       /\ signals st' = Some ls
       /\ heap st' !! ls = Some df'
       /\ getitem df' "Signal" = Ok sig
       /\ sig = [Neutral; Sell; Neutral; Neutral; Buy].
Proof.
  split; [exact demo_state_analysis_table|].
  destruct (signals_follow_rsi_thresholds demo_state demo_table demo_rsi
              demo_state_analysis_table)
    as (st' & ls & df' & sig & Hrun & Hs & Hh & Hg & Hlen & Hrule).
  exists st', ls, df', sig. repeat split; try assumption.
  destruct sig as [|s0 [|s1 [|s2 [|s3 [|s4 [|s5 sig]]]]]]; try discriminate Hlen.
  pose proof (Hrule 0%nat NaN eq_refl) as H0.
  destruct (Hrule 1%nat (Fin 75) eq_refl) as (H1 & _ & _).
  destruct (Hrule 2%nat (Fin 70) eq_refl) as (_ & _ & H2).
  destruct (Hrule 3%nat (Fin 30) eq_refl) as (_ & _ & H3).
  destruct (Hrule 4%nat (Fin 25) eq_refl) as (_ & H4 & _).
  simpl in H0. injection H0 as ->.
  specialize (H1 ltac:(reflexivity)). injection H1 as ->.
  specialize (H2 ltac:(split; discriminate)). injection H2 as ->.
  specialize (H3 ltac:(split; discriminate)). injection H3 as ->.
  specialize (H4 ltac:(reflexivity)). injection H4 as ->.
  reflexivity.
Defined.

(** C5, as stated, fails: the first entry of the position column is not
    Neutral but undefined. *)
Lemma first_position_is_undefined :
  exists st' ls df' pos,
    generate_trade_signals demo_state = (Ok tt, st')
    /\ signals st' = Some ls
    /\ heap st' !! ls = Some df'
    /\ getitem df' "Position" = Ok pos
    /\ pos !! 0%nat = Some NaN
    /\ NaN <> Neutral.
Proof.
  do 4 eexists.
  split; [vm_compute; reflexivity|].
  split; [vm_compute; reflexivity|].
  split; [vm_compute; reflexivity|].
  split; [vm_compute; reflexivity|].
  split; [reflexivity|discriminate].
Qed.

(** C5, amended: on an analysis table, the signal and position columns
    are as long as the RSI column, the position at every later index is
    the signal of the index before, and the first position is undefined
    (not Neutral). *)
Theorem position_lags_signal
  (st : analyzer) (df : DataFrame Timestamp) (rsi : Series) :
  analysis_table st df rsi ->
  exists st' ls df' sig pos,
    generate_trade_signals st = (Ok tt, st')
    /\ signals st' = Some ls
    /\ heap st' !! ls = Some df'
    /\ getitem df' "Signal" = Ok sig
    /\ getitem df' "Position" = Ok pos
    /\ length sig = length rsi
    /\ length pos = length rsi
    /\ pos !! 0%nat = Some NaN
    /\ forall i : nat, (S i < length rsi)%nat -> pos !! S i = sig !! i.
Proof.
  intros ((la & Ha & Hh) & Hrsi & Hsig & Hpos & Hidx & Hlen).
  do 5 eexists.
  split; [apply (generate_trade_signals_run st la df rsi); assumption|].
  cbn [signals heap]. split; [reflexivity|].
  split; [apply lookup_insert_eq|].
  split; [apply getitem_signal, Hsig|].
  split; [apply getitem_position, Hpos|].
  split; [rewrite length_signal_column; congruence|].
  split; [rewrite length_shift, length_signal_column; congruence|].
  split.
  - apply shift_lookup_0. intros E.
    apply (f_equal (@length fl)) in E. rewrite length_signal_column in E.
    destruct (index df); [congruence|discriminate].
  - intros i Hi. apply shift_lookup_S. rewrite length_signal_column. lia.
Qed.

Lemma position_lags_signal_witness :
  analysis_table demo_state demo_table demo_rsi
  /\ exists st' ls df' sig pos,
       generate_trade_signals demo_state = (Ok tt, st')
       /\ signals st' = Some ls
       /\ heap st' !! ls = Some df'
       /\ getitem df' "Signal" = Ok sig
       /\ getitem df' "Position" = Ok pos
       /\ pos !! 0%nat = Some NaN
       /\ pos !! 1%nat = sig !! 0%nat.
Proof.
  split; [exact demo_state_analysis_table|].
  destruct (position_lags_signal demo_state demo_table demo_rsi
              demo_state_analysis_table)
    as (st' & ls & df' & sig & pos & Hrun & Hs & Hh & Hg & Hp & _ & _ & H0 & Hlag).
  exists st', ls, df', sig, pos. repeat split; try assumption.
  apply Hlag. simpl. lia.
Defined.

(** * The analysis table is not touched by the signal generator *)

Section FrameEffect.

Implicit Types (h : gmap positive (DataFrame Timestamp)) (d : DataFrame Timestamp).
Implicit Types (dt : option Response) (a s : option loc) (l : loc).

Lemma bind_getitem_at {B} h dt a s l d (name : string) (k : Series -> M B) :
  bind (getitem_at l name) k
    {| heap := <[l := d]> h; data := dt; analysis := a; signals := s |}
  = match getitem d name with
    | Ok x => k x {| heap := <[l := d]> h; data := dt; analysis := a; signals := s |}
    | Raise e =>
        (Raise e, {| heap := <[l := d]> h; data := dt; analysis := a; signals := s |})
    end.
Proof. unfold bind. rewrite getitem_at_run. now destruct (getitem d name). Qed.

Lemma bind_setitem_at {B} h dt a s l d (name : string) (x : Series) (k : unit -> M B) :
  bind (setitem_at l name x) k
    {| heap := <[l := d]> h; data := dt; analysis := a; signals := s |}
  = k tt {| heap := <[l := setitem d name x]> h; data := dt; analysis := a; signals := s |}.
Proof. unfold bind. now rewrite setitem_at_run. Qed.

Lemma bind_loc_setitem_at {B} h dt a s l d (mask : list bool) (name : string) (v : fl)
  (k : unit -> M B) :
  bind (loc_setitem_at l mask name v) k
    {| heap := <[l := d]> h; data := dt; analysis := a; signals := s |}
  = match loc_setitem d mask name v with
    | Ok d' =>
        k tt {| heap := <[l := d']> h; data := dt; analysis := a; signals := s |}
    | Raise e =>
        (Raise e, {| heap := <[l := d]> h; data := dt; analysis := a; signals := s |})
    end.
Proof.
  unfold bind. rewrite loc_setitem_at_run.
  now destruct (loc_setitem d mask name v).
Qed.

(** Whatever the outcome, [generate_trade_signals] works on a private copy:
    the final state differs from the initial one by the copy, placed at a
    new location, and possibly by [self.signals]. *)
Lemma generate_trade_signals_on_copy (st : analyzer) (la : loc) d :
  analysis st = Some la ->
  heap st !! la = Some d ->
  exists (r : result unit) (d' : DataFrame Timestamp) (s' : option loc),
    generate_trade_signals st
    = (r, {| heap := <[fresh (dom (heap st)) := d']> (heap st); data := data st;
             analysis := analysis st; signals := s' |})
    /\ index d' = index d
    /\ other_columns d' = other_columns d
    /\ (r = Ok tt ->
        s' = Some (fresh (dom (heap st)))
        /\ has_col d' "Signal" = true
        /\ has_col d' "Position" = true).
Proof.
  intros Ha Hh. unfold generate_trade_signals.
  rewrite (bind_ok get_analysis _ st st la)
    by (unfold get_analysis; now rewrite Ha).
  rewrite (bind_ok _ _ _ _ _ (copy_at_run st la d Hh)).
  set (l := fresh (dom (heap st))).
  rewrite bind_getitem_at.
  destruct (getitem d "RSI") as [rsi|e];
    [|do 3 eexists; split; [reflexivity|]; repeat split; discriminate].
  rewrite bind_loc_setitem_at.
  destruct (loc_setitem d _ "Signal" _) as [d1|e] eqn:E1;
    [|do 3 eexists; split; [reflexivity|]; repeat split; discriminate].
  destruct (other_columns_loc_setitem d d1 _ "Signal" _ eq_refl E1) as [Ho1 Hi1].
  rewrite bind_getitem_at.
  destruct (getitem d1 "RSI") as [rsi1|e];
    [|do 3 eexists; split; [reflexivity|]; repeat split;
      try discriminate; assumption].
  rewrite bind_loc_setitem_at.
  destruct (loc_setitem d1 _ "Signal" _) as [d2|e] eqn:E2;
    [|do 3 eexists; split; [reflexivity|]; repeat split;
      try discriminate; assumption].
  destruct (other_columns_loc_setitem d1 d2 _ "Signal" _ eq_refl E2) as [Ho2 Hi2].
  rewrite bind_getitem_at.
  destruct (getitem d2 "Signal") as [sg|e];
    [|do 3 eexists; split; [reflexivity|]; repeat split;
      try discriminate; congruence].
  rewrite bind_setitem_at.
  set (d3 := setitem d2 "Signal" (fillna sg (Fin 0))).
  destruct (other_columns_setitem d2 "Signal" (fillna sg (Fin 0)) eq_refl) as [Ho3 Hi3].
  fold d3 in Ho3, Hi3.
  rewrite bind_getitem_at.
  destruct (getitem d3 "Signal") as [sg3|e];
    [|do 3 eexists; split; [reflexivity|]; repeat split;
      try discriminate; congruence].
  rewrite bind_setitem_at.
  destruct (other_columns_setitem d3 "Position" (shift sg3) eq_refl) as [Ho4 Hi4].
  unfold set_signals. cbn [heap data analysis signals].
  do 3 eexists. split; [reflexivity|].
  split; [congruence|]. split; [congruence|].
  intros _. split; [reflexivity|]. split.
  - apply has_col_setitem_mono. apply has_col_setitem.
  - apply has_col_setitem.
Qed.

End FrameEffect.

(** C10: whatever its outcome, [generate_trade_signals] leaves the
    response, the reference in [self.analysis] and every object that
    existed before the call as they were, the analysis table among them.
    When it succeeds, [self.signals] refers to a different object, which
    has the index of the analysis table, its columns (those other than
    ["Signal"] and ["Position"]) unchanged and in the same order, and a
    ["Signal"] and a ["Position"] column. *)
Theorem generate_trade_signals_keeps_analysis
  (st st' : analyzer) (r : result unit) :
  generate_trade_signals st = (r, st') ->
  data st' = data st
  /\ analysis st' = analysis st
  /\ (forall (l : loc) (d : DataFrame Timestamp),
        heap st !! l = Some d -> heap st' !! l = Some d)
  /\ (r = Ok tt ->
      exists (la ls : loc) (df df' : DataFrame Timestamp),
        analysis st = Some la
        /\ heap st !! la = Some df
        /\ heap st' !! la = Some df
        /\ signals st' = Some ls
        /\ ls <> la
        /\ heap st' !! ls = Some df'
        /\ index df' = index df
        /\ other_columns df' = other_columns df
        /\ has_col df' "Signal" = true
        /\ has_col df' "Position" = true).
Proof.
  intros Hrun.
  destruct (analysis st) as [la|] eqn:Ha.
  2:{ unfold generate_trade_signals in Hrun.
      rewrite (bind_raise get_analysis _ st st
                 (AttributeError "'NoneType' object has no attribute 'copy'"))
        in Hrun by (unfold get_analysis; now rewrite Ha).
      injection Hrun as <- <-.
      repeat split; try assumption; try reflexivity; [auto|discriminate]. }
  destruct (heap st !! la) as [df|] eqn:Hh.
  2:{ unfold generate_trade_signals in Hrun.
      rewrite (bind_ok get_analysis _ st st la) in Hrun
        by (unfold get_analysis; now rewrite Ha).
      unfold copy_at in Hrun.
      erewrite bind_raise in Hrun
        by (erewrite bind_raise; [reflexivity|unfold load; now rewrite Hh]).
      injection Hrun as <- <-.
      repeat split; try assumption; try reflexivity; [auto|discriminate]. }
  destruct (generate_trade_signals_on_copy st la df Ha Hh)
    as (r0 & d' & s' & Hrun' & Hidx & Hcols & Hok).
  rewrite Hrun' in Hrun. injection Hrun as <- <-.
  cbn [heap data analysis signals].
  split; [reflexivity|]. split; [exact Ha|].
  assert (Hkeep : forall (l : loc) (d : DataFrame Timestamp),
             heap st !! l = Some d ->
             <[fresh (dom (heap st)) := d']> (heap st) !! l = Some d).
  { intros l d Hl. rewrite lookup_insert_ne; [exact Hl|].
    eapply fresh_not_allocated, Hl. }
  split; [exact Hkeep|].
  intros Hr. destruct (Hok Hr) as (-> & Hsig & Hpos).
  exists la, (fresh (dom (heap st))), df, d'.
  repeat split; try assumption.
  - now apply Hkeep.
  - eapply fresh_not_allocated, Hh.
  - apply lookup_insert_eq.
Qed.

Lemma generate_trade_signals_keeps_analysis_witness :
  exists st',
    generate_trade_signals demo_state = (Ok tt, st')
    /\ analysis st' = analysis demo_state
    /\ heap st' !! 1%positive = Some demo_table.
Proof.
  eexists. split; [vm_compute; reflexivity|].
  edestruct (generate_trade_signals_keeps_analysis demo_state)
    as (_ & Ha & Hkeep & _); [vm_compute; reflexivity|].
  split; [exact Ha|]. apply Hkeep. reflexivity.
Defined.

(** * The normaliser and the orchestration: settled statements *)

Section NormaliserFacts.

Lemma rmap_raise {A B} (f : A -> result B) (l : list A) (x : A) (e0 : exn) :
  (forall y e, f y = Raise e -> e = e0) ->
  In x l -> f x = Raise e0 -> rmap f l = Raise e0.
Proof.
  intros Hall Hin Hx. induction l as [|y l IH]; [contradiction|].
  simpl. destruct (f y) as [b|e] eqn:Ey.
  - destruct Hin as [->|Hin]; [congruence|].
    simpl. now rewrite (IH Hin).
  - apply Hall in Ey. now subst e.
Qed.

Lemma rmap_ok {A B} (f : A -> result B) (l : list A) :
  (forall x, In x l -> exists y, f x = Ok y) ->
  exists ys, rmap f l = Ok ys /\ length ys = length l.
Proof.
  induction l as [|x l IH]; intros H; [exists []; split; reflexivity|].
  destruct (H x (or_introl eq_refl)) as [y Hy].
  destruct IH as (ys & Hys & Hlen); [intros z Hz; apply H; now right|].
  exists (y :: ys). simpl. rewrite Hy. simpl. rewrite Hys. simpl.
  split; [reflexivity|]. now rewrite Hlen.
Qed.

Lemma assoc_In {A} (k : string) (l : list (string * A)) (v : A) :
  assoc k l = Some v -> In (k, v) l.
Proof.
  induction l as [|[k' v'] l IH]; simpl; [discriminate|].
  destruct (String.eqb k k') eqn:E.
  - apply String.eqb_eq in E. subst k'. intros [= ->]. now left.
  - intros H. right. now apply IH.
Qed.

Lemma existsb_eqb_In (x : string) (l : list string) :
  existsb (String.eqb x) l = true <-> In x l.
Proof.
  rewrite existsb_exists. split.
  - intros (y & Hy & E). apply String.eqb_eq in E. now subst y.
  - intros H. exists x. split; [exact H|apply String.eqb_refl].
Qed.

Lemma add_labels_seen (seen ls : list string) (x : string) :
  In x seen -> In x (add_labels seen ls).
Proof.
  revert seen. induction ls as [|l ls IH]; intros seen H; [exact H|].
  simpl. apply IH. destruct (existsb (String.eqb l) seen); [exact H|].
  apply in_or_app. now left.
Qed.

Lemma add_labels_new (seen ls : list string) (x : string) :
  In x ls -> In x (add_labels seen ls).
Proof.
  revert seen. induction ls as [|l ls IH]; intros seen H; [contradiction|].
  simpl. destruct H as [->|H]; [|now apply IH].
  apply add_labels_seen.
  destruct (existsb (String.eqb x) seen) eqn:E.
  - now apply existsb_eqb_In.
  - apply in_or_app. right. now left.
Qed.

Lemma labels_fold_seen (data : RawSeries) (seen : list string) (x : string) :
  In x seen ->
  In x (fold_left (fun seen kr => add_labels seen (map fst (snd kr))) data seen).
Proof.
  revert seen. induction data as [|kr data IH]; intros seen H; [exact H|].
  simpl. apply IH. now apply add_labels_seen.
Qed.

Lemma labels_fold_new (data : RawSeries) (seen : list string) (kr : string * RawRecord)
  (x : string) :
  In kr data -> In x (map fst (snd kr)) ->
  In x (fold_left (fun seen kr => add_labels seen (map fst (snd kr))) data seen).
Proof.
  revert seen. induction data as [|kr' data IH]; intros seen Hin Hx; [contradiction|].
  simpl. destruct Hin as [->|Hin].
  - apply labels_fold_seen. now apply add_labels_new.
  - now apply IH.
Qed.

Lemma cast_float_error (v : raw) (e : exn) : cast_float v = Raise e -> e = cast_error.
Proof.
  destruct v as [s| |]; simpl; try discriminate.
  destruct (float_of_string s); [discriminate|]. now intros [= <-].
Qed.

Lemma cell_error (label : string) (r : RawRecord) (e : exn) :
  cell label r = Raise e -> e = cast_error.
Proof.
  unfold cell. destruct (assoc label r); [apply cast_float_error|discriminate].
Qed.

(** A cell that is not a number aborts the construction of the frame. *)
Lemma from_dict_malformed (series : RawSeries) (key label s : string) (record : RawRecord) :
  In (key, record) series ->
  assoc label record = Some (RStr s) ->
  float_of_string s = None ->
  from_dict series = Raise cast_error.
Proof.
  intros Hin Hassoc Hs. unfold from_dict.
  assert (Hlabel : In label (labels series)).
  { unfold labels. apply (labels_fold_new series [] (key, record) label Hin).
    apply assoc_In in Hassoc. now apply (in_map fst) in Hassoc. }
  assert (Hrow : In (key, record) (rows series)).
  { unfold rows. apply filter_In. split; [exact Hin|].
    simpl. destruct record; [discriminate|reflexivity]. }
  assert (Hcol : rmap (fun kr => cell label (snd kr)) (rows series) = Raise cast_error).
  { apply (rmap_raise _ _ (key, record)); [|exact Hrow|].
    - intros y e. apply cell_error.
    - unfold cell. simpl. rewrite Hassoc. simpl. now rewrite Hs. }
  erewrite (rmap_raise _ _ label cast_error); [reflexivity| |exact Hlabel|].
  - intros l e.
    destruct (rmap (fun kr => cell l (snd kr)) (rows series)) as [c|e'] eqn:E;
      simpl; [discriminate|].
    intros [= <-]. clear -E. induction (rows series) as [|kr t IH]; [discriminate|].
    simpl in E. destruct (cell l (snd kr)) as [y|e''] eqn:Ec.
    + simpl in E. destruct (rmap (fun kr => cell l (snd kr)) t); [discriminate|].
      simpl in E. injection E as <-. now apply IH.
    + simpl in E. injection E as <-. eapply cell_error, Ec.
  - now rewrite Hcol.
Qed.

End NormaliserFacts.

(** C7: when some record carries a field whose text (of ASCII
    characters) is not a number, both [analyze_currency_strength] and the
    whole run raise the [ValueError] of the cast, and the analyser is left
    exactly as it was: no analysis and no signal table is stored. *)
Theorem malformed_price_aborts_run
  (st : analyzer) (resp : Response) (series : RawSeries)
  (key label s : string) (record : RawRecord) :
  data st = Some resp ->
  assoc time_series_key resp = Some series ->
  In (key, record) series ->
  assoc label record = Some (RStr s) ->
  is_ascii_text s = true ->
  float_of_string s = None ->
  analyze_currency_strength st = (Raise cast_error, st)
  /\ pipeline st = (Raise cast_error, st).
Proof.
  intros Hd Hts Hin Hassoc _ Hs.
  assert (Hrun : analyze_currency_strength st = (Raise cast_error, st)).
  { unfold analyze_currency_strength.
    rewrite (bind_ok get_data _ st st resp) by (unfold get_data; now rewrite Hd).
    rewrite (bind_ok _ _ st st series)
      by (unfold lift, subscript; now rewrite Hts).
    apply bind_raise. unfold lift, preprocess_data.
    now rewrite (from_dict_malformed series key label s record). }
  split; [exact Hrun|]. unfold pipeline. now apply bind_raise.
Qed.

Lemma malformed_price_aborts_run_witness :
  is_ascii_text "N/A" = true
  /\ float_of_string "N/A" = None
  /\ pipeline (fetched malformed_response) = (Raise cast_error, fetched malformed_response)
  /\ analysis (fetched malformed_response) = None
  /\ signals (fetched malformed_response) = None.
Proof.
  split; [reflexivity|]. split; [reflexivity|]. split; [|split; reflexivity].
  eapply (malformed_price_aborts_run (fetched malformed_response) malformed_response
            _ "2024-01-03" "4. close" "N/A").
  - reflexivity.
  - reflexivity.
  - right. left. reflexivity.
  - reflexivity.
  - reflexivity.
  - reflexivity.
Defined.

(** C6, as stated, fails: an empty mapping makes the run fail with the
    [KeyError] of the lookup of the ["Close"] column, and the very same
    error is raised for a mapping that is not empty but lacks closing
    prices; there is no error reserved for the empty series. *)
Lemma empty_input_error_is_not_distinct :
  fst (pipeline (fetched empty_response)) = Raise (KeyError "Close")
  /\ fst (pipeline (fetched no_close_response)) = Raise (KeyError "Close")
  /\ assoc time_series_key no_close_response <> Some [].
Proof.
  split; [vm_compute; reflexivity|].
  split; [vm_compute; reflexivity|discriminate].
Qed.

(** C6, amended: on a mapping without entries the normaliser itself
    succeeds with a frame that has neither rows nor columns; the run then
    fails with the [KeyError] raised by the lookup of the ["Close"] column,
    and stores neither an analysis nor a signal table (the response, both
    attributes and every existing object are as before). *)
Theorem empty_input_fails_at_close_lookup (st : analyzer) (resp : Response) :
  data st = Some resp ->
  assoc time_series_key resp = Some [] ->
  preprocess_data [] = Ok {| index := []; columns := [] |}
  /\ exists st',
       analyze_currency_strength st = (Raise (KeyError "Close"), st')
       /\ pipeline st = (Raise (KeyError "Close"), st')
       /\ data st' = data st
       /\ analysis st' = analysis st
       /\ signals st' = signals st
       /\ forall (l : loc) (d : DataFrame Timestamp),
            heap st !! l = Some d -> heap st' !! l = Some d.
Proof.
  intros Hd Hts. split; [reflexivity|].
  assert (Hrun : analyze_currency_strength st
                 = (Raise (KeyError "Close"),
                    {| heap := <[fresh (dom (heap st)) := {| index := []; columns := [] |}]>
                                 (heap st);
                       data := data st; analysis := analysis st;
                       signals := signals st |})).
  { unfold analyze_currency_strength.
    rewrite (bind_ok get_data _ st st resp) by (unfold get_data; now rewrite Hd).
    rewrite (bind_ok (lift (subscript resp time_series_key)) _ st st [])
      by (unfold lift, subscript; now rewrite Hts).
    erewrite (bind_ok (lift (preprocess_data [])) _ st st) by reflexivity.
    erewrite bind_ok by reflexivity.
    apply bind_raise. now rewrite getitem_at_run. }
  eexists. split; [exact Hrun|].
  split; [unfold pipeline; now apply bind_raise|].
  cbn [heap data analysis signals]. repeat split.
  intros l d Hl. rewrite lookup_insert_ne; [exact Hl|].
  eapply fresh_not_allocated, Hl.
Qed.

Lemma empty_input_fails_at_close_lookup_witness :
  exists st',
    pipeline (fetched empty_response) = (Raise (KeyError "Close"), st')
    /\ analysis st' = None
    /\ signals st' = None.
Proof.
  destruct (empty_input_fails_at_close_lookup (fetched empty_response) empty_response
              eq_refl eq_refl)
    as (_ & st' & _ & Hrun & _ & Ha & Hs & _).
  exists st'. split; [exact Hrun|]. split; assumption.
Defined.

(** * Sorting the index *)

Section SortFacts.

Lemma date_ltb_spec (a b : Timestamp) :
  date_ltb a b = true
  <-> year a < year b
      \/ (year a = year b
          /\ (month a < month b \/ (month a = month b /\ day a < day b))).
Proof.
  unfold date_ltb.
  rewrite !orb_true_iff, !andb_true_iff, !orb_true_iff, !andb_true_iff.
  rewrite !Z.ltb_lt, !Z.eqb_eq. reflexivity.
Qed.

Lemma date_leb_total (a b : Timestamp) :
  date_leb a b = false -> date_leb b a = true.
Proof.
  unfold date_leb. intros H. apply negb_false_iff in H.
  apply negb_true_iff. destruct (date_ltb a b) eqn:E; [|reflexivity].
  apply date_ltb_spec in H, E. lia.
Qed.

Lemma date_lt_irrefl (a : Timestamp) : ~ date_lt a a.
Proof. unfold date_lt. rewrite date_ltb_spec. lia. Qed.

Lemma date_lt_trans (a b c : Timestamp) : date_lt a b -> date_lt b c -> date_lt a c.
Proof. unfold date_lt. rewrite !date_ltb_spec. lia. Qed.

Lemma date_le_neq_lt (a b : Timestamp) : date_le a b -> a <> b -> date_lt a b.
Proof.
  unfold date_le, date_leb, date_lt. intros Hle Hne.
  apply negb_true_iff in Hle.
  destruct (date_ltb a b) eqn:E; [reflexivity|]. exfalso. apply Hne.
  assert (H1 : ~ date_ltb a b = true) by congruence.
  assert (H2 : ~ date_ltb b a = true) by congruence.
  rewrite date_ltb_spec in H1, H2.
  destruct a as [ya ma da], b as [yb mb db]. simpl in *.
  f_equal; lia.
Qed.

Lemma insert_sorted_perm (x : Timestamp * nat) (l : list (Timestamp * nat)) :
  Permutation (x :: l) (insert_sorted x l).
Proof.
  induction l as [|y l IH]; simpl; [reflexivity|].
  destruct (date_leb (fst x) (fst y)); [reflexivity|].
  rewrite perm_swap. now apply perm_skip.
Qed.

Lemma sort_pairs_perm (l : list (Timestamp * nat)) : Permutation l (sort_pairs l).
Proof.
  induction l as [|x l IH]; simpl; [reflexivity|].
  rewrite <- insert_sorted_perm. now apply perm_skip.
Qed.

Lemma insert_sorted_sorted (x : Timestamp * nat) (l : list (Timestamp * nat)) :
  Sorted pair_le l -> Sorted pair_le (insert_sorted x l).
Proof.
  induction 1 as [|y l Hs IH Hhd]; simpl; [repeat constructor|].
  destruct (date_leb (fst x) (fst y)) eqn:E.
  - constructor; [now constructor|]. constructor. exact E.
  - apply date_leb_total in E. constructor; [exact IH|].
    destruct l as [|z l]; simpl.
    + constructor. exact E.
    + destruct (date_leb (fst x) (fst z)); constructor; [exact E|].
      now inversion Hhd.
Qed.

Lemma sort_pairs_sorted (l : list (Timestamp * nat)) : Sorted pair_le (sort_pairs l).
Proof.
  induction l as [|x l IH]; simpl; [constructor|].
  now apply insert_sorted_sorted.
Qed.

Lemma sorted_map_fst (l : list (Timestamp * nat)) :
  Sorted pair_le l -> Sorted date_le (map fst l).
Proof.
  induction 1 as [|x l Hs IH Hhd]; simpl; [constructor|].
  constructor; [exact IH|]. destruct Hhd; simpl; constructor. assumption.
Qed.

Lemma map_fst_combine_seq {A} (l : list A) (a : nat) :
  map fst (combine l (seq a (length l))) = l.
Proof.
  revert a. induction l as [|x l IH]; intros a; simpl; [reflexivity|].
  now rewrite IH.
Qed.

Lemma sorted_le_nodup_lt (l : list Timestamp) :
  Sorted date_le l -> List.NoDup l -> Sorted date_lt l.
Proof.
  induction 1 as [|x l Hs IH Hhd]; intros Hnd; [constructor|].
  inversion Hnd as [|? ? Hx Hnd']; subst.
  constructor; [now apply IH|].
  destruct Hhd as [|y l Hxy]; constructor.
  apply date_le_neq_lt; [exact Hxy|]. intros ->. apply Hx. now left.
Qed.

Lemma sorted_lt_nodup (l : list Timestamp) : Sorted date_lt l -> List.NoDup l.
Proof.
  intros Hs. apply Sorted_StronglySorted in Hs;
    [|intros a b c; apply date_lt_trans].
  induction Hs as [|x l Hs IH Hall]; constructor; [|exact IH].
  intros Hin. rewrite List.Forall_forall in Hall.
  apply (date_lt_irrefl x). now apply Hall.
Qed.

Lemma sort_index_index (df : DataFrame Timestamp) :
  Permutation (index df) (index (sort_index df))
  /\ Sorted date_le (index (sort_index df)).
Proof.
  unfold sort_index. cbn [index]. split.
  - rewrite <- (map_fst_combine_seq (index df) 0) at 1.
    apply Permutation_map, sort_pairs_perm.
  - apply sorted_map_fst, sort_pairs_sorted.
Qed.

End SortFacts.

Lemma from_dict_ok (data : RawSeries) :
  (forall key record label v,
      In (key, record) data -> In (label, v) record -> exists x, cast_float v = Ok x) ->
  exists cols,
    from_dict data = Ok {| index := map fst (rows data); columns := cols |}.
Proof.
  intros Hcast. unfold from_dict.
  destruct (rmap_ok (fun l => rbind (rmap (fun kr => cell l (snd kr)) (rows data))
                                    (fun c => Ok (l, c)))
                    (labels data)) as (cols & Hcols & _).
  - intros l _.
    destruct (rmap_ok (fun kr => cell l (snd kr)) (rows data)) as (c & Hc & _).
    + intros [key record] Hin. unfold rows in Hin. apply filter_In in Hin as [Hin _].
      unfold cell. simpl. destruct (assoc l record) as [v|] eqn:E.
      * apply assoc_In in E. eapply Hcast; eassumption.
      * eexists. reflexivity.
    + rewrite Hc. simpl. eexists. reflexivity.
  - rewrite Hcols. simpl. eexists. reflexivity.
Qed.

(** C9, as stated, fails: two keys that spell the same day differently
    are both accepted, and the series produced carries that day twice. *)
Lemma duplicate_dates_are_kept :
  "2024-01-05" <> "2024-1-5"
  /\ parse_date "2024-01-05" = parse_date "2024-1-5"
  /\ exists df d,
       preprocess_data same_day_twice = Ok df
       /\ index df = [d; d].
Proof.
  split; [discriminate|]. split; [reflexivity|].
  do 2 eexists. split; vm_compute; reflexivity.
Qed.

(** C9, amended: the normaliser does not look for duplicate dates.
    Whenever every cell is a finite number and every key is a date (in the
    ISO layout, within the range of the timestamps) it succeeds, and the
    index of the series it returns is the list of the dates of the keys
    rearranged in non-decreasing order, every date occurring as often as
    among the keys; that index is strictly increasing exactly when no two
    keys denote the same date. *)
Theorem preprocess_data_sorts_and_keeps_duplicates
  (data : RawSeries) (dates : list Timestamp) :
  (forall key record label v,
      In (key, record) data -> In (label, v) record ->
      exists q, cast_float v = Ok (Fin q)) ->
  to_datetime (map fst (rows data)) = Ok dates ->
  exists df,
    preprocess_data data = Ok df
    /\ Permutation dates (index df)
    /\ Sorted date_le (index df)
    /\ (List.NoDup dates <-> Sorted date_lt (index df)).
Proof.
  intros Hcast Hdates.
  destruct (from_dict_ok data) as (cols & Hfd).
  { intros key record label v Hin Hv.
    destruct (Hcast key record label v Hin Hv) as [q Hq]. eauto. }
  unfold preprocess_data. rewrite Hfd. cbn [rbind rename index columns].
  rewrite Hdates. cbn [rbind].
  eexists. split; [reflexivity|].
  match goal with |- context [sort_index ?d] => set (df0 := d) end.
  destruct (sort_index_index df0) as [Hperm Hsorted].
  change (index df0) with dates in Hperm.
  split; [exact Hperm|]. split; [exact Hsorted|]. split.
  - intros Hnd. apply sorted_le_nodup_lt; [exact Hsorted|].
    eapply Permutation_NoDup; eassumption.
  - intros Hlt. apply sorted_lt_nodup in Hlt.
    eapply Permutation_NoDup; [symmetry; exact Hperm|exact Hlt].
Qed.

Lemma preprocess_data_sorts_and_keeps_duplicates_witness :
  exists df,
    preprocess_data same_day_twice = Ok df
    /\ Sorted date_le (index df)
    /\ length (index df) = 2%nat.
Proof.
  edestruct (preprocess_data_sorts_and_keeps_duplicates same_day_twice)
    as (df & Hrun & Hperm & Hsorted & _).
  - intros key record label v Hin Hv.
    repeat (destruct Hin as [[= <- <-]|Hin];
            [repeat (destruct Hv as [[= <- <-]|Hv]; [eexists; vm_compute; reflexivity|]);
             contradiction|]).
    contradiction.
  - vm_compute. reflexivity.
  - exists df. split; [exact Hrun|]. split; [exact Hsorted|].
    apply Permutation_length in Hperm. rewrite <- Hperm. reflexivity.
Defined.

(** * From the raw response to an analysis table *)

Section AnalysisTable.

Lemma rmap_inv {A B} (f : A -> result B) (l : list A) (ys : list B) :
  rmap f l = Ok ys -> Forall2 (fun x y => f x = Ok y) l ys.
Proof.
  revert ys. induction l as [|x l IH]; intros ys; simpl.
  - intros [= <-]. constructor.
  - destruct (f x) as [y|e] eqn:Ex; simpl; [|discriminate].
    destruct (rmap f l) as [zs|e]; simpl; [|discriminate].
    intros [= <-]. constructor; [exact Ex|]. now apply IH.
Qed.

Lemma add_labels_inv (seen ls : list string) (x : string) :
  In x (add_labels seen ls) -> In x seen \/ In x ls.
Proof.
  revert seen. induction ls as [|l ls IH]; intros seen H; [now left|].
  simpl in H. apply IH in H as [H|H]; [|right; now right].
  destruct (existsb (String.eqb l) seen); [now left|].
  apply in_app_or in H as [H|[->|[]]]; [now left|right; now left].
Qed.

Lemma labels_fold_inv (data : RawSeries) (seen : list string) (x : string) :
  In x (fold_left (fun seen kr => add_labels seen (map fst (snd kr))) data seen) ->
  In x seen \/ exists kr, In kr data /\ In x (map fst (snd kr)).
Proof.
  revert seen. induction data as [|kr data IH]; intros seen H; [now left|].
  simpl in H. apply IH in H as [H|(kr' & Hin & Hx)].
  - apply add_labels_inv in H as [H|H]; [now left|].
    right. exists kr. split; [now left|exact H].
  - right. exists kr'. split; [now right|exact Hx].
Qed.

Lemma labels_provider_shaped (series : RawSeries) (l : string) :
  provider_shaped series -> In l (labels series) -> In l api_labels.
Proof.
  intros Hshape Hl. apply labels_fold_inv in Hl as [[]|([key record] & Hin & Hx)].
  apply in_map_iff in Hx as ([l' v] & <- & Hv). eapply Hshape; eassumption.
Qed.

Lemma labels_rows (data : RawSeries) (l : string) :
  In l (labels data) -> rows data <> [].
Proof.
  intros Hl. apply labels_fold_inv in Hl as [[]|([key record] & Hin & Hx)].
  assert (Hrow : In (key, record) (rows data)).
  { unfold rows. apply filter_In. split; [exact Hin|].
    simpl in *. destruct record; [contradiction|reflexivity]. }
  intros E. rewrite E in Hrow. contradiction.
Qed.

(** What [from_dict] returns when it returns. *)
Lemma from_dict_inv (data : RawSeries) (df : DataFrame string) :
  from_dict data = Ok df ->
  index df = map fst (rows data)
  /\ col_names df = labels data
  /\ Forall (fun c => length (snd c) = length (rows data)) (columns df).
Proof.
  unfold from_dict.
  destruct (rmap _ (labels data)) as [cols|e] eqn:E; simpl; [|discriminate].
  intros [= <-]. split; [reflexivity|]. apply rmap_inv in E.
  unfold col_names. cbn [columns]. clear -E.
  induction E as [|l c ls cols Hc _ IH]; [split; constructor|].
  destruct IH as [IH1 IH2].
  destruct (rmap (fun kr => cell l (snd kr)) (rows data)) as [col|e] eqn:Ecol;
    simpl in Hc; [|discriminate].
  injection Hc as <-. simpl. split; [now rewrite IH1|].
  constructor; [|exact IH2]. simpl.
  apply rmap_inv, Forall2_length in Ecol. now rewrite Ecol.
Qed.

Lemma to_datetime_length (keys : list string) (dates : list Timestamp) :
  to_datetime keys = Ok dates -> length dates = length keys.
Proof.
  intros H. apply rmap_inv, Forall2_length in H. now rewrite H.
Qed.

Lemma length_sort_pairs (l : list (Timestamp * nat)) :
  length (sort_pairs l) = length l.
Proof. symmetry. apply Permutation_length, sort_pairs_perm. Qed.

(** What [preprocess_data] returns when it returns. *)
Lemma preprocess_data_inv (data : RawSeries) (df : DataFrame Timestamp) :
  preprocess_data data = Ok df ->
  col_names df = map renamed (labels data)
  /\ length (index df) = length (rows data)
  /\ Forall (fun c => length (snd c) = length (index df)) (columns df).
Proof.
  unfold preprocess_data.
  destruct (from_dict data) as [df0|e] eqn:Efd; simpl; [|discriminate].
  destruct (from_dict_inv data df0 Efd) as (Hidx & Hnames & Hlen).
  destruct (to_datetime (index df0)) as [dates|e] eqn:Edt; simpl; [|discriminate].
  intros [= <-]. unfold sort_index. cbn [index columns].
  apply to_datetime_length in Edt. rewrite Hidx, length_map in Edt.
  rewrite !length_map, length_sort_pairs, length_combine, length_seq.
  split; [|split; [lia|]].
  - unfold col_names in *. cbn [columns]. rewrite !map_map. simpl.
    rewrite <- Hnames, map_map. reflexivity.
  - rewrite List.Forall_map, List.Forall_map. apply Forall_true. intros c. simpl.
    unfold take_rows. rewrite !length_map, length_sort_pairs, length_combine, length_seq.
    reflexivity.
Qed.

Lemma renamed_api_label (l : string) :
  In l api_labels -> In (renamed l) ["Open"; "High"; "Low"; "Close"].
Proof.
  intros [<-|[<-|[<-|[<-|[]]]]]; vm_compute; tauto.
Qed.

Lemma preprocess_data_no_other_column (series : RawSeries) (df : DataFrame Timestamp)
  (name : string) :
  provider_shaped series ->
  preprocess_data series = Ok df ->
  ~ In name ["Open"; "High"; "Low"; "Close"] ->
  has_col df name = false.
Proof.
  intros Hshape Hdf Hname.
  destruct (preprocess_data_inv series df Hdf) as (Hnames & _ & _).
  unfold has_col. rewrite Hnames.
  destruct (existsb _ _) eqn:E; [|reflexivity].
  exfalso. apply Hname. apply existsb_eqb_In, in_map_iff in E as (l & <- & Hl).
  apply renamed_api_label. eapply labels_provider_shaped; eassumption.
Qed.

Lemma getitem_In {I} (df : DataFrame I) (name : string) (s : Series) :
  getitem df name = Ok s -> In (name, s) (columns df).
Proof.
  unfold getitem.
  destruct (List.filter _ (columns df)) as [|[n c] [|? ?]] eqn:E; try discriminate.
  intros [= <-].
  assert (H : In (n, c) (List.filter (fun c => String.eqb name (fst c)) (columns df)))
    by (rewrite E; now left).
  apply filter_In in H as [H Hn]. simpl in Hn. apply String.eqb_eq in Hn.
  now subst n.
Qed.

(** A successful [analyze_currency_strength] on a response of the
    provider's shape leaves an analysis table. *)
Lemma analyze_currency_strength_analysis_table
  (st st' : analyzer) (resp : Response) (series : RawSeries) :
  data st = Some resp ->
  assoc time_series_key resp = Some series ->
  provider_shaped series ->
  analyze_currency_strength st = (Ok tt, st') ->
  exists df rsi, analysis_table st' df rsi.
Proof.
  intros Hd Hts Hshape Hrun. unfold analyze_currency_strength in Hrun.
  rewrite (bind_ok get_data _ st st resp) in Hrun
    by (unfold get_data; now rewrite Hd).
  rewrite (bind_ok (lift (subscript resp time_series_key)) _ st st series) in Hrun
    by (unfold lift, subscript; now rewrite Hts).
  destruct (preprocess_data series) as [df0|e] eqn:Edf;
    [|erewrite bind_raise in Hrun by reflexivity; discriminate].
  erewrite (bind_ok (lift (Ok df0)) _ st st) in Hrun by reflexivity.
  erewrite bind_ok in Hrun by reflexivity.
  rewrite bind_getitem_at in Hrun.
  destruct (getitem df0 "Close") as [close|e] eqn:Eclose; [|discriminate].
  destruct (calculate_rsi close default_window) as [rsi|e] eqn:Ersi;
    [|erewrite bind_raise in Hrun by reflexivity; discriminate].
  erewrite (bind_ok (lift (Ok rsi))) in Hrun by reflexivity.
  rewrite bind_setitem_at in Hrun. unfold set_analysis in Hrun.
  cbn [heap data analysis signals] in Hrun. injection Hrun as <-.
  destruct (preprocess_data_inv series df0 Edf) as (Hnames & Hrows & Hlen).
  assert (Hno : forall name, ~ In name ["Open"; "High"; "Low"; "Close"] ->
                             has_col df0 name = false)
    by (intros name; now apply (preprocess_data_no_other_column series)).
  assert (Hrsi0 : has_col df0 "RSI" = false).
  { apply Hno. intros [E|[E|[E|[E|[]]]]]; discriminate E. }
  exists (setitem df0 "RSI" rsi), rsi. unfold analysis_table.
  cbn [heap analysis]. split; [|split; [|split; [|split; [|split]]]].
  - eexists. split; [reflexivity|apply lookup_insert_eq].
  - unfold setitem. rewrite Hrsi0. now apply getitem_appended.
  - unfold setitem. rewrite Hrsi0, has_col_append.
    replace (has_col {| index := index df0; columns := columns df0 |} "Signal")
      with (has_col df0 "Signal") by reflexivity.
    rewrite Hno; [reflexivity|]. intros [E|[E|[E|[E|[]]]]]; discriminate E.
  - unfold setitem. rewrite Hrsi0, has_col_append.
    replace (has_col {| index := index df0; columns := columns df0 |} "Position")
      with (has_col df0 "Position") by reflexivity.
    rewrite Hno; [reflexivity|]. intros [E|[E|[E|[E|[]]]]]; discriminate E.
  - cbn [setitem index]. intros E.
    apply getitem_has_col in Eclose. unfold has_col in Eclose.
    rewrite Hnames in Eclose.
    apply existsb_eqb_In, in_map_iff in Eclose as (l & _ & Hl).
    apply labels_rows in Hl. apply Hl.
    apply length_zero_iff_nil. rewrite <- Hrows, E. reflexivity.
  - cbn [setitem index].
    apply getitem_In in Eclose. rewrite List.Forall_forall in Hlen.
    specialize (Hlen _ Eclose). simpl in Hlen. rewrite <- Hlen.
    unfold default_window in Ersi. rewrite calculate_rsi_ok in Ersi by lia.
    injection Ersi as <-. now rewrite length_fmap, length_seq.
Qed.

End AnalysisTable.

(** * Further properties of the RSI engine *)

Section RsiShape.


(** For every window that the engine accepts the RSI series is as long as
    the prices, and at every position where neither rolling average is
    negative or infinite the RSI is undefined or a number between 0 and
    100. *)
Theorem rsi_within_range_at_nonnegative_averages
  (data : Series) (w : Z) (gain loss rsi : Series) :
  avg_gain data w = Ok gain ->
  avg_loss data w = Ok loss ->
  calculate_rsi data w = Ok rsi ->
  length rsi = length data
  /\ forall (i : nat) (g l : fl),
       gain !! i = Some g -> loss !! i = Some l ->
       nonneg_or_nan g -> nonneg_or_nan l ->
       exists x, rsi !! i = Some x /\ in_rsi_range x.
Proof.
  intros Hgain Hloss Hrsi.
  destruct (Z.lt_ge_cases w 0) as [Hneg|Hw].
  { rewrite calculate_rsi_negative in Hrsi by exact Hneg. discriminate. }
  rewrite avg_gain_ok in Hgain by exact Hw.
  rewrite avg_loss_ok in Hloss by exact Hw.
  rewrite calculate_rsi_ok in Hrsi by exact Hw.
  injection Hgain as <-. injection Hloss as <-. injection Hrsi as <-.
  split; [now rewrite length_fmap, length_seq|].
  intros i g l Hg Hl Hg0 Hl0.
  apply fmap_seq_lookup_inv in Hg as [Hi Hg].
  apply fmap_seq_lookup_inv in Hl as [_ Hl].
  rewrite fmap_seq_lookup by exact Hi. rewrite <- Hg, <- Hl.
  eexists. split; [reflexivity|]. now apply rsi_of_range.
Qed.

Lemma rsi_within_range_at_nonnegative_averages_witness :
  exists rsi x,
    calculate_rsi (Fin <$> close15) 14 = Ok rsi
    /\ length rsi = 15%nat
    /\ rsi !! 13%nat = Some x
    /\ in_rsi_range x.
Proof.
  edestruct (rsi_within_range_at_nonnegative_averages (Fin <$> close15) 14)
    as (Hlen & Hrange); [vm_compute; reflexivity ..|].
  edestruct (Hrange 13%nat) as (x & Hx & Hin);
    [reflexivity|reflexivity|unfold nonneg_or_nan, Qle; simpl; lia
    |unfold nonneg_or_nan, Qle; simpl; lia|].
  do 2 eexists. split; [reflexivity|].
  split; [exact Hlen|]. split; [exact Hx|exact Hin].
Defined.














End RsiShape.

(** * Further properties of the orchestration *)

Section Orchestration.

Implicit Types (st : analyzer) (resp : Response) (series : RawSeries).

Lemma analyze_reads_series st resp series :
  data st = Some resp ->
  assoc time_series_key resp = Some series ->
  analyze_currency_strength st
  = bind (lift (preprocess_data series))
      (fun df =>
         let* l := alloc df in
         let* close := getitem_at l "Close" in
         let* rsi := lift (calculate_rsi close default_window) in
         let* _ := setitem_at l "RSI" rsi in
         set_analysis l) st.
Proof.
  intros Hd Hts. unfold analyze_currency_strength.
  rewrite (bind_ok get_data _ st st resp) by (unfold get_data; now rewrite Hd).
  now rewrite (bind_ok (lift (subscript resp time_series_key)) _ st st series)
    by (unfold lift, subscript; now rewrite Hts).
Qed.

(** The run of [analyze_currency_strength] once the normaliser has
    answered: either the lookup of ["Close"] fails, or the table with its
    new ["RSI"] column is stored in [self.analysis]. *)
Lemma analyze_after_preprocess st resp series (df0 : DataFrame Timestamp) :
  data st = Some resp ->
  assoc time_series_key resp = Some series ->
  preprocess_data series = Ok df0 ->
  analyze_currency_strength st
  = match getitem df0 "Close" with
    | Raise e =>
        (Raise e,
         {| heap := <[fresh (dom (heap st)) := df0]> (heap st); data := data st;
            analysis := analysis st; signals := signals st |})
    | Ok close =>
        (Ok tt,
         {| heap :=
              <[fresh (dom (heap st)) :=
                  setitem df0 "RSI"
                    ((fun i => rsi_of (window_mean 14 (gains close) i)
                                      (window_mean 14 (losses close) i))
                       <$> seq 0 (length close))]> (heap st);
            data := data st;
            analysis := Some (fresh (dom (heap st)));
            signals := signals st |})
    end.
Proof.
  intros Hd Hts Hdf. rewrite (analyze_reads_series st resp series Hd Hts), Hdf.
  erewrite (bind_ok (lift (Ok df0)) _ st st) by reflexivity.
  erewrite bind_ok by reflexivity.
  rewrite bind_getitem_at.
  destruct (getitem df0 "Close") as [close|e]; [|reflexivity].
  unfold default_window. rewrite calculate_rsi_ok by lia.
  erewrite (bind_ok (lift (Ok _))) by reflexivity.
  rewrite bind_setitem_at. reflexivity.
Qed.

(** Whatever its outcome, [analyze_currency_strength] leaves the response,
    [self.signals] and every object that existed before the call as they
    were; when it fails, [self.analysis] is as before too, and when it
    succeeds, [self.analysis] refers to an object that did not exist
    before. *)
Theorem analyze_currency_strength_frame (st st' : analyzer) (r : result unit) :
  analyze_currency_strength st = (r, st') ->
  data st' = data st
  /\ signals st' = signals st
  /\ (forall (l : loc) (d : DataFrame Timestamp),
        heap st !! l = Some d -> heap st' !! l = Some d)
  /\ (forall e, r = Raise e -> analysis st' = analysis st)
  /\ (r = Ok tt ->
      exists l, analysis st' = Some l /\ heap st !! l = None
                /\ is_Some (heap st' !! l)).
Proof.
  intros Hrun.
  assert (Hkeep : forall (d0 : DataFrame Timestamp) (l : loc) (d : DataFrame Timestamp),
             heap st !! l = Some d ->
             <[fresh (dom (heap st)) := d0]> (heap st) !! l = Some d).
  { intros d0 l d Hl. rewrite lookup_insert_ne; [exact Hl|].
    eapply fresh_not_allocated, Hl. }
  assert (Hfresh : heap st !! fresh (dom (heap st)) = None).
  { apply not_elem_of_dom. apply is_fresh. }
  destruct (data st) as [resp|] eqn:Hd.
  2:{ unfold analyze_currency_strength in Hrun.
      erewrite bind_raise in Hrun by (unfold get_data; now rewrite Hd).
      injection Hrun as <- <-.
      repeat split; try reflexivity; try assumption; [auto|discriminate]. }
  destruct (assoc time_series_key resp) as [series|] eqn:Hts.
  2:{ unfold analyze_currency_strength in Hrun.
      rewrite (bind_ok get_data _ st st resp) in Hrun
        by (unfold get_data; now rewrite Hd).
      erewrite bind_raise in Hrun by (unfold lift, subscript; now rewrite Hts).
      injection Hrun as <- <-.
      repeat split; try reflexivity; try assumption; [auto|discriminate]. }
  destruct (preprocess_data series) as [df0|e] eqn:Hdf.
  2:{ rewrite (analyze_reads_series st resp series Hd Hts), Hdf in Hrun.
      erewrite bind_raise in Hrun by reflexivity.
      injection Hrun as <- <-.
      repeat split; try reflexivity; try assumption; [auto|discriminate]. }
  rewrite (analyze_after_preprocess st resp series df0 Hd Hts Hdf) in Hrun.
  destruct (getitem df0 "Close") as [close|e]; injection Hrun as <- <-;
    cbn [heap data analysis signals].
  - repeat split; try assumption; try reflexivity.
    + apply Hkeep.
    + discriminate.
    + intros _. eexists. split; [reflexivity|]. split; [exact Hfresh|].
      rewrite lookup_insert_eq. eauto.
  - repeat split; try assumption; try reflexivity.
    + apply Hkeep.
    + discriminate.
Qed.

Lemma analyze_currency_strength_frame_witness :
  exists st',
    analyze_currency_strength (fetched no_close_response) = (Raise (KeyError "Close"), st')
    /\ data st' = Some no_close_response
    /\ analysis st' = None.
Proof.
  eexists. split; [vm_compute; reflexivity|].
  edestruct (analyze_currency_strength_frame (fetched no_close_response))
    as (Hd & _ & _ & Ha & _); [vm_compute; reflexivity|].
  split; [exact Hd|]. exact (Ha _ eq_refl).
Defined.

(** A body without the time-series entry (the shape of the provider's
    error and rate-limit answers) makes [analyze_currency_strength], and
    with it the run, fail with the [KeyError] of that entry; the analyser
    is left exactly as it was. *)
Theorem response_without_time_series st resp :
  data st = Some resp ->
  assoc time_series_key resp = None ->
  analyze_currency_strength st = (Raise (KeyError time_series_key), st)
  /\ pipeline st = (Raise (KeyError time_series_key), st).
Proof.
  intros Hd Hts.
  assert (Hrun : analyze_currency_strength st = (Raise (KeyError time_series_key), st)).
  { unfold analyze_currency_strength.
    rewrite (bind_ok get_data _ st st resp) by (unfold get_data; now rewrite Hd).
    apply bind_raise. unfold lift, subscript. now rewrite Hts. }
  split; [exact Hrun|]. unfold pipeline. now apply bind_raise.
Qed.

End Orchestration.

(** * The run on input that can be analysed *)

Section SuccessfulRun.

Implicit Types (st : analyzer) (resp : Response) (series : RawSeries).

Lemma NoDup_snoc {A} (l : list A) (x : A) :
  List.NoDup l -> ~ In x l -> List.NoDup (l ++ [x]).
Proof.
  induction 1 as [|y l Hy Hl IH]; intros Hx; simpl.
  - constructor; [intros []|constructor].
  - constructor.
    + intros Hin. apply in_app_or in Hin as [Hin|[->|[]]]; [now apply Hy|].
      apply Hx. now left.
    + apply IH. intros Hin. apply Hx. now right.
Qed.

Lemma add_labels_NoDup (seen ls : list string) :
  List.NoDup seen -> List.NoDup (add_labels seen ls).
Proof.
  revert seen. induction ls as [|l ls IH]; intros seen H; [exact H|].
  simpl. apply IH. destruct (existsb (String.eqb l) seen) eqn:E; [exact H|].
  apply NoDup_snoc; [exact H|]. intros Hin. apply existsb_eqb_In in Hin. congruence.
Qed.

Lemma labels_NoDup (data : RawSeries) : List.NoDup (labels data).
Proof.
  unfold labels. generalize (List.NoDup_nil string).
  generalize (@nil string) as seen.
  induction data as [|kr data IH]; intros seen H; [exact H|].
  simpl. apply IH. now apply add_labels_NoDup.
Qed.

Lemma renamed_inj (a b : string) :
  In a api_labels -> In b api_labels -> renamed a = renamed b -> a = b.
Proof.
  intros [<-|[<-|[<-|[<-|[]]]]] [<-|[<-|[<-|[<-|[]]]]];
    vm_compute; intros E; try reflexivity; discriminate E.
Qed.

Lemma renamed_NoDup (ls : list string) :
  (forall l, In l ls -> In l api_labels) ->
  List.NoDup ls -> List.NoDup (map renamed ls).
Proof.
  intros Hall. induction 1 as [|l ls Hl Hnd IH]; simpl; constructor.
  - intros Hin. apply in_map_iff in Hin as (b & Hb & Hin).
    apply renamed_inj in Hb; [|apply Hall; now right|apply Hall; now left].
    subst b. contradiction.
  - apply IH. intros x Hx. apply Hall. now right.
Qed.

Lemma getitem_NoDup {I} (df : DataFrame I) (name : string) :
  List.NoDup (col_names df) -> In name (col_names df) ->
  exists s, getitem df name = Ok s.
Proof.
  unfold getitem, col_names. induction (columns df) as [|[n c] cols IH]; simpl;
    intros Hnd Hin; [contradiction|].
  inversion Hnd as [|? ? Hn Hnd']; subst.
  destruct (String.eqb name n) eqn:E.
  - apply String.eqb_eq in E. subst n.
    rewrite (existsb_eqb_false_filter name cols).
    + eexists. reflexivity.
    + destruct (existsb _ _) eqn:Ex; [|reflexivity].
      apply existsb_eqb_In in Ex. contradiction.
  - apply IH; [exact Hnd'|]. destruct Hin as [->|Hin]; [|exact Hin].
    rewrite String.eqb_refl in E. discriminate.
Qed.

Lemma to_datetime_ok (keys : list string) :
  (forall k, In k keys -> exists t, parse_date k = Some t) ->
  exists dates, to_datetime keys = Ok dates.
Proof.
  intros H. unfold to_datetime.
  destruct (rmap_ok (fun k => match parse_date k with
                              | Some t => Ok t
                              | None => Raise (ValueError "time data does not match format")
                              end) keys) as (dates & Hd & _).
  - intros k Hk. destruct (H k Hk) as [t ->]. eauto.
  - eauto.
Qed.

(** On input that can be analysed the normaliser succeeds and its table
    has exactly one ["Close"] column. *)
Lemma preprocess_data_analysable series :
  analysable series ->
  exists df close,
    preprocess_data series = Ok df /\ getitem df "Close" = Ok close.
Proof.
  intros (Hshape & Hcast & Hkeys & (key & record & v & Hin & Hclose)).
  destruct (from_dict_ok series) as (cols & Hfd).
  { intros k r label x Hk Hx. destruct (Hcast k r label x Hk Hx) as [q Hq]. eauto. }
  destruct (to_datetime_ok (map fst (rows series))) as (dates & Hdates).
  { intros k Hk. apply in_map_iff in Hk as ([k' r] & <- & Hr).
    unfold rows in Hr. apply filter_In in Hr as [Hr Hne]. simpl in *.
    apply (Hkeys k' r Hr). destruct r; [discriminate|discriminate]. }
  assert (Hdf : exists df, preprocess_data series = Ok df).
  { unfold preprocess_data. rewrite Hfd. cbn [rbind rename index columns].
    rewrite Hdates. cbn [rbind]. eauto. }
  destruct Hdf as (df & Hdf). exists df.
  destruct (preprocess_data_inv series df Hdf) as (Hnames & _ & _).
  destruct (getitem_NoDup df "Close") as (close & Hc).
  - rewrite Hnames. apply renamed_NoDup; [|apply labels_NoDup].
    intros l. now apply labels_provider_shaped.
  - rewrite Hnames. change "Close" with (renamed "4. close"). apply in_map.
    unfold labels. apply (labels_fold_new series [] (key, record)); [exact Hin|].
    now apply (in_map fst) in Hclose.
  - exists close. split; assumption.
Qed.

(** On input that can be analysed the whole run succeeds: the analysis
    table and the signal table are two different objects, both well formed
    and with one row per non-empty record; the signal table has the columns
    of the analysis table followed by ["Signal"] and ["Position"]. *)
Theorem pipeline_succeeds_on_analysable_input st resp series :
  data st = Some resp ->
  assoc time_series_key resp = Some series ->
  analysable series ->
  exists st' la ls dfa dfs,
    pipeline st = (Ok tt, st')
    /\ analysis st' = Some la
    /\ signals st' = Some ls
    /\ la <> ls
    /\ heap st' !! la = Some dfa
    /\ heap st' !! ls = Some dfs
    /\ length (index dfa) = length (rows series)
    /\ index dfs = index dfa
    /\ well_formed dfa
    /\ well_formed dfs
    /\ exists sg ps, columns dfs = columns dfa ++ [("Signal", sg); ("Position", ps)].
Proof.
  intros Hd Hts Hok.
  destruct (preprocess_data_analysable series Hok) as (df0 & close & Hdf & Hclose).
  pose proof (analyze_after_preprocess st resp series df0 Hd Hts Hdf) as Hrun.
  rewrite Hclose in Hrun.
  match type of Hrun with _ = (_, ?s) => set (st1 := s) in * end.
  destruct (analyze_currency_strength_analysis_table st st1 resp series Hd Hts
              (proj1 Hok) Hrun) as (dfa & rsi & Htable).
  pose proof Htable
    as ((la & Ha & Hh) & Hrsi & Hsig & Hpos & Hidx & Hlen).
  pose proof (generate_trade_signals_run st1 la dfa rsi Ha Hh Hrsi Hsig Hpos Hidx)
    as Hgen.
  match type of Hgen with _ = (_, ?s) => set (st2 := s) in * end.
  assert (Hne : fresh (dom (heap st1)) <> la) by (eapply fresh_not_allocated, Hh).
  exists st2, la, (fresh (dom (heap st1))), dfa. eexists.
  split.
  { unfold pipeline. rewrite (bind_ok _ _ _ _ _ Hrun). exact Hgen. }
  subst st2. cbn [heap data analysis signals].
  split; [exact Ha|]. split; [reflexivity|]. split; [congruence|].
  split; [rewrite lookup_insert_ne; [exact Hh|exact Hne]|].
  split; [apply lookup_insert_eq|].
  assert (Hdfa : dfa = setitem df0 "RSI"
                         ((fun i => rsi_of (window_mean 14 (gains close) i)
                                           (window_mean 14 (losses close) i))
                            <$> seq 0 (length close))).
  { subst st1. cbn [heap analysis] in Ha, Hh. injection Ha as <-.
    rewrite lookup_insert_eq in Hh. now injection Hh as <-. }
  destruct (preprocess_data_inv series df0 Hdf) as (_ & Hrows & Hwf0).
  assert (Hwfa : well_formed dfa).
  { unfold well_formed. rewrite List.Forall_forall. intros [n c] Hc.
    apply getitem_In in Hrsi. rewrite Hdfa in Hc. unfold setitem in Hc.
    cbn [columns index] in Hc. rewrite Hdfa. cbn [setitem index snd].
    destruct (has_col df0 "RSI") eqn:E.
    - assert (Hfalse : has_col df0 "RSI" = false).
      { eapply preprocess_data_no_other_column; [exact (proj1 Hok)|exact Hdf|].
        intros [X|[X|[X|[X|[]]]]]; discriminate X. }
      congruence.
    - apply in_app_or in Hc as [Hc|[[= <- <-]|[]]].
      + rewrite List.Forall_forall in Hwf0. exact (Hwf0 _ Hc).
      + rewrite length_fmap, length_seq.
        apply getitem_In in Hclose. rewrite List.Forall_forall in Hwf0.
        exact (Hwf0 _ Hclose). }
  split; [rewrite Hdfa; exact Hrows|]. split; [reflexivity|].
  split; [exact Hwfa|]. split.
  - unfold well_formed. cbn [columns index]. apply Forall_app. split; [exact Hwfa|].
    repeat constructor; cbn [snd].
    + now rewrite length_signal_column.
    + now rewrite length_shift, length_signal_column.
  - do 2 eexists. reflexivity.
Qed.

End SuccessfulRun.

Section ShortSeries.

Implicit Types (st : analyzer) (resp : Response) (series : RawSeries).

Lemma analysable_table series :
  analysable series ->
  exists df0 close,
    preprocess_data series = Ok df0
    /\ getitem df0 "Close" = Ok close
    /\ has_col df0 "RSI" = false
    /\ has_col df0 "Signal" = false
    /\ has_col df0 "Position" = false
    /\ index df0 <> []
    /\ length close = length (index df0)
    /\ length (index df0) = length (rows series).
Proof.
  intros Hok.
  destruct (preprocess_data_analysable series Hok) as (df0 & close & Hdf & Hclose).
  destruct (preprocess_data_inv series df0 Hdf) as (Hnames & Hrows & Hwf).
  exists df0, close. split; [exact Hdf|]. split; [exact Hclose|].
  assert (Hno : forall name, ~ In name ["Open"; "High"; "Low"; "Close"] ->
                             has_col df0 name = false)
    by (intros name; now apply (preprocess_data_no_other_column series);
        try exact (proj1 Hok)).
  split; [apply Hno; intros [X|[X|[X|[X|[]]]]]; discriminate X|].
  split; [apply Hno; intros [X|[X|[X|[X|[]]]]]; discriminate X|].
  split; [apply Hno; intros [X|[X|[X|[X|[]]]]]; discriminate X|].
  split; [|split; [|exact Hrows]].
  - intros E. pose proof (getitem_has_col df0 "Close" close Hclose) as Hc.
    unfold has_col in Hc. rewrite Hnames in Hc.
    apply existsb_eqb_In, in_map_iff in Hc as (l & _ & Hl).
    apply labels_rows in Hl. apply Hl.
    apply length_zero_iff_nil. rewrite <- Hrows, E. reflexivity.
  - apply getitem_In in Hclose. rewrite List.Forall_forall in Hwf.
    exact (Hwf _ Hclose).
Qed.

(** The state in which a successful run leaves the analyser. *)
Lemma pipeline_run st resp series (df0 : DataFrame Timestamp) (close : Series) :
  data st = Some resp ->
  assoc time_series_key resp = Some series ->
  preprocess_data series = Ok df0 ->
  getitem df0 "Close" = Ok close ->
  has_col df0 "RSI" = false ->
  has_col df0 "Signal" = false ->
  has_col df0 "Position" = false ->
  index df0 <> [] ->
  exists st' ls rsi,
    pipeline st = (Ok tt, st')
    /\ calculate_rsi close default_window = Ok rsi
    /\ signals st' = Some ls
    /\ heap st' !! ls
       = Some {| index := index df0;
                 columns :=
                   (columns df0 ++ [("RSI", rsi)])
                   ++ [("Signal", signal_column rsi (length (index df0)));
                       ("Position", shift (signal_column rsi (length (index df0))))] |}.
Proof.
  intros Hd Hts Hdf Hclose Hrsi0 Hsig0 Hpos0 Hidx.
  pose proof (analyze_after_preprocess st resp series df0 Hd Hts Hdf) as Hrun.
  rewrite Hclose in Hrun.
  match type of Hrun with _ = (_, ?s) => set (st1 := s) in * end.
  set (rsi := (fun i => rsi_of (window_mean 14 (gains close) i)
                               (window_mean 14 (losses close) i))
                <$> seq 0 (length close)) in *.
  assert (Hset : setitem df0 "RSI" rsi
                 = {| index := index df0; columns := columns df0 ++ [("RSI", rsi)] |}).
  { unfold setitem. now rewrite Hrsi0. }
  assert (Hgen := generate_trade_signals_run st1 (fresh (dom (heap st)))
                    (setitem df0 "RSI" rsi) rsi).
  rewrite Hset in Hgen. cbn [index columns] in Hgen.
  do 3 eexists. split.
  { unfold pipeline. rewrite (bind_ok _ _ _ _ _ Hrun). apply Hgen.
    - reflexivity.
    - subst st1. cbn [heap]. rewrite Hset. apply lookup_insert_eq.
    - now apply (getitem_appended df0).
    - rewrite has_col_append.
      replace (has_col {| index := index df0; columns := columns df0 |} "Signal")
        with (has_col df0 "Signal") by reflexivity.
      now rewrite Hsig0.
    - rewrite has_col_append.
      replace (has_col {| index := index df0; columns := columns df0 |} "Position")
        with (has_col df0 "Position") by reflexivity.
      now rewrite Hpos0.
    - exact Hidx. }
  split; [unfold default_window; apply calculate_rsi_ok; lia|].
  cbn [signals heap]. split; [reflexivity|]. apply lookup_insert_eq.
Qed.

Lemma list_eq_repeat {A} (l : list A) (c : A) :
  (forall i x, l !! i = Some x -> x = c) -> l = repeat c (length l).
Proof.
  induction l as [|y l IH]; intros H; [reflexivity|].
  simpl. f_equal.
  - apply (H 0%nat). reflexivity.
  - apply IH. intros i x Hx. apply (H (S i)). exact Hx.
Qed.

Lemma signal_column_of_undefined (n : nat) :
  signal_column (repeat NaN n) n = repeat Neutral n.
Proof.
  rewrite (list_eq_repeat (signal_column (repeat NaN n) n) Neutral);
    [now rewrite length_signal_column|].
  intros i x Hx.
  assert (Hi : (i < n)%nat).
  { apply lookup_lt_Some in Hx. now rewrite length_signal_column in Hx. }
  rewrite (lookup_signal_column (repeat NaN n) n i NaN Hi) in Hx
    by (now apply lookup_repeat_lt).
  now injection Hx as <-.
Qed.

Lemma removelast_repeat {A} (c : A) (n : nat) :
  removelast (repeat c (S n)) = repeat c n.
Proof.
  induction n as [|n IH]; [reflexivity|].
  change (repeat c (S (S n))) with (c :: repeat c (S n)).
  cbn [removelast]. rewrite IH. reflexivity.
Qed.

(** On input that can be analysed and has fewer rows than the window of
    14 the run still succeeds, but the RSI is undefined on every row, so
    every signal is Neutral and every position after the first (which is
    undefined) is Neutral as well. *)
Theorem short_series_gives_no_signal st resp series :
  data st = Some resp ->
  assoc time_series_key resp = Some series ->
  analysable series ->
  (length (rows series) < 14)%nat ->
  exists st' ls dfs,
    pipeline st = (Ok tt, st')
    /\ signals st' = Some ls
    /\ heap st' !! ls = Some dfs
    /\ getitem dfs "RSI" = Ok (repeat NaN (length (rows series)))
    /\ getitem dfs "Signal" = Ok (repeat Neutral (length (rows series)))
    /\ getitem dfs "Position"
       = Ok (NaN :: repeat Neutral (length (rows series) - 1)).
Proof.
  intros Hd Hts Hok Hshort.
  destruct (analysable_table series Hok)
    as (df0 & close & Hdf & Hclose & Hrsi0 & Hsig0 & Hpos0 & Hidx & Hlc & Hrows).
  destruct (pipeline_run st resp series df0 close Hd Hts Hdf Hclose Hrsi0 Hsig0 Hpos0 Hidx)
    as (st' & ls & rsi & Hrun & Hrsi & Hs & Hh).
  assert (Hnan : rsi = repeat NaN (length (rows series))).
  { unfold default_window in Hrsi. rewrite calculate_rsi_ok in Hrsi by lia.
    injection Hrsi as <-. rewrite <- Hrows, <- Hlc.
    apply fmap_seq_const. intros i Hi.
    rewrite (window_mean_short (Z.to_nat 14) (gains close) i) by lia.
    reflexivity. }
  rewrite Hrows, Hnan, signal_column_of_undefined in Hh.
  do 3 eexists. split; [exact Hrun|]. split; [exact Hs|]. split; [exact Hh|].
  assert (Hn1 : existsb (String.eqb "Signal") (map fst (columns df0 ++ [("RSI", repeat NaN (length (rows series)))])) = false).
  { rewrite map_app, existsb_app. unfold has_col, col_names in Hsig0.
    now rewrite Hsig0. }
  assert (Hn2 : existsb (String.eqb "Position") (map fst (columns df0 ++ [("RSI", repeat NaN (length (rows series)))])) = false).
  { rewrite map_app, existsb_app. unfold has_col, col_names in Hpos0.
    now rewrite Hpos0. }
  split; [|split].
  - change [("Signal", repeat Neutral (length (rows series)));
            ("Position", shift (repeat Neutral (length (rows series))))]
      with ([("Signal", repeat Neutral (length (rows series)))]
            ++ [("Position", shift (repeat Neutral (length (rows series))))]).
    rewrite app_assoc, !getitem_append_other by discriminate.
    now apply (getitem_appended df0).
  - now apply getitem_signal.
  - rewrite getitem_position by exact Hn2. f_equal.
    destruct (length (rows series)) as [|n] eqn:En.
    + exfalso. apply Hidx. apply length_zero_iff_nil. now rewrite Hrows.
    + unfold shift. cbn [repeat]. change (Neutral :: repeat Neutral n)
        with (repeat Neutral (S n)). rewrite removelast_repeat.
      now replace (S n - 1)%nat with n by lia.
Qed.

End ShortSeries.

(** * The normaliser keeps every record, whole *)

Section RowsKept.

Lemma from_dict_cells (data : RawSeries) (df : DataFrame string) :
  from_dict data = Ok df ->
  Forall2 (fun label c =>
             fst c = label
             /\ Forall2 (fun kr x => cell label (snd kr) = Ok x) (rows data) (snd c))
          (labels data) (columns df).
Proof.
  unfold from_dict.
  destruct (rmap _ (labels data)) as [cols|e] eqn:E; simpl; [|discriminate].
  intros [= <-]. cbn [columns]. apply rmap_inv in E.
  eapply Forall2_impl; [exact E|]. intros l c Hc. simpl in Hc.
  destruct (rmap (fun kr => cell l (snd kr)) (rows data)) as [col|e] eqn:Ecol;
    simpl in Hc; [|discriminate].
  injection Hc as <-. split; [reflexivity|]. now apply rmap_inv.
Qed.

Lemma combine_seq_positions {A} (pre l : list A) :
  Forall (fun tp => (pre ++ l) !! snd tp = Some (fst tp))
         (combine l (seq (length pre) (length l))).
Proof.
  revert pre. induction l as [|x l IH]; intros pre; simpl; constructor.
  - simpl. rewrite lookup_app_r by lia. now rewrite Nat.sub_diag.
  - specialize (IH (pre ++ [x])). rewrite <- app_assoc in IH. simpl in IH.
    rewrite length_app in IH. simpl in IH.
    now replace (length pre + 1)%nat with (S (length pre)) in IH by lia.
Qed.

Lemma map_snd_combine_seq {A} (l : list A) (a : nat) :
  map snd (combine l (seq a (length l))) = seq a (length l).
Proof.
  revert a. induction l as [|x l IH]; intros a; simpl; [reflexivity|].
  now rewrite IH.
Qed.

(** The sorted pairs remember where each date came from. *)
Lemma sort_pairs_positions (dates : list Timestamp) :
  let sorted := sort_pairs (combine dates (seq 0 (length dates))) in
  Permutation (map snd sorted) (seq 0 (length dates))
  /\ Forall (fun tp => dates !! snd tp = Some (fst tp)) sorted.
Proof.
  intros sorted. split.
  - etransitivity; [apply Permutation_map; symmetry; apply sort_pairs_perm|].
    now rewrite map_snd_combine_seq.
  - eapply Permutation_Forall; [apply sort_pairs_perm|].
    apply (combine_seq_positions [] dates).
Qed.

(** Every row of the table returned by [preprocess_data] is one record
    of the input, whole: there is a rearrangement [order] of the
    positions of the non-empty records such that row [j] carries the date
    of the key of record [order_j] and, in every column, the number cast
    from the field of that record (or [NaN] where it lacks the field). *)
Theorem preprocess_data_keeps_records (data : RawSeries) (df : DataFrame Timestamp) :
  preprocess_data data = Ok df ->
  exists order : list nat,
    Permutation order (seq 0 (length (rows data)))
    /\ forall (j p : nat) (key : string) (record : RawRecord),
         order !! j = Some p ->
         rows data !! p = Some (key, record) ->
         (exists t, parse_date key = Some t /\ index df !! j = Some t)
         /\ Forall2 (fun label c =>
                       fst c = renamed label
                       /\ exists x, cell label record = Ok x /\ snd c !! j = Some x)
                    (labels data) (columns df).
Proof.
  unfold preprocess_data.
  destruct (from_dict data) as [df0|e] eqn:Efd; simpl; [|discriminate].
  pose proof (from_dict_cells data df0 Efd) as Hcells.
  destruct (from_dict_inv data df0 Efd) as (Hidx & _ & _).
  destruct (to_datetime (index df0)) as [dates|e] eqn:Edt; simpl; [|discriminate].
  intros [= <-]. unfold sort_index. cbn [index columns].
  set (sorted := sort_pairs (combine dates (seq 0 (length dates)))).
  destruct (sort_pairs_positions dates) as [Hperm Hpos]. fold sorted in Hperm, Hpos.
  pose proof (to_datetime_length _ _ Edt) as Hlen.
  rewrite Hidx, length_map in Hlen.
  apply rmap_inv in Edt. rewrite Hidx in Edt.
  exists (map snd sorted). split; [now rewrite <- Hlen|].
  intros j p key record Hj Hp.
  rewrite map_fmap, list_lookup_fmap in Hj.
  destruct (sorted !! j) as [[t p']|] eqn:Es; [|discriminate].
  simpl in Hj. injection Hj as ->.
  rewrite Forall_lookup in Hpos. specialize (Hpos j (t, p) Es). simpl in Hpos.
  split.
  - exists t. split.
    + rewrite map_fmap in Edt.
      destruct (Forall2_lookup_r _ _ _ p t Edt Hpos) as (k & Hk & Hparse).
      rewrite list_lookup_fmap in Hk.
      assert (Hk' : fst <$> Some (key, record) = Some k) by (rewrite <- Hp; exact Hk).
      simpl in Hk'. injection Hk' as <-.
      destruct (parse_date key); [now injection Hparse as ->|discriminate].
    + rewrite map_fmap, list_lookup_fmap, Es. reflexivity.
  - rewrite !map_fmap. apply Forall2_fmap_r, Forall2_fmap_r.
    eapply Forall2_impl; [exact Hcells|].
    intros label c [<- Hcol]. simpl. split; [reflexivity|].
    destruct (Forall2_lookup_l _ _ _ p (key, record) Hcol Hp) as (x & Hx & Hcell).
    exists x. split; [exact Hcell|].
    unfold take_rows. rewrite !map_fmap, !list_lookup_fmap, Es. simpl.
    now rewrite nth_lookup, Hx.
Qed.

End RowsKept.

(** * The order of the keys does not matter *)

Section KeyOrder.

Lemma filter_Permutation' {A} (f : A -> bool) (l l' : list A) :
  Permutation l l' -> Permutation (List.filter f l) (List.filter f l').
Proof.
  induction 1 as [|x l l' _ IH|x y l|l l' l'' _ IH1 _ IH2]; simpl.
  - constructor.
  - destruct (f x); [now constructor|exact IH].
  - destruct (f x), (f y); try reflexivity. apply perm_swap.
  - now transitivity (List.filter f l').
Qed.

Lemma to_datetime_parses (keys : list string) (dates : list Timestamp) :
  to_datetime keys = Ok dates -> map Some dates = map parse_date keys.
Proof.
  intros H. apply rmap_inv in H.
  induction H as [|k t keys dates Hk _ IH]; [reflexivity|].
  simpl. rewrite IH. destruct (parse_date k); [|discriminate].
  now injection Hk as ->.
Qed.

Lemma map_Some_inj {A} (l l' : list A) : map Some l = map Some l' -> l = l'.
Proof.
  revert l'. induction l as [|x l IH]; intros [|y l']; simpl; try discriminate;
    [reflexivity|].
  intros [= -> H]. f_equal. now apply IH.
Qed.

Lemma to_datetime_Permutation (keys keys' : list string) (dates dates' : list Timestamp) :
  Permutation keys keys' ->
  to_datetime keys = Ok dates -> to_datetime keys' = Ok dates' ->
  Permutation dates dates'.
Proof.
  intros Hperm Hd Hd'.
  apply to_datetime_parses in Hd, Hd'.
  apply (Permutation_map parse_date) in Hperm. rewrite <- Hd, <- Hd' in Hperm.
  apply Permutation_map_inv in Hperm as (l & Hl & Hperm).
  symmetry in Hl. apply map_Some_inj in Hl. subst l. now symmetry.
Qed.

Lemma date_lt_asym (a b : Timestamp) : date_lt a b -> date_lt b a -> False.
Proof. intros H1 H2. apply (date_lt_irrefl a). eapply date_lt_trans; eassumption. Qed.

(** A list of dates has only one strictly increasing rearrangement. *)
Lemma strictly_sorted_unique (l l' : list Timestamp) :
  Sorted date_lt l -> Sorted date_lt l' -> Permutation l l' -> l = l'.
Proof.
  intros Hs Hs'.
  apply Sorted_StronglySorted in Hs; [|intros a b c; apply date_lt_trans].
  apply Sorted_StronglySorted in Hs'; [|intros a b c; apply date_lt_trans].
  revert l' Hs'. induction Hs as [|x l Hs IH Hall]; intros l' Hs' Hperm.
  - apply Permutation_nil in Hperm. now subst.
  - destruct Hs' as [|y l' Hs' Hall'].
    + symmetry in Hperm. apply Permutation_nil in Hperm. discriminate.
    + assert (Hxy : x = y).
      { rewrite List.Forall_forall in Hall, Hall'.
        assert (Hx : In x (y :: l')) by (eapply Permutation_in; [exact Hperm|now left]).
        assert (Hy : In y (x :: l))
          by (eapply Permutation_in; [symmetry; exact Hperm|now left]).
        destruct Hx as [->|Hx]; [reflexivity|].
        destruct Hy as [->|Hy]; [reflexivity|].
        exfalso. eapply date_lt_asym; [apply Hall, Hy|apply Hall', Hx]. }
      subst y. f_equal. apply IH; [exact Hs'|].
      eapply Permutation_cons_inv, Hperm.
Qed.

(** Two mappings with the same entries in a different order, whose keys
    denote pairwise different days, are normalised to the same sequence of
    dates. *)
Theorem preprocess_data_ignores_key_order
  (data data' : RawSeries) (df df' : DataFrame Timestamp) :
  Permutation data data' ->
  preprocess_data data = Ok df ->
  preprocess_data data' = Ok df' ->
  List.NoDup (index df) ->
  index df = index df'.
Proof.
  intros Hperm Hdf Hdf' Hnd.
  assert (Hinv : forall d r, preprocess_data d = Ok r ->
                   exists dates, to_datetime (map fst (rows d)) = Ok dates
                                 /\ Permutation dates (index r)
                                 /\ Sorted date_le (index r)).
  { intros d r. unfold preprocess_data.
    destruct (from_dict d) as [df0|e] eqn:Efd; simpl; [|discriminate].
    destruct (from_dict_inv d df0 Efd) as (Hidx & _ & _). rewrite Hidx.
    destruct (to_datetime (map fst (rows d))) as [dates|e]; simpl; [|discriminate].
    intros [= <-]. exists dates. split; [reflexivity|].
    apply (sort_index_index {| index := dates; columns := _ |}). }
  destruct (Hinv data df Hdf) as (dates & Hd & Hp & Hs).
  destruct (Hinv data' df' Hdf') as (dates' & Hd' & Hp' & Hs').
  assert (Hdd : Permutation dates dates').
  { eapply to_datetime_Permutation; [|exact Hd|exact Hd'].
    apply Permutation_map. unfold rows. now apply filter_Permutation'. }
  assert (Hii : Permutation (index df) (index df')).
  { rewrite <- Hp, <- Hp'. exact Hdd. }
  apply strictly_sorted_unique; [| |exact Hii].
  - now apply sorted_le_nodup_lt.
  - apply sorted_le_nodup_lt; [exact Hs'|].
    eapply Permutation_NoDup; eassumption.
Qed.

End KeyOrder.

(** * The figure *)

Section PlotFacts.

Implicit Types (st : analyzer) (idx : list Timestamp) (t : Timestamp).

Lemma date_eqb_eq (a b : Timestamp) : date_eqb a b = true <-> a = b.
Proof.
  unfold date_eqb. rewrite !andb_true_iff, !Z.eqb_eq.
  destruct a, b; simpl. split.
  - intros [[-> ->] ->]. reflexivity.
  - intros [= -> -> ->]. auto.
Qed.

Lemma existsb_date_eqb t idx : In t idx -> existsb (date_eqb t) idx = true.
Proof.
  intros H. apply existsb_exists. exists t. split; [exact H|].
  now apply date_eqb_eq.
Qed.

Lemma keep_In {A} (mask : list bool) (l : list A) (x : A) :
  In x (keep mask l) -> In x l.
Proof.
  revert l. induction mask as [|m mask IH]; intros [|y l]; simpl; try tauto.
  destruct m; simpl; intros H.
  - destruct H as [->|H]; [now left|right; now apply IH].
  - right. now apply IH.
Qed.

Lemma length_keep {A B} (mask : list bool) (l : list A) (l' : list B) :
  length l = length l' -> length (keep mask l) = length (keep mask l').
Proof.
  revert l l'. induction mask as [|m mask IH]; intros [|x l] [|y l'];
    simpl; try discriminate; try reflexivity.
  intros [= H]. destruct m; simpl; [f_equal|]; now apply IH.
Qed.

Lemma rows_labelled_absent {A} t idx (l : list A) :
  ~ In t idx -> rows_labelled t idx l = [].
Proof.
  revert l. induction idx as [|d idx IH]; intros [|x l] H; simpl; try reflexivity.
  destruct (date_eqb d t) eqn:E.
  - apply date_eqb_eq in E. subst d. exfalso. apply H. now left.
  - apply IH. intros Hin. apply H. now right.
Qed.

(** On an index without repetition a label selects exactly its row. *)
Lemma rows_labelled_unique {A} t idx (l : list A) (p : nat) (x : A) :
  List.NoDup idx -> idx !! p = Some t -> l !! p = Some x ->
  rows_labelled t idx l = [x].
Proof.
  intros Hnd. revert l p. induction Hnd as [|d idx Hd Hnd IH]; intros l p Ht Hx.
  - destruct p; discriminate.
  - destruct l as [|y l]; [destruct p; discriminate|].
    simpl. destruct p as [|p]; simpl in Ht, Hx.
    + injection Ht as ->. injection Hx as ->.
      rewrite (proj2 (date_eqb_eq t t) eq_refl).
      now rewrite rows_labelled_absent.
    + destruct (date_eqb d t) eqn:E.
      * apply date_eqb_eq in E. subst d. exfalso. apply Hd.
        apply list_elem_of_In. eapply list_elem_of_lookup_2, Ht.
      * eapply IH; eassumption.
Qed.

Lemma loc_keep_suffix {A} idx (l : list A) :
  List.NoDup idx ->
  forall (mask : list bool) (k : nat) (suf : list Timestamp) (lsuf : list A),
    (forall i t, suf !! i = Some t -> idx !! (k + i)%nat = Some t) ->
    (forall i x, lsuf !! i = Some x -> l !! (k + i)%nat = Some x) ->
    length lsuf = length suf ->
    concat (map (fun t => rows_labelled t idx l) (keep mask suf)) = keep mask lsuf.
Proof.
  intros Hnd mask. induction mask as [|m mask IH]; intros k [|t suf] [|x lsuf] Hs Hl Hlen;
    simpl in *; try discriminate; try reflexivity.
  assert (Hrest : concat (map (fun t => rows_labelled t idx l) (keep mask suf))
                  = keep mask lsuf).
  { apply (IH (S k)); [| |lia].
    - intros i t' Hi. replace (S k + i)%nat with (k + S i)%nat by lia. now apply Hs.
    - intros i x' Hi. replace (S k + i)%nat with (k + S i)%nat by lia. now apply Hl. }
  destruct m; [|exact Hrest].
  simpl. rewrite Hrest.
  rewrite (rows_labelled_unique t idx l (k + 0) x Hnd); [reflexivity| |].
  - now apply Hs.
  - now apply Hl.
Qed.

Lemma loc_keep {A} idx (l : list A) (mask : list bool) :
  List.NoDup idx -> length l = length idx ->
  concat (map (fun t => rows_labelled t idx l) (keep mask idx)) = keep mask l.
Proof.
  intros Hnd Hlen. apply (loc_keep_suffix idx l Hnd mask 0); auto.
Qed.

Lemma getitem_map_cols {I J} (idx : list I) (idx' : list J)
  (cols : list (string * Series)) (g : Series -> Series) (name : string) (s : Series) :
  getitem {| index := idx; columns := cols |} name = Ok s ->
  getitem {| index := idx'; columns := map (fun c => (fst c, g (snd c))) cols |} name
  = Ok (g s).
Proof.
  unfold getitem. cbn [columns].
  assert (H : List.filter (fun c => String.eqb name (fst c))
                (map (fun c : string * Series => (fst c, g (snd c))) cols)
              = map (fun c => (fst c, g (snd c)))
                  (List.filter (fun c => String.eqb name (fst c)) cols)).
  { induction cols as [|[n c] cols IH]; simpl; [reflexivity|].
    destruct (String.eqb name n); simpl; now rewrite IH. }
  rewrite H.
  destruct (List.filter _ cols) as [|[n c] [|? ?]]; simpl; try discriminate.
  now intros [= ->].
Qed.

(** Selecting, in a table with pairwise different dates, the rows
    labelled by the dates that a mask keeps gives the rows that the mask
    keeps. *)
Lemma loc_labels_keep (df : DataFrame Timestamp) (mask : list bool) (name : string)
  (s : Series) :
  List.NoDup (index df) ->
  getitem df name = Ok s ->
  length s = length (index df) ->
  exists picked,
    loc_labels df (keep mask (index df)) = Ok picked
    /\ getitem picked name = Ok (keep mask s).
Proof.
  intros Hnd Hs Hlen. unfold loc_labels.
  assert (Hall : forallb (fun t => existsb (date_eqb t) (index df))
                         (keep mask (index df)) = true).
  { apply forallb_forall. intros t Ht. apply existsb_date_eqb. eapply keep_In, Ht. }
  rewrite Hall. eexists. split; [reflexivity|].
  destruct df as [idx cols]. cbn [index columns] in *.
  rewrite (getitem_map_cols idx _ cols
             (fun col => concat (map (fun t => rows_labelled t idx col) (keep mask idx)))
             name s Hs).
  f_equal. now apply loc_keep.
Qed.

Lemma analysis_frame_run st (l : loc) (d : DataFrame Timestamp) :
  analysis st = Some l -> heap st !! l = Some d -> analysis_frame st = (Ok d, st).
Proof. intros Ha Hh. unfold analysis_frame, load. now rewrite Ha, Hh. Qed.

Lemma signals_frame_run st (l : loc) (d : DataFrame Timestamp) :
  signals st = Some l -> heap st !! l = Some d -> signals_frame st = (Ok d, st).
Proof. intros Ha Hh. unfold signals_frame, load. now rewrite Ha, Hh. Qed.

Lemma bind_lift {A B} (r : result A) (k : A -> M B) st :
  bind (lift r) k st = match r with Ok x => k x st | Raise e => (Raise e, st) end.
Proof. unfold bind, lift. now destruct r. Qed.

(** The run of [plot_data] on two aligned tables with pairwise different
    dates. *)
Lemma plot_data_run
  st (la ls : loc) (dfa dfs : DataFrame Timestamp) (close rsi sg : Series) :
  analysis st = Some la -> heap st !! la = Some dfa ->
  signals st = Some ls -> heap st !! ls = Some dfs ->
  getitem dfa "Close" = Ok close ->
  getitem dfa "RSI" = Ok rsi ->
  getitem dfs "Signal" = Ok sg ->
  index dfs = index dfa ->
  List.NoDup (index dfa) ->
  length close = length (index dfa) ->
  plot_data st
  = (Ok {| close_curve := {| xs := index dfa; ys := close |};
           rsi_curve := {| xs := index dfa; ys := rsi |};
           buy_points :=
             {| xs := keep (eq_scalar sg (Fin 1)) (index dfa);
                ys := keep (eq_scalar sg (Fin 1)) close |};
           sell_points :=
             {| xs := keep (eq_scalar sg (Fin (-1))) (index dfa);
                ys := keep (eq_scalar sg (Fin (-1))) close |} |},
     st).
Proof.
  intros Ha Hha Hs Hhs Hclose Hrsi Hsg Hidx Hnd Hlen.
  pose proof (analysis_frame_run st la dfa Ha Hha) as Hfa.
  pose proof (signals_frame_run st ls dfs Hs Hhs) as Hfs.
  destruct (loc_labels_keep dfa (eq_scalar sg (Fin 1)) "Close" close Hnd Hclose Hlen)
    as (pb & Hpb & Hcb).
  destruct (loc_labels_keep dfa (eq_scalar sg (Fin (-1))) "Close" close Hnd Hclose Hlen)
    as (ps & Hps & Hcs).
  assert (Hscatter : forall mask,
             scatter (keep mask (index dfa)) (keep mask close)
             = Ok {| xs := keep mask (index dfa); ys := keep mask close |}).
  { intros mask. unfold scatter.
    rewrite (length_keep mask (index dfa) close) by now symmetry.
    now rewrite Nat.eqb_refl. }
  unfold plot_data.
  rewrite (bind_ok _ _ _ _ _ Hfa), bind_lift, Hclose.
  rewrite (bind_ok _ _ _ _ _ Hfa), bind_lift, Hrsi.
  rewrite (bind_ok _ _ _ _ _ Hfs), bind_lift, Hsg.
  rewrite (bind_ok _ _ _ _ _ Hfs), bind_lift, Hsg.
  unfold select_rows. cbn [index]. rewrite Hidx.
  rewrite (bind_ok _ _ _ _ _ Hfa), bind_lift, Hpb, bind_lift, Hcb, bind_lift, Hscatter.
  rewrite (bind_ok _ _ _ _ _ Hfa), bind_lift, Hps, bind_lift, Hcs, bind_lift, Hscatter.
  reflexivity.
Qed.

(** On two aligned tables with pairwise different dates [plot_data]
    succeeds without touching the analyser: the lines are the closing
    prices and the RSI over the dates, and a Buy (Sell) marker stands at
    exactly the dates whose signal is 1 (-1), at the closing price of that
    date. *)
Theorem plot_data_markers
  st (la ls : loc) (dfa dfs : DataFrame Timestamp) (close rsi sg : Series) :
  analysis st = Some la -> heap st !! la = Some dfa ->
  signals st = Some ls -> heap st !! ls = Some dfs ->
  getitem dfa "Close" = Ok close ->
  getitem dfa "RSI" = Ok rsi ->
  getitem dfs "Signal" = Ok sg ->
  index dfs = index dfa ->
  List.NoDup (index dfa) ->
  length close = length (index dfa) ->
  plot_data st
  = (Ok {| close_curve := {| xs := index dfa; ys := close |};
           rsi_curve := {| xs := index dfa; ys := rsi |};
           buy_points :=
             {| xs := keep (eq_scalar sg (Fin 1)) (index dfa);
                ys := keep (eq_scalar sg (Fin 1)) close |};
           sell_points :=
             {| xs := keep (eq_scalar sg (Fin (-1))) (index dfa);
                ys := keep (eq_scalar sg (Fin (-1))) close |} |},
     st).
Proof.
  intros Ha Hha Hs Hhs Hclose Hrsi Hsg Hidx Hnd Hlen.
  now apply (plot_data_run st la ls dfa dfs close rsi sg).
Qed.

End PlotFacts.

Section PlotOrder.

Implicit Types (st : analyzer).

Lemma reads_only_bind {A B} (m : M A) (k : A -> M B) :
  reads_only m -> (forall x, reads_only (k x)) -> reads_only (bind m k).
Proof.
  intros Hm Hk st. unfold bind. specialize (Hm st).
  destruct (m st) as [[x|e] st1]; simpl in Hm; subst st1; [apply Hk|reflexivity].
Qed.

Lemma reads_only_lift {A} (r : result A) : reads_only (lift r).
Proof. intros st. reflexivity. Qed.

Lemma reads_only_analysis_frame : reads_only analysis_frame.
Proof.
  intros st. unfold analysis_frame, load.
  destruct (analysis st); [|reflexivity]. now destruct (heap st !! _).
Qed.

Lemma reads_only_signals_frame : reads_only signals_frame.
Proof.
  intros st. unfold signals_frame, load.
  destruct (signals st); [|reflexivity]. now destruct (heap st !! _).
Qed.

Lemma reads_only_plot_data : reads_only plot_data.
Proof.
  unfold plot_data.
  repeat (apply reads_only_bind;
          [first [apply reads_only_analysis_frame
                 |apply reads_only_signals_frame
                 |apply reads_only_lift]
          |intros ?]).
  intros st. reflexivity.
Qed.

Lemma bind_fst_raise {A B} (m : M A) (k : A -> M B) st (e : exn) :
  fst (m st) = Raise e -> fst (bind m k st) = Raise e.
Proof.
  intros H. unfold bind. destruct (m st) as [[x|e'] st']; simpl in *;
    [discriminate|]. now injection H as ->.
Qed.

(** [plot_data] never changes the analyser; called before the analysis it
    fails with a [TypeError], and without a signal table it never returns
    a figure. *)
Theorem plot_data_needs_both_tables st :
  snd (plot_data st) = st
  /\ (analysis st = None ->
      fst (plot_data st)
      = Raise (TypeError "'NoneType' object is not subscriptable"))
  /\ (signals st = None -> exists e, fst (plot_data st) = Raise e).
Proof.
  split; [apply reads_only_plot_data|]. split.
  - intros Ha. unfold plot_data. apply bind_fst_raise.
    unfold analysis_frame. now rewrite Ha.
  - intros Hs. unfold plot_data.
    assert (Hsf : forall s, signals s = None ->
                    signals_frame s
                    = (Raise (TypeError "'NoneType' object is not subscriptable"), s)).
    { intros s H. unfold signals_frame. now rewrite H. }
    assert (Haf : exists r, analysis_frame st = (r, st)).
    { pose proof (reads_only_analysis_frame st) as Hro.
      destruct (analysis_frame st) as [r st1]. simpl in Hro. subst st1. eauto. }
    destruct Haf as ([a|e] & Haf); [|erewrite bind_raise by exact Haf; eauto].
    rewrite (bind_ok _ _ _ _ _ Haf), bind_lift.
    destruct (getitem a "Close"); [|eauto].
    rewrite (bind_ok _ _ _ _ _ Haf), bind_lift.
    destruct (getitem a "RSI"); [|eauto].
    erewrite bind_raise by (apply Hsf, Hs). eauto.
Qed.

Lemma plot_data_needs_both_tables_witness :
  analysis created = None
  /\ fst (plot_data created)
     = Raise (TypeError "'NoneType' object is not subscriptable")
  /\ signals demo_state = None
  /\ exists e, fst (plot_data demo_state) = Raise e.
Proof.
  split; [reflexivity|]. split.
  - apply (proj1 (proj2 (plot_data_needs_both_tables created))). reflexivity.
  - split; [reflexivity|].
    apply (proj2 (proj2 (plot_data_needs_both_tables demo_state))). reflexivity.
Defined.

End PlotOrder.

Section PlotDuplicates.

Implicit Types (st : analyzer) (idx : list Timestamp) (t : Timestamp).

Lemma rows_labelled_present {A} t idx (l : list A) :
  In t idx -> length l = length idx ->
  (1 <= length (rows_labelled t idx l))%nat.
Proof.
  revert l. induction idx as [|d idx IH]; intros [|x l] Hin Hlen; simpl in *;
    try contradiction; try discriminate.
  destruct (date_eqb d t) eqn:E; [simpl; lia|].
  destruct Hin as [->|Hin].
  - rewrite (proj2 (date_eqb_eq t t) eq_refl) in E. discriminate.
  - apply IH; [exact Hin|lia].
Qed.

Lemma rows_labelled_twice {A} t idx (l : list A) (p q : nat) :
  p <> q -> idx !! p = Some t -> idx !! q = Some t -> length l = length idx ->
  (2 <= length (rows_labelled t idx l))%nat.
Proof.
  revert l p q. induction idx as [|d idx IH]; intros [|x l] p q Hpq Hp Hq Hlen;
    simpl in *; try discriminate.
  assert (Hone : forall r, idx !! r = Some t ->
                   (1 <= length (rows_labelled t idx l))%nat).
  { intros r Hr. apply rows_labelled_present; [|lia].
    apply list_elem_of_In. eapply list_elem_of_lookup_2, Hr. }
  destruct p as [|p], q as [|q]; simpl in Hp, Hq; try congruence.
  - injection Hp as ->. rewrite (proj2 (date_eqb_eq t t) eq_refl).
    simpl. specialize (Hone q Hq). lia.
  - injection Hq as ->. rewrite (proj2 (date_eqb_eq t t) eq_refl).
    simpl. specialize (Hone p Hp). lia.
  - assert (H2 : (2 <= length (rows_labelled t idx l))%nat)
      by (apply (IH l p q); [congruence|assumption|assumption|lia]).
    destruct (date_eqb d t); simpl; lia.
Qed.

Lemma keep_lookup_In {A} (mask : list bool) (l : list A) (p : nat) (x : A) :
  mask !! p = Some true -> l !! p = Some x -> In x (keep mask l).
Proof.
  revert l p. induction mask as [|m mask IH]; intros [|y l] [|p]; simpl;
    try discriminate.
  - intros [= ->] [= ->]. now left.
  - intros Hm Hl. destruct m; [right|]; eapply IH; eassumption.
Qed.

Lemma length_concat_rows {A} (f : Timestamp -> list A) (labels : list Timestamp) t :
  (forall u, In u labels -> (1 <= length (f u))%nat) ->
  In t labels -> (2 <= length (f t))%nat ->
  (length labels < length (concat (map f labels)))%nat.
Proof.
  intros Hall Hin Htwo.
  assert (Hge : forall ls, (forall u, In u ls -> (1 <= length (f u))%nat) ->
                  (length ls <= length (concat (map f ls)))%nat).
  { induction ls as [|u ls IH]; intros H; simpl; [lia|].
    rewrite length_app. specialize (H u (or_introl eq_refl)) as Hu.
    assert ((length ls <= length (concat (map f ls)))%nat)
      by (apply IH; intros v Hv; apply H; now right).
    lia. }
  induction labels as [|u labels IH]; [contradiction|].
  simpl. rewrite length_app.
  pose proof (Hall u (or_introl eq_refl)) as Hu.
  destruct Hin as [->|Hin].
  - assert ((length labels <= length (concat (map f labels)))%nat)
      by (apply Hge; intros v Hv; apply Hall; now right).
    lia.
  - assert ((length labels < length (concat (map f labels)))%nat)
      by (apply IH; [intros v Hv; apply Hall; now right|exact Hin]).
    lia.
Qed.

(** The marker coordinates when a kept date occurs twice in the index:
    more closing prices than dates. *)
Lemma scatter_on_repeated_date (dfa : DataFrame Timestamp) (close : Series)
  (mask : list bool) (p q : nat) t :
  getitem dfa "Close" = Ok close ->
  length close = length (index dfa) ->
  p <> q -> index dfa !! p = Some t -> index dfa !! q = Some t ->
  mask !! p = Some true ->
  exists picked y,
    loc_labels dfa (keep mask (index dfa)) = Ok picked
    /\ getitem picked "Close" = Ok y
    /\ scatter (keep mask (index dfa)) y
       = Raise (ValueError "x and y must be the same size").
Proof.
  intros Hclose Hlen Hpq Hp Hq Hm. unfold loc_labels.
  assert (Hall : forallb (fun t => existsb (date_eqb t) (index dfa))
                         (keep mask (index dfa)) = true).
  { apply forallb_forall. intros u Hu. apply existsb_date_eqb. eapply keep_In, Hu. }
  rewrite Hall. destruct dfa as [idx cols]. cbn [index columns] in *.
  do 2 eexists. split; [reflexivity|].
  split.
  - apply (getitem_map_cols idx _ cols
             (fun col => concat (map (fun t => rows_labelled t idx col) (keep mask idx)))
             "Close" close Hclose).
  - unfold scatter.
    assert (Hlt : (length (keep mask idx)
                   < length (concat (map (fun t => rows_labelled t idx close)
                                         (keep mask idx))))%nat).
    { apply (length_concat_rows _ _ t).
      - intros u Hu. apply rows_labelled_present; [eapply keep_In, Hu|exact Hlen].
      - eapply keep_lookup_In; eassumption.
      - eapply rows_labelled_twice; eassumption. }
    destruct (Nat.eqb_spec (length (keep mask idx))
                (length (concat (map (fun t => rows_labelled t idx close)
                                     (keep mask idx))))) as [E|_]; [lia|reflexivity].
Qed.

Lemma scatter_error (x : list Timestamp) (y : Series) (e : exn) :
  scatter x y = Raise e -> e = ValueError "x and y must be the same size".
Proof.
  unfold scatter. destruct (length x =? length y)%nat; [discriminate|].
  now intros [= <-].
Qed.

(** When a date that carries a Buy or a Sell signal occurs twice in the
    index, [plot_data] fails: the plotting library receives more closing
    prices than dates for the markers and refuses them. *)
Theorem plot_data_fails_on_repeated_signal_date
  st (la ls : loc) (dfa dfs : DataFrame Timestamp) (close rsi sg : Series)
  (p q : nat) (t : Timestamp) (x : fl) :
  analysis st = Some la -> heap st !! la = Some dfa ->
  signals st = Some ls -> heap st !! ls = Some dfs ->
  getitem dfa "Close" = Ok close ->
  getitem dfa "RSI" = Ok rsi ->
  getitem dfs "Signal" = Ok sg ->
  index dfs = index dfa ->
  length close = length (index dfa) ->
  p <> q -> index dfa !! p = Some t -> index dfa !! q = Some t ->
  sg !! p = Some x ->
  fl_eqb x (Fin 1) = true \/ fl_eqb x (Fin (-1)) = true ->
  plot_data st = (Raise (ValueError "x and y must be the same size"), st).
Proof.
  intros Ha Hha Hs Hhs Hclose Hrsi Hsg Hidx Hlen Hpq Hp Hq Hx Hsignal.
  pose proof (analysis_frame_run st la dfa Ha Hha) as Hfa.
  pose proof (signals_frame_run st ls dfs Hs Hhs) as Hfs.
  assert (Hmask : forall c, fl_eqb x c = true -> eq_scalar sg c !! p = Some true).
  { intros c Hc. unfold eq_scalar. rewrite map_fmap, list_lookup_fmap, Hx.
    simpl. now rewrite Hc. }
  unfold plot_data.
  rewrite (bind_ok _ _ _ _ _ Hfa), bind_lift, Hclose.
  rewrite (bind_ok _ _ _ _ _ Hfa), bind_lift, Hrsi.
  rewrite (bind_ok _ _ _ _ _ Hfs), bind_lift, Hsg.
  rewrite (bind_ok _ _ _ _ _ Hfs), bind_lift, Hsg.
  unfold select_rows. cbn [index]. rewrite Hidx.
  rewrite (bind_ok _ _ _ _ _ Hfa), bind_lift.
  destruct Hsignal as [Hbuy|Hsell].
  - destruct (scatter_on_repeated_date dfa close (eq_scalar sg (Fin 1)) p q t
                Hclose Hlen Hpq Hp Hq (Hmask _ Hbuy)) as (picked & y & -> & Hy & Hsc).
    now rewrite bind_lift, Hy, bind_lift, Hsc.
  - assert (Hall : forallb (fun t => existsb (date_eqb t) (index dfa))
                           (keep (eq_scalar sg (Fin 1)) (index dfa)) = true).
    { apply forallb_forall. intros u Hu. apply existsb_date_eqb. eapply keep_In, Hu. }
    unfold loc_labels at 1. rewrite Hall.
    rewrite bind_lift.
    destruct dfa as [idx cols]. cbn [index columns] in *.
    rewrite (getitem_map_cols idx _ cols
               (fun col => concat (map (fun t => rows_labelled t idx col)
                                       (keep (eq_scalar sg (Fin 1)) idx)))
               "Close" close Hclose).
    set (buy_close := concat (map (fun t => rows_labelled t idx close)
                                  (keep (eq_scalar sg (Fin 1)) idx))).
    rewrite bind_lift.
    destruct (scatter _ buy_close) as [buy|e] eqn:Esc.
    2:{ apply scatter_error in Esc. now subst e. }
    rewrite (bind_ok _ _ _ _ _ Hfa), bind_lift.
    destruct (scatter_on_repeated_date {| index := idx; columns := cols |} close
                (eq_scalar sg (Fin (-1))) p q t
                Hclose Hlen Hpq Hp Hq (Hmask _ Hsell)) as (picked & y & Hl & Hy & Hsc).
    cbn [index] in Hl, Hsc. rewrite Hl.
    now rewrite bind_lift, Hy, bind_lift, Hsc.
Qed.

End PlotDuplicates.

(** * The whole program *)

Section WholeRun.

Implicit Types (c : config) (get : string -> http_response) (series : RawSeries).

Lemma ltb_30_excludes_gtb_70 (x : fl) :
  fl_ltb x (Fin 30) = true -> fl_gtb x (Fin 70) = false.
Proof.
  destruct x as [| | |r]; simpl; try reflexivity; try discriminate.
  intros H. apply negb_true_iff in H. apply negb_false_iff.
  apply Qle_bool_iff.
  assert (Hn : ~ (30 <= r)%Q) by (rewrite <- Qle_bool_iff; congruence).
  lra.
Qed.

(** The rows marked Buy are those with an RSI below 30, the rows marked
    Sell those with an RSI above 70. *)
Lemma signal_masks (rsi : Series) :
  eq_scalar (signal_column rsi (length rsi)) (Fin 1) = lt_scalar rsi (Fin 30)
  /\ eq_scalar (signal_column rsi (length rsi)) (Fin (-1)) = gt_scalar rsi (Fin 70).
Proof.
  unfold eq_scalar, lt_scalar, gt_scalar. rewrite !map_fmap.
  split; apply list_eq; intros i; rewrite !list_lookup_fmap;
    destruct (rsi !! i) as [x|] eqn:Ex.
  - rewrite (lookup_signal_column rsi _ i x) by (eauto using lookup_lt_Some).
    cbn [fmap option_fmap option_map]. f_equal.
    destruct (fl_ltb x (Fin 30)); [reflexivity|].
    destruct (fl_gtb x (Fin 70)); reflexivity.
  - rewrite (proj2 (lookup_ge_None _ _)); [reflexivity|].
    rewrite length_signal_column. now apply lookup_ge_None.
  - rewrite (lookup_signal_column rsi _ i x) by (eauto using lookup_lt_Some).
    cbn [fmap option_fmap option_map]. f_equal.
    destruct (fl_ltb x (Fin 30)) eqn:E.
    + now rewrite ltb_30_excludes_gtb_70.
    + destruct (fl_gtb x (Fin 70)); reflexivity.
  - rewrite (proj2 (lookup_ge_None _ _)); [reflexivity|].
    rewrite length_signal_column. now apply lookup_ge_None.
Qed.

Lemma preprocess_data_index (data : RawSeries) (df : DataFrame Timestamp) :
  preprocess_data data = Ok df ->
  exists dates,
    to_datetime (map fst (rows data)) = Ok dates
    /\ Permutation dates (index df)
    /\ Sorted date_le (index df).
Proof.
  unfold preprocess_data.
  destruct (from_dict data) as [df0|e] eqn:Efd; simpl; [|discriminate].
  destruct (from_dict_inv data df0 Efd) as (Hidx & _ & _). rewrite Hidx.
  destruct (to_datetime (map fst (rows data))) as [dates|e]; simpl; [|discriminate].
  intros [= <-]. exists dates. split; [reflexivity|].
  apply (sort_index_index {| index := dates; columns := _ |}).
Qed.

(** The run stops before any analysis when the server does not answer
    with status 200, and when it answers 200 with a body that has no
    time-series entry: the first is a [ConnectionError] on an analyser that
    holds nothing, the second the [KeyError] of the entry on an analyser
    that holds only the body. *)
Theorem run_stops_before_analysis c get :
  (status_code (get (query_url c)) <> 200 ->
   run c get
   = (inr (ConnectionError "Failed to fetch data from Alpha Vantage."), created))
  /\ (status_code (get (query_url c)) = 200 ->
      assoc time_series_key (json (get (query_url c))) = None ->
      run c get
      = (inr (Analysis (KeyError time_series_key)),
         fetched (json (get (query_url c))))).
Proof.
  split.
  - intros Hs. unfold run, fetch_currency_data.
    apply Z.eqb_neq in Hs. now rewrite Hs.
  - intros Hs Hts. unfold run, fetch_currency_data. rewrite Hs. simpl.
    change {| heap := ∅; data := Some (json (get (query_url c)));
              analysis := None; signals := None |}
      with (fetched (json (get (query_url c)))).
    unfold analyze_currency_strength.
    erewrite (bind_ok get_data) by reflexivity.
    erewrite bind_raise by (unfold lift, subscript; now rewrite Hts).
    reflexivity.
Qed.

(** On a body that can be analysed and whose keys denote pairwise
    different days, the whole run returns a figure: the closing prices and
    the RSI of the analysis table that the run stores, over its dates, a
    Buy marker at exactly the dates at which that RSI is below 30 and a
    Sell marker at exactly the dates at which it is above 70, each at the
    closing price of its date. *)
Theorem run_draws_the_signals c get series (dates : list Timestamp) :
  status_code (get (query_url c)) = 200 ->
  assoc time_series_key (json (get (query_url c))) = Some series ->
  analysable series ->
  to_datetime (map fst (rows series)) = Ok dates ->
  List.NoDup dates ->
  exists fig st la dfa close rsi,
    run c get = (inl fig, st)
    /\ analysis st = Some la
    /\ heap st !! la = Some dfa
    /\ getitem dfa "Close" = Ok close
    /\ getitem dfa "RSI" = Ok rsi
    /\ fig = {| close_curve := {| xs := index dfa; ys := close |};
                rsi_curve := {| xs := index dfa; ys := rsi |};
                buy_points :=
                  {| xs := keep (lt_scalar rsi (Fin 30)) (index dfa);
                     ys := keep (lt_scalar rsi (Fin 30)) close |};
                sell_points :=
                  {| xs := keep (gt_scalar rsi (Fin 70)) (index dfa);
                     ys := keep (gt_scalar rsi (Fin 70)) close |} |}.
Proof.
  intros Hstatus Hts Hok Hdates Hnd.
  set (body := json (get (query_url c))) in *.
  destruct (analysable_table series Hok)
    as (df0 & close & Hdf & Hclose & Hrsi0 & Hsig0 & Hpos0 & Hidx & Hlc & Hrows).
  pose proof (analyze_after_preprocess (fetched body) body series df0 eq_refl Hts Hdf)
    as Hrun1.
  rewrite Hclose in Hrun1.
  set (rsi := (fun i => rsi_of (window_mean 14 (gains close) i)
                               (window_mean 14 (losses close) i))
                <$> seq 0 (length close)) in *.
  assert (Hlr : length rsi = length (index df0)).
  { unfold rsi. now rewrite length_fmap, length_seq. }
  assert (Hset : setitem df0 "RSI" rsi
                 = {| index := index df0; columns := columns df0 ++ [("RSI", rsi)] |}).
  { unfold setitem. now rewrite Hrsi0. }
  rewrite Hset in Hrun1.
  set (dfa := {| index := index df0; columns := columns df0 ++ [("RSI", rsi)] |}) in *.
  match type of Hrun1 with _ = (_, ?s) => set (st1 := s) in * end.
  set (la := fresh (dom (heap (fetched body)))) in *.
  assert (Hga : getitem dfa "RSI" = Ok rsi) by now apply (getitem_appended df0).
  assert (Hgc : getitem dfa "Close" = Ok close).
  { unfold dfa. rewrite getitem_append_other by discriminate.
    destruct df0. exact Hclose. }
  assert (Hns : has_col dfa "Signal" = false).
  { unfold dfa. rewrite has_col_append.
    replace (has_col {| index := index df0; columns := columns df0 |} "Signal")
      with (has_col df0 "Signal") by reflexivity.
    now rewrite Hsig0. }
  assert (Hnp : has_col dfa "Position" = false).
  { unfold dfa. rewrite has_col_append.
    replace (has_col {| index := index df0; columns := columns df0 |} "Position")
      with (has_col df0 "Position") by reflexivity.
    now rewrite Hpos0. }
  assert (Hh1 : heap st1 !! la = Some dfa) by apply lookup_insert_eq.
  pose proof (generate_trade_signals_run st1 la dfa rsi eq_refl Hh1 Hga Hns Hnp Hidx)
    as Hrun2.
  assert (Hlr' : length rsi = length (index dfa)) by exact Hlr.
  rewrite <- Hlr' in Hrun2.
  set (sg := signal_column rsi (length rsi)) in *.
  set (dfs := {| index := index dfa;
                 columns := columns dfa ++ [("Signal", sg); ("Position", shift sg)] |}) in *.
  set (ls := fresh (dom (heap st1))) in *.
  match type of Hrun2 with _ = (_, ?s) => set (st2 := s) in * end.
  assert (Hne : ls <> la) by (eapply fresh_not_allocated, Hh1).
  assert (Hnd0 : List.NoDup (index df0)).
  { destruct (preprocess_data_index series df0 Hdf) as (dates' & Hd' & Hperm & _).
    rewrite Hdates in Hd'. injection Hd' as <-.
    eapply Permutation_NoDup; eassumption. }
  assert (Hh2 : heap st2 !! la = Some dfa).
  { unfold st2. cbn [heap]. rewrite lookup_insert_ne; [exact Hh1|exact Hne]. }
  assert (Hhs : heap st2 !! ls = Some dfs) by apply lookup_insert_eq.
  assert (Hsgn : getitem dfs "Signal" = Ok sg)
    by (unfold dfs; apply getitem_signal; exact Hns).
  pose proof (plot_data_run st2 la ls dfa dfs close rsi sg
                eq_refl Hh2 eq_refl Hhs Hgc Hga Hsgn eq_refl Hnd0 Hlc) as Hplot.
  destruct (signal_masks rsi) as [Hbuy Hsell]. fold sg in Hbuy, Hsell.
  rewrite Hbuy, Hsell in Hplot.
  exists {| close_curve := {| xs := index dfa; ys := close |};
            rsi_curve := {| xs := index dfa; ys := rsi |};
            buy_points :=
              {| xs := keep (lt_scalar rsi (Fin 30)) (index dfa);
                 ys := keep (lt_scalar rsi (Fin 30)) close |};
            sell_points :=
              {| xs := keep (gt_scalar rsi (Fin 70)) (index dfa);
                 ys := keep (gt_scalar rsi (Fin 70)) close |} |},
         st2, la, dfa, close, rsi.
  split.
  - unfold run, fetch_currency_data. rewrite Hstatus. simpl.
    change {| heap := ∅; data := Some (json (get (query_url c)));
              analysis := None; signals := None |}
      with (fetched body).
    rewrite Hrun1, Hrun2, Hplot. reflexivity.
  - repeat split; try assumption; reflexivity.
Qed.

End WholeRun.

(** * Running the signal generator again *)

(** Calling [generate_trade_signals] a second time builds the same table
    again in a new object; the table of the first call stays in the heap,
    unchanged, but [self.signals] no longer refers to it. *)
Theorem generate_trade_signals_twice
  (st : analyzer) (df : DataFrame Timestamp) (rsi : Series) :
  analysis_table st df rsi ->
  exists st1 st2 ls1 ls2 dfs,
    generate_trade_signals st = (Ok tt, st1)
    /\ generate_trade_signals st1 = (Ok tt, st2)
    /\ signals st1 = Some ls1
    /\ signals st2 = Some ls2
    /\ ls1 <> ls2
    /\ heap st1 !! ls1 = Some dfs
    /\ heap st2 !! ls2 = Some dfs
    /\ heap st2 !! ls1 = Some dfs
    /\ analysis st2 = analysis st.
Proof.
  intros ((la & Ha & Hh) & Hrsi & Hsig & Hpos & Hidx & Hlen).
  pose proof (generate_trade_signals_run st la df rsi Ha Hh Hrsi Hsig Hpos Hidx) as H1.
  match type of H1 with _ = (_, ?s) => set (st1 := s) in * end.
  assert (Hh1 : heap st1 !! la = Some df).
  { unfold st1. cbn [heap]. rewrite lookup_insert_ne; [exact Hh|].
    eapply fresh_not_allocated, Hh. }
  assert (Ha1 : analysis st1 = Some la) by exact Ha.
  pose proof (generate_trade_signals_run st1 la df rsi Ha1 Hh1 Hrsi Hsig Hpos Hidx) as H2.
  match type of H2 with _ = (_, ?s) => set (st2 := s) in * end.
  assert (Hl1 : heap st1 !! fresh (dom (heap st)) = Some
                  {| index := index df;
                     columns := columns df
                       ++ [("Signal", signal_column rsi (length (index df)));
                           ("Position", shift (signal_column rsi (length (index df))))] |})
    by apply lookup_insert_eq.
  assert (Hne : fresh (dom (heap st1)) <> fresh (dom (heap st)))
    by (eapply fresh_not_allocated, Hl1).
  exists st1, st2, (fresh (dom (heap st))), (fresh (dom (heap st1))). eexists.
  split; [exact H1|]. split; [exact H2|].
  split; [reflexivity|]. split; [reflexivity|]. split; [congruence|].
  split; [exact Hl1|]. split; [apply lookup_insert_eq|].
  split; [|exact eq_refl].
  unfold st2. cbn [heap]. rewrite lookup_insert_ne; [exact Hl1|exact Hne].
Qed.

Lemma generate_trade_signals_twice_witness :
  analysis_table demo_state demo_table demo_rsi
  /\ exists st1 st2 ls1 ls2,
       generate_trade_signals demo_state = (Ok tt, st1)
       /\ generate_trade_signals st1 = (Ok tt, st2)
       /\ signals st1 = Some ls1
       /\ signals st2 = Some ls2
       /\ ls1 <> ls2
       /\ heap st2 !! ls2 = heap st2 !! ls1.
Proof.
  split; [exact demo_state_analysis_table|].
  destruct (generate_trade_signals_twice demo_state demo_table demo_rsi
              demo_state_analysis_table)
    as (st1 & st2 & ls1 & ls2 & dfs & H1 & H2 & Hs1 & Hs2 & Hne & _ & Hh2 & Hh1 & _).
  exists st1, st2, ls1, ls2. repeat split; try assumption. congruence.
Defined.

(** * Witnesses of the further statements *)

Ltac in_cases H :=
  repeat (destruct H as [H|H]; [try (injection H as <- <-)|]);
  try contradiction.





Lemma response_without_time_series_witness :
  pipeline (fetched [("Note", [])]) = (Raise (KeyError time_series_key), fetched [("Note", [])]).
Proof.
  apply (response_without_time_series (fetched [("Note", [])]) [("Note", [])]);
    reflexivity.
Defined.

Lemma three_days_analysable : analysable three_days.
Proof.
  split; [|split; [|split]].
  - intros key record label v Hin Hv. in_cases Hin; in_cases Hv; simpl; tauto.
  - intros key record label v Hin Hv. in_cases Hin; in_cases Hv; eexists; reflexivity.
  - intros key record Hin _. in_cases Hin; eexists; reflexivity.
  - do 3 eexists. split; [left; reflexivity|]. do 3 right. left. reflexivity.
Defined.

Lemma fifteen_days_analysable : analysable fifteen_days.
Proof.
  split; [|split; [|split]].
  - intros key record label v Hin Hv. in_cases Hin; in_cases Hv; simpl; tauto.
  - intros key record label v Hin Hv. in_cases Hin; in_cases Hv; eexists; reflexivity.
  - intros key record Hin _. in_cases Hin; eexists; reflexivity.
  - do 3 eexists. split; [left; reflexivity|]. left. reflexivity.
Defined.

Lemma pipeline_succeeds_on_analysable_input_witness :
  analysable three_days
  /\ exists st' la ls,
       pipeline (fetched three_days_response) = (Ok tt, st')
       /\ analysis st' = Some la
       /\ signals st' = Some ls
       /\ la <> ls.
Proof.
  split; [exact three_days_analysable|].
  destruct (pipeline_succeeds_on_analysable_input (fetched three_days_response)
              three_days_response three_days eq_refl eq_refl three_days_analysable)
    as (st' & la & ls & dfa & dfs & Hrun & Ha & Hs & Hne & _).
  exists st', la, ls. repeat split; assumption.
Defined.

Lemma short_series_gives_no_signal_witness :
  (length (rows three_days) < 14)%nat
  /\ exists st' ls dfs,
       pipeline (fetched three_days_response) = (Ok tt, st')
       /\ signals st' = Some ls
       /\ heap st' !! ls = Some dfs
       /\ getitem dfs "Signal" = Ok [Neutral; Neutral; Neutral].
Proof.
  split; [simpl; lia|].
  destruct (short_series_gives_no_signal (fetched three_days_response)
              three_days_response three_days eq_refl eq_refl three_days_analysable)
    as (st' & ls & dfs & Hrun & Hs & Hh & _ & Hsig & _); [simpl; lia|].
  exists st', ls, dfs. repeat split; assumption.
Defined.

Lemma preprocess_data_keeps_records_witness :
  exists df order,
    preprocess_data three_days = Ok df
    /\ Permutation order (seq 0 (length (rows three_days))).
Proof.
  eexists. edestruct (preprocess_data_keeps_records three_days) as (order & Hperm & _);
    [vm_compute; reflexivity|].
  exists order. split; [reflexivity|exact Hperm].
Defined.

Lemma preprocess_data_ignores_key_order_witness :
  exists df df',
    preprocess_data three_days = Ok df
    /\ preprocess_data (rev three_days) = Ok df'
    /\ index df = index df'.
Proof.
  do 2 eexists. split; [vm_compute; reflexivity|]. split; [vm_compute; reflexivity|].
  eapply (preprocess_data_ignores_key_order three_days (rev three_days)).
  - apply Permutation_rev.
  - vm_compute. reflexivity.
  - vm_compute. reflexivity.
  - repeat constructor; simpl; intros H; in_cases H; discriminate.
Defined.

Lemma plot_data_markers_witness :
  exists fig,
    fst (plot_data (snd (generate_trade_signals demo_state))) = Ok fig
    /\ xs (buy_points fig) = [ {| year := 2024; month := 1; day := 5 |} ]
    /\ xs (sell_points fig) = [ {| year := 2024; month := 1; day := 2 |} ].
Proof.
  eexists.
  erewrite (plot_data_markers (snd (generate_trade_signals demo_state))
              1%positive 2%positive demo_table _
              [Fin 1; Fin 2; Fin 2; Fin 1; Fin 1] demo_rsi
              [Neutral; Sell; Neutral; Neutral; Buy]).
  - simpl fst. split; [reflexivity|]. split; vm_compute; reflexivity.
  - reflexivity.
  - vm_compute. reflexivity.
  - vm_compute. reflexivity.
  - vm_compute. reflexivity.
  - vm_compute. reflexivity.
  - vm_compute. reflexivity.
  - vm_compute. reflexivity.
  - reflexivity.
  - repeat constructor; simpl; intros H; in_cases H; discriminate.
  - reflexivity.
Defined.

Lemma plot_data_fails_on_repeated_signal_date_witness :
  plot_data repeated_state
  = (Raise (ValueError "x and y must be the same size"), repeated_state).
Proof.
  eapply (plot_data_fails_on_repeated_signal_date repeated_state 1%positive 2%positive
            repeated_analysis repeated_signals _ _ _ 2 3
            {| year := 2024; month := 1; day := 3 |} (Fin 1)).
  - reflexivity.
  - vm_compute. reflexivity.
  - reflexivity.
  - vm_compute. reflexivity.
  - vm_compute. reflexivity.
  - vm_compute. reflexivity.
  - vm_compute. reflexivity.
  - reflexivity.
  - reflexivity.
  - discriminate.
  - reflexivity.
  - reflexivity.
  - reflexivity.
  - left. reflexivity.
Defined.

Lemma run_stops_before_analysis_witness :
  run euro_dollar (answering 503 empty_response)
  = (inr (ConnectionError "Failed to fetch data from Alpha Vantage."), created)
  /\ run euro_dollar (answering 200 [("Note", [])])
     = (inr (Analysis (KeyError time_series_key)), fetched [("Note", [])]).
Proof.
  split.
  - apply (proj1 (run_stops_before_analysis euro_dollar (answering 503 empty_response))).
    discriminate.
  - apply (proj2 (run_stops_before_analysis euro_dollar (answering 200 [("Note", [])])));
      reflexivity.
Defined.

Lemma run_draws_the_signals_witness :
  exists fig st,
    run euro_dollar (answering 200 [(time_series_key, fifteen_days)]) = (inl fig, st)
    /\ xs (buy_points fig) = []
    /\ xs (sell_points fig)
       = [ {| year := 2024; month := 1; day := 14 |};
           {| year := 2024; month := 1; day := 15 |} ].
Proof.
  edestruct (run_draws_the_signals euro_dollar
               (answering 200 [(time_series_key, fifteen_days)]) fifteen_days)
    as (fig & st & la & dfa & close & rsi & Hrun & Ha & Hh & Hc & Hr & Hfig).
  - reflexivity.
  - reflexivity.
  - exact fifteen_days_analysable.
  - vm_compute. reflexivity.
  - repeat constructor; simpl; intros H; in_cases H; discriminate.
  - exists fig, st. split; [exact Hrun|].
    assert (E : run euro_dollar (answering 200 [(time_series_key, fifteen_days)])
                = (inl fig, st)) by exact Hrun.
    vm_compute in E. injection E as <- _. split; reflexivity.
Defined.
